(** * The resilient AI-request pipeline of the travel planner's edge functions

    A shallow embedding of the Deno edge functions under
    [supabase/functions/*/index.ts] (travel-chat, location-recommendations,
    destination-suggestions, generate-itinerary, comprehensive-itinerary):
    the shared retry loop [fetchWithRetry], the "scan the reply for a JSON
    object" block, the fallback builders and the request handlers; and of
    the browser-side services that call them, [services/openaiService.ts]
    and [services/comprehensiveAIService.ts].

    The numbers the handlers compute with are whole numbers, modelled by
    [Z]: a double holds an integer exactly up to 2^53 in absolute value,
    and a statement that depends on a product of such numbers bounds it;
    a duration that is not a whole number of days is outside the model.
    A number inside a JSON document is a rational.  A [string] holds the
    UTF-8 bytes of a JavaScript string, arrays are [list]s, an object
    literal is the association list of its properties in source order,
    and a promise that may reject is a sum type. *)

From stdpp Require Import base list strings numbers pretty sorting.
From Stdlib Require Import ZArith QArith Lia Ascii.

Local Open Scope string_scope.
Local Open Scope Z_scope.

(** ** JavaScript values that cross the handlers *)

(** A thrown [Error] object: its constructor name and its message. *)
Record Error := mkError { errName : string; errMessage : string }.

(** [new Error(msg)] *)
Definition newError (msg : string) : Error := mkError "Error" msg.

(** The part of a fetch [Response] the handlers look at. *)
Record Response := mkResponse {
  status : Z;
  statusText : string;
  bodyText : string
}.

(** [response.ok]: the status is in the range 200..299. *)
Definition ok (r : Response) : bool :=
  (200 <=? status r) && (status r <=? 299).

(** How an awaited promise settles. *)
Inductive Settled (A : Type) : Type :=
| Fulfilled (a : A)
| Rejected (e : Error).
Arguments Fulfilled {A} a.
Arguments Rejected {A} e.

(** ** The request dispatcher: [fetchWithRetry] *)

Module Dispatcher.

(** The network as one call of [fetchWithRetry] sees it: what the
    [fetch(url, options)] issued in loop iteration [attempt] settles to.
    The url and the options are the same in every iteration. *)
Definition Transport := Z -> Settled Response.

(** What a run does besides computing its result. *)
Inductive Event :=
| EvFetch (attempt : Z)        (* await fetch(url, options) *)
| EvLog (line : string)        (* console.log(...) *)
| EvSleep (delay : Z).         (* await new Promise(r => setTimeout(r, delay)) *)

(** [response.status === 429 || response.status >= 500] *)
Definition badStatus (response : Response) : bool :=
  (status response =? 429) || (500 <=? status response).

(** [Math.pow(2, attempt) * 1000] *)
Definition backoff (attempt : Z) : Z := 2 ^ attempt * 1000.

(** The template of both [console.log] calls; [what] is
    ['Rate limited'], ['Server error'] or ['Request failed']. *)
Definition retryLine (what : string) (delay attempt maxRetries : Z) : string :=
  what +:+ ", retrying in " +:+ pretty delay +:+ "ms (attempt " +:+
  pretty (attempt + 1) +:+ "/" +:+ pretty (maxRetries + 1) +:+ ")".

(** The body of [for (let attempt = 0; attempt <= maxRetries; attempt++)],
    by recursion on the number [n] of iterations left; [attempt] and
    [lastError] are the loop's two variables.  A [continue] and the
    fall-through at the end of the [catch] block both go to the next
    iteration; after the last one the function throws
    [lastError || new Error('Max retries exceeded')]. *)
Fixpoint retryLoop (transport : Transport) (maxRetries : Z) (n : nat)
    (attempt : Z) (lastError : option Error) : list Event * Settled Response :=
  match n with
  | O =>
      ([], Rejected (match lastError with
                     | Some e => e
                     | None => newError "Max retries exceeded"
                     end))
  | S n' =>
      match transport attempt with
      | Fulfilled response =>
          if badStatus response && (attempt <? maxRetries) then
            let delay := backoff attempt in
            let what := if status response =? 429
                        then "Rate limited" else "Server error" in
            let '(tr, res) :=
              retryLoop transport maxRetries n' (attempt + 1) lastError in
            (EvFetch attempt :: EvLog (retryLine what delay attempt maxRetries)
               :: EvSleep delay :: tr, res)
          else
            ([EvFetch attempt], Fulfilled response)
      | Rejected error =>
          let lastError := Some error in
          if attempt <? maxRetries then
            let delay := backoff attempt in
            let '(tr, res) :=
              retryLoop transport maxRetries n' (attempt + 1) lastError in
            (EvFetch attempt
               :: EvLog (retryLine "Request failed" delay attempt maxRetries)
               :: EvSleep delay :: tr, res)
          else
            let '(tr, res) :=
              retryLoop transport maxRetries n' (attempt + 1) lastError in
            (EvFetch attempt :: tr, res)
      end
  end.

(** [fetchWithRetry(url, options, maxRetries)]: the loop runs for
    [attempt = 0, 1, ..., maxRetries], that is [maxRetries + 1] times
    (not at all when [maxRetries] is negative). *)
Definition fetchWithRetry (transport : Transport) (maxRetries : Z)
    : list Event * Settled Response :=
  retryLoop transport maxRetries (Z.to_nat (maxRetries + 1)) 0 None.

(** The spec's names for the two ways the call ends. *)
Abbreviation Delivered r := (Fulfilled (A:=Response) r) (only parsing).
Abbreviation Exhausted e := (Rejected (A:=Response) e) (only parsing).

(** *** Observations on a trace *)

(** Number of calls of [fetch]. *)
Fixpoint attempts (tr : list Event) : Z :=
  match tr with
  | [] => 0
  | EvFetch _ :: tr' => 1 + attempts tr'
  | _ :: tr' => attempts tr'
  end.

(** The delays slept, in order. *)
Fixpoint delays (tr : list Event) : list Z :=
  match tr with
  | [] => []
  | EvSleep d :: tr' => d :: delays tr'
  | _ :: tr' => delays tr'
  end.

(** The fetches and the sleeps of a trace, in order (the log lines
    dropped). *)
Fixpoint timing (tr : list Event) : list Event :=
  match tr with
  | [] => []
  | EvLog _ :: tr' => timing tr'
  | ev :: tr' => ev :: timing tr'
  end.

(** The delay slept directly before the fetch of attempt [n]:
    [Some d] when [EvSleep d] comes right before [EvFetch n]. *)
Fixpoint delayBefore (n : Z) (tm : list Event) : option Z :=
  match tm with
  | EvSleep d :: ((EvFetch a :: _) as rest) =>
      if a =? n then Some d else delayBefore n rest
  | _ :: rest => delayBefore n rest
  | [] => None
  end.

(** [k] failed attempts, each followed by its backoff, then one last
    attempt: the only shape the timing of a run can have. *)
Fixpoint schedule (k : nat) (attempt : Z) : list Event :=
  match k with
  | O => [EvFetch attempt]
  | S k' => EvFetch attempt :: EvSleep (backoff attempt) :: schedule k' (attempt + 1)
  end.

(** A failure the loop retries: a rejected fetch, or status 429 or 5xx. *)
Definition retryable (s : Settled Response) : bool :=
  match s with
  | Fulfilled response => badStatus response
  | Rejected _ => true
  end.

End Dispatcher.

(** ** JSON values *)

(** What [JSON.parse] returns and [JSON.stringify] prints.  An object is
    the list of its own properties in insertion order; a number is a
    rational, which covers the integers and decimal literals of the
    handlers. *)
#[local] Unset Elimination Schemes.
Inductive JSON :=
| JNull
| JBool (b : bool)
| JNum (q : Q)
| JStr (s : string)
| JArr (items : list JSON)
| JObj (fields : list (string * JSON)).
#[local] Set Elimination Schemes.

(** A JavaScript value that may be [undefined]. *)
Definition JSValue := option JSON.

(** An integer as a JSON number. *)
Definition JInt (n : Z) : JSON := JNum (inject_Z n).

(** An array of strings. *)
Definition JStrs (l : list string) : JSON := JArr (JStr <$> l).

(** Own property [key] of an object, [None] when it has none. *)
Fixpoint assoc (key : string) (fields : list (string * JSON)) : option JSON :=
  match fields with
  | [] => None
  | (k, v) :: rest => if String.eqb k key then Some v else assoc key rest
  end.

(** Property [key] of a JSON value, [None] for a value that is not an
    object or lacks the property. *)
Definition field (key : string) (v : JSON) : option JSON :=
  match v with
  | JObj fields => assoc key fields
  | _ => None
  end.

(** The property list [JSON.stringify] prints for an object literal:
    a property whose value is [undefined] is left out. *)
Fixpoint definedFields (fields : list (string * JSValue)) : list (string * JSON) :=
  match fields with
  | [] => []
  | (k, Some v) :: rest => (k, v) :: definedFields rest
  | (_, None) :: rest => definedFields rest
  end.

(** A value spliced into a template literal: [undefined] prints as
    the word. *)
Definition interpolate (s : option string) : string :=
  match s with
  | Some s => s
  | None => "undefined"
  end.

Definition TypeError (msg : string) : Error := mkError "TypeError" msg.
Definition RangeError (msg : string) : Error := mkError "RangeError" msg.
Definition ReferenceError (msg : string) : Error := mkError "ReferenceError" msg.
Definition SyntaxError (msg : string) : Error := mkError "SyntaxError" msg.

(** [v.key] for one of the keys [choices], [message], [content], none of
    which is a built-in property of a string, a number or an array:
    reading a property of [undefined] or [null] throws, any other value
    that is not an object gives [undefined]. *)
Definition getProp (v : JSValue) (key : string) : Settled JSValue :=
  match v with
  | None => Rejected (TypeError "Cannot read properties of undefined")
  | Some JNull => Rejected (TypeError "Cannot read properties of null")
  | Some (JObj fields) => Fulfilled (assoc key fields)
  | Some _ => Fulfilled None
  end.

(** [v[0]]: the first element of an array, the first character of a
    string, the property ["0"] of an object. *)
Definition getIndex0 (v : JSValue) : Settled JSValue :=
  match v with
  | None => Rejected (TypeError "Cannot read properties of undefined")
  | Some JNull => Rejected (TypeError "Cannot read properties of null")
  | Some (JArr items) => Fulfilled (head items)
  | Some (JStr (String c _)) => Fulfilled (Some (JStr (String c EmptyString)))
  | Some (JObj fields) => Fulfilled (assoc "0" fields)
  | Some _ => Fulfilled None
  end.

(** Sequencing of steps that may throw: the first rejection ends the
    chain. *)
#[global] Instance Settled_ret : MRet Settled := @Fulfilled.
#[global] Instance Settled_bind : MBind Settled :=
  fun A B k m =>
    match m with
    | Fulfilled a => k a
    | Rejected e => Rejected e
    end.
#[global] Instance Settled_fmap : FMap Settled :=
  fun A B f m =>
    match m with
    | Fulfilled a => Fulfilled (f a)
    | Rejected e => Rejected e
    end.

(** [data.choices[0].message.content] *)
Definition completionContent (data : JSON) : Settled JSValue :=
  choices ← getProp (Some data) "choices";
  first ← getIndex0 choices;
  message ← getProp first "message";
  getProp message "content".

(** ** The regular expression [/\{[\s\S]*\}/] *)

Definition openBrace : ascii := "{"%char.
Definition closeBrace : ascii := "}"%char.

(** The suffix that starts at the first ["{"]. *)
Fixpoint fromFirstOpen (s : string) : option string :=
  match s with
  | EmptyString => None
  | String c s' =>
      if Ascii.eqb c openBrace then Some s else fromFirstOpen s'
  end.

(** The longest prefix that ends in ["}"]: [[\s\S]*] is greedy and
    matches every character, so the match runs to the last ["}"]. *)
Fixpoint upToLastClose (s : string) : option string :=
  match s with
  | EmptyString => None
  | String c s' =>
      match upToLastClose s' with
      | Some m => Some (String c m)
      | None => if Ascii.eqb c closeBrace then Some (String c EmptyString) else None
      end
  end.

(** [content.match(/\{[\s\S]*\}/)]: [Some m] for the match [jsonMatch[0]],
    [None] for [null].  The leftmost match starts at the first ["{"];
    when no ["}"] follows it, none follows any later ["{"] either. *)
Definition jsonMatch (content : string) : option string :=
  match fromFirstOpen content with
  | Some (String c rest) =>
      match upToLastClose rest with
      | Some m => Some (String c m)
      | None => None
      end
  | _ => None
  end.

(** ** Dates *)

(** A time value is a number of milliseconds since 1970-01-01T00:00Z;
    a [Date] holds one of at most 8.64e15 in absolute value, or NaN
    ([None]). *)
Definition msPerDay : Z := 24 * 60 * 60 * 1000.
Definition maxTime : Z := 8640000000000000.

(** [n] written with exactly [width] decimal digits. *)
Fixpoint digits (width : nat) (n : Z) : string :=
  match width with
  | O => EmptyString
  | S w => digits w (n / 10) +:+ String (ascii_of_nat (48 + Z.to_nat (n mod 10))) EmptyString
  end.

(** Year, month and day of the day number [days] (days since the epoch)
    in the proleptic Gregorian calendar. *)
Definition civilFromDays (days : Z) : Z * Z * Z :=
  let z := days + 719468 in
  let era := z / 146097 in
  let doe := z - era * 146097 in
  let yoe := (doe - doe / 1460 + doe / 36524 - doe / 146096) / 365 in
  let doy := doe - (365 * yoe + yoe / 4 - yoe / 100) in
  let mp := (5 * doy + 2) / 153 in
  let d := doy - (153 * mp + 2) / 5 + 1 in
  let m := if mp <? 10 then mp + 3 else mp - 9 in
  let y := yoe + era * 400 + (if m <=? 2 then 1 else 0) in
  (y, m, d).

(** [new Date(t).toISOString().split('T')[0]]: the calendar date of a
    time value; [toISOString] throws a [RangeError] on an invalid date. *)
Definition isoDate (t : option Z) : Settled string :=
  match t with
  | Some t =>
      if (- maxTime <=? t) && (t <=? maxTime) then
        let '(y, m, d) := civilFromDays (t / msPerDay) in
        let year :=
          if (0 <=? y) && (y <=? 9999) then digits 4 y
          else (if y <? 0 then "-" else "+") +:+ digits 6 (Z.abs y) in
        Fulfilled (year +:+ "-" +:+ digits 2 m +:+ "-" +:+ digits 2 d)
      else Rejected (RangeError "Invalid time value")
  | None => Rejected (RangeError "Invalid time value")
  end.

(** ** Arrays *)

(** The greatest length of an array. *)
Definition maxArrayLength : Z := 2 ^ 32 - 1.

(** [Array.from({ length: n }, (_, i) => f(i))]: a longer array than
    [maxArrayLength] cannot be created (a [RangeError], before the
    callback is ever called), a length below zero counts as zero, and a
    callback that throws ends the call. *)
Definition arrayFrom {A : Type} (n : Z) (f : Z -> Settled A) : Settled (list A) :=
  if maxArrayLength <? n then Rejected (RangeError "Invalid array length")
  else mapM f (seqZ 0 n).

(** ** The platform's parsers *)

(** [JSON.parse] and [Date.parse] belong to the runtime, not to the
    repository: the handlers are defined over any pair of them.
    [JSON_parse text] is [None] when [JSON.parse] throws a [SyntaxError];
    [Date_parse s] is the time value of [new Date(s)], [None] for NaN. *)
Record Runtime := mkRuntime {
  JSON_parse : string -> option JSON;
  Date_parse : string -> option Z
}.

(** ** HTTP plumbing shared by the handlers *)

Inductive Body :=
| TextBody (s : string)        (* new Response('ok', ...) *)
| JsonBody (v : JSON).         (* new Response(JSON.stringify(v), ...) *)

Record HttpResponse := mkHttpResponse {
  respStatus : Z;
  respHeaders : list (string * string);
  respBody : Body
}.

Definition corsHeaders : list (string * string) :=
  [ ("Access-Control-Allow-Origin", "*");
    ("Access-Control-Allow-Headers",
     "authorization, x-client-info, apikey, content-type") ].

(** [{ ...corsHeaders, 'Content-Type': 'application/json' }] *)
Definition jsonHeaders : list (string * string) :=
  corsHeaders ++ [ ("Content-Type", "application/json") ].

(** [new Response('ok', { headers: corsHeaders })]: the answer to a CORS
    preflight; the status defaults to 200. *)
Definition preflightResponse : HttpResponse :=
  mkHttpResponse 200 corsHeaders (TextBody "ok").

(** [new Response(JSON.stringify(v), { status, headers: jsonHeaders })];
    the handlers that give no status get the default 200. *)
Definition jsonResponse (st : Z) (v : JSON) : HttpResponse :=
  mkHttpResponse st jsonHeaders (JsonBody v).

(** The response is a JSON document with status 200. *)
Definition isJson200 (r : HttpResponse) : Prop :=
  respStatus r = 200 /\
  (exists v, respBody r = JsonBody v) /\
  ("Content-Type", "application/json") ∈ respHeaders r.

(** The environment variables the functions read with [Deno.env.get]. *)
Record Env := mkEnv {
  OPENAI_API_KEY : option string;
  SUPABASE_URL : option string;
  SUPABASE_SERVICE_ROLE_KEY : option string
}.

(** Truthiness of an optional string: [undefined] and the empty string
    are falsy. *)
Definition truthy (s : option string) : bool :=
  match s with
  | Some (String _ _) => true
  | _ => false
  end.

(** What a handler does (the dispatcher's trace) and what the promise it
    returns settles to. *)
Definition Handled := (list Dispatcher.Event * Settled HttpResponse)%type.

(** [try { ... } catch (error) { ... }] around a traced computation. *)
Definition tryCatch (body : Handled) (handler : Error -> Settled HttpResponse)
    : Handled :=
  match body with
  | (tr, Fulfilled r) => (tr, Fulfilled r)
  | (tr, Rejected error) => (tr, handler error)
  end.

Section Resolver.
Context (rt : Runtime).

(** [await response.json()] on the provider's response. *)
Definition responseJson (response : Response) : Settled JSON :=
  match JSON_parse rt (bodyText response) with
  | Some data => Fulfilled data
  | None => Rejected (SyntaxError "Unexpected token in JSON")
  end.

(** The body of the inner [try] that all three structured endpoints
    share (generate-itinerary, comprehensive-itinerary,
    location-recommendations):
<<
      const jsonMatch = content.match(/\{[\s\S]*\}/)
      if (jsonMatch) { itinerary = JSON.parse(jsonMatch[0]) }
      else { throw new Error('No JSON found in response') }
>>
    [content.match] throws when [content] is not a string. *)
Definition extractJson (content : JSValue) : Settled JSON :=
  match content with
  | Some (JStr s) =>
      match jsonMatch s with
      | Some m =>
          match JSON_parse rt m with
          | Some v => Fulfilled v
          | None => Rejected (SyntaxError "Unexpected token in JSON")
          end
      | None => Rejected (newError "No JSON found in response")
      end
  | _ => Rejected (TypeError "content.match is not a function")
  end.

(** The inner [try]/[catch]: the parsed object, or on any throw what the
    fallback builder gives (which may throw itself).  The spec calls the
    two ways out [Parsed] and [Fallback]. *)
Definition resolve (content : JSValue) (fallbackBuilder : Settled JSON)
    : Settled JSON :=
  match extractJson content with
  | Fulfilled v => Fulfilled v
  | Rejected _ => fallbackBuilder
  end.

End Resolver.

(** ** travel-chat and travel-expert-chat *)

Module TravelChat.

Record ChatMessage := mkChatMessage { role : string; content : string }.
Record ChatRequest := mkChatRequest { messages : list ChatMessage }.

(** The canned reply of travel-chat. *)
Definition unavailable : string :=
  "I'm currently unable to access my AI capabilities due to service limitations. However, I can still help you with general travel advice! Feel free to ask about popular destinations, travel tips, or planning strategies.".

(** The canned reply of travel-expert-chat. *)
Definition unavailableExpert : string :=
  "I'm your travel expert assistant, but I'm currently unable to access my full AI capabilities due to service limitations. I can still provide general travel guidance! What destination or travel question can I help you with?".

Section Handler.
Context (rt : Runtime) (canned : string).

(** [JSON.stringify({ response: ... })] with the canned text. *)
Definition cannedResponse : HttpResponse :=
  jsonResponse 200 (JObj [("response", JStr canned)]).

(** The [try] block after [const { messages } = await req.json()]. *)
Definition tryBlock (env : Env) (transport : Dispatcher.Transport)
    (request : ChatRequest) : Handled :=
  if negb (truthy (OPENAI_API_KEY env)) then
    ([], Rejected (newError "OpenAI API key not configured"))
  else
    let '(tr, fetched) := Dispatcher.fetchWithRetry transport 3 in
    (tr,
     response ← fetched;
     if negb (ok response) then
       mret cannedResponse
     else
       data ← responseJson rt response;
       assistantResponse ← completionContent data;
       mret (jsonResponse 200
               (JObj (definedFields [("response", assistantResponse)])))).

(** The function passed to [serve]. *)
Definition serve (method : string) (body : Settled ChatRequest) (env : Env)
    (transport : Dispatcher.Transport) : Handled :=
  if String.eqb method "OPTIONS" then ([], Fulfilled preflightResponse)
  else
    tryCatch
      match body with
      | Fulfilled request => tryBlock env transport request
      | Rejected e => ([], Rejected e)
      end
      (fun _ => Fulfilled cannedResponse).

End Handler.

End TravelChat.

(** ** generate-itinerary (the simple itinerary) *)

Module GenerateItinerary.

Record ItineraryRequest := mkItineraryRequest {
  destinations : list string;
  duration : Z;                          (* a whole number of days *)
  startDate : string;
  endDate : string;
  budget : string;
  travelStyle : string;
  interests : list string
}.

(** [Math.ceil(a / b)] for a positive divisor. *)
Definition ceilDiv (a b : Z) : Z := - ((- a) / b).

(** [Math.floor(i / Math.ceil(duration / destinations.length))].  With an
    empty list the inner quotient is [Infinity] (the loop only runs for a
    positive [duration]) and [i / Infinity] is 0. *)
Definition destinationIndex (destinations : list string) (duration i : Z) : Z :=
  let len := Z.of_nat (length destinations) in
  if len =? 0 then 0
  else i / ceilDiv duration len.

(** [destinations[destinationIndex] || destinations[0]]: an element out
    of range is [undefined], and [undefined] and the empty string are
    falsy. *)
Definition dayDestination (destinations : list string) (duration i : Z)
    : option string :=
  let destinationIndex := destinationIndex destinations duration i in
  if truthy (destinations !! Z.to_nat destinationIndex)
  then destinations !! Z.to_nat destinationIndex
  else destinations !! 0%nat.

(** The four activities of a day. *)
Definition activities (destination : option string) : JSON :=
  let d := interpolate destination in
  JArr [
    JObj (definedFields [
      ("time", Some (JStr "09:00"));
      ("endTime", Some (JStr "12:00"));
      ("title", Some (JStr ("Explore " +:+ d)));
      ("description", Some (JStr ("Start your day exploring the highlights of " +:+ d)));
      ("location", JStr <$> destination);
      ("type", Some (JStr "sightseeing"));
      ("priceEstimate", Some (JInt 30));
      ("tips", Some (JStr "Start early to avoid crowds")) ]);
    JObj (definedFields [
      ("time", Some (JStr "12:00"));
      ("endTime", Some (JStr "14:00"));
      ("title", Some (JStr "Local Lunch"));
      ("description", Some (JStr ("Try traditional cuisine in " +:+ d)));
      ("location", Some (JStr ("Local restaurant in " +:+ d)));
      ("type", Some (JStr "dining"));
      ("priceEstimate", Some (JInt 25));
      ("tips", Some (JStr "Ask locals for recommendations")) ]);
    JObj (definedFields [
      ("time", Some (JStr "14:00"));
      ("endTime", Some (JStr "17:00"));
      ("title", Some (JStr "Cultural Experience"));
      ("description", Some (JStr ("Visit museums or cultural sites in " +:+ d)));
      ("location", JStr <$> destination);
      ("type", Some (JStr "culture"));
      ("priceEstimate", Some (JInt 20));
      ("tips", Some (JStr "Check for student or group discounts")) ]);
    JObj (definedFields [
      ("time", Some (JStr "19:00"));
      ("endTime", Some (JStr "21:00"));
      ("title", Some (JStr "Dinner"));
      ("description", Some (JStr ("Evening dining experience in " +:+ d)));
      ("location", Some (JStr ("Restaurant district in " +:+ d)));
      ("type", Some (JStr "dining"));
      ("priceEstimate", Some (JInt 40));
      ("tips", Some (JStr "Make reservations in advance")) ]) ].

(** One turn of the loop: the object pushed on [days] for index [i];
    [start] is [startDateObj.getTime()].  The only step that can throw
    is [currentDate.toISOString()]. *)
Definition fallbackDay (destinations : list string) (start : option Z)
    (duration i : Z) : Settled JSON :=
  let currentDate := (fun t => t + i * msPerDay) <$> start in
  let destination := dayDestination destinations duration i in
  date ← isoDate currentDate;
  mret (JObj (definedFields [
    ("day", Some (JInt (i + 1)));
    ("date", Some (JStr date));
    ("destination", JStr <$> destination);
    ("activities", Some (activities destination)) ])).

Section Handler.
Context (rt : Runtime).

(** [createFallbackItinerary(content, destinations, startDate, duration)];
    the loop runs for [i = 0 .. duration - 1]. *)
Definition createFallbackItinerary (content : JSValue)
    (destinations : list string) (startDate : string) (duration : Z)
    : Settled JSON :=
  let startDateObj := Date_parse rt startDate in
  days ← mapM (fallbackDay destinations startDateObj duration)
              (seqZ 0 duration);
  mret (JObj [
    ("days", JArr days);
    ("totalEstimatedCost", JInt (duration * 115));
    ("travelTips", JStrs [
       "Pack light and bring comfortable walking shoes";
       "Keep copies of important documents";
       "Learn basic phrases in the local language";
       "Research local customs and etiquette" ]);
    ("packingRecommendations", JStrs [
       "Comfortable walking shoes";
       "Weather-appropriate clothing";
       "Portable charger";
       "Travel adapter";
       "First aid kit" ]) ]).

(** The [try] block after the request body is destructured. *)
Definition tryBlock (env : Env) (transport : Dispatcher.Transport)
    (request : ItineraryRequest) : Handled :=
  if negb (truthy (OPENAI_API_KEY env)) then
    ([], Rejected (newError "OpenAI API key not configured"))
  else
    let '(tr, fetched) := Dispatcher.fetchWithRetry transport 3 in
    (tr,
     response ← fetched;
     if negb (ok response) then
       fallbackItinerary ←
         createFallbackItinerary (Some (JStr EmptyString))
           (destinations request) (startDate request) (duration request);
       mret (jsonResponse 200 fallbackItinerary)
     else
       data ← responseJson rt response;
       content ← completionContent data;
       itinerary ←
         resolve rt content
           (createFallbackItinerary content
              (destinations request) (startDate request) (duration request));
       mret (jsonResponse 200 itinerary)).

(** The [catch] block calls
    [createFallbackItinerary('', destinations, startDate, duration)], but
    [destinations], [startDate] and [duration] are [const]s of the [try]
    block and not in scope here: evaluating the first of them throws. *)
Definition catchBlock (error : Error) : Settled HttpResponse :=
  Rejected (ReferenceError "destinations is not defined").

(** The function passed to [serve]. *)
Definition serve (method : string) (body : Settled ItineraryRequest)
    (env : Env) (transport : Dispatcher.Transport) : Handled :=
  if String.eqb method "OPTIONS" then ([], Fulfilled preflightResponse)
  else
    tryCatch
      match body with
      | Fulfilled request => tryBlock env transport request
      | Rejected e => ([], Rejected e)
      end
      catchBlock.

End Handler.

(** The keys of the shape the system prompt asks the model for. *)
Definition requiredKeys : list string :=
  ["days"; "totalEstimatedCost"; "travelTips"; "packingRecommendations"].

End GenerateItinerary.

(** Every key of [keys] is a property of the object [v]. *)
Definition hasKeys (keys : list string) (v : JSON) : bool :=
  forallb (fun k => bool_decide (is_Some (field k v))) keys.

(** ** comprehensive-itinerary *)

Module ComprehensiveItinerary.

Inductive Budget := budget_ | midRange | luxury.

(** The string a budget level is on the wire. *)
Definition budgetName (b : Budget) : string :=
  match b with
  | budget_ => "budget"
  | midRange => "mid-range"
  | luxury => "luxury"
  end.

Record DetailedItineraryRequest := mkRequest {
  destination : string;
  duration : Z;                          (* a whole number of days *)
  startDate : string;
  budget : Budget;
  travelStyle : string;
  interests : list string;
  groupSize : Z;
  accessibility : option (list string)
}.

(** [{ min: ..., max: ... }] *)
Definition range (lo hi : Z) : JSON :=
  JObj [("min", JInt lo); ("max", JInt hi)].

(** One transport option of the fallback. *)
Definition transportOption (mode description cost duration bookingInfo tip access : string)
    : JSON :=
  JObj [
    ("mode", JStr mode);
    ("description", JStr description);
    ("cost", JStr cost);
    ("duration", JStr duration);
    ("bookingInfo", JStr bookingInfo);
    ("tips", JStrs [tip]);
    ("accessibility", JStrs [access]) ].

(** The callback of [Array.from({ length: request.duration }, (_, i) => ...)];
    [start] is [new Date(request.startDate).getTime()].  The only step
    that can throw is [toISOString]. *)
Definition dailyEntry (destination : string) (start : option Z) (i : Z)
    : Settled JSON :=
  date ← isoDate ((fun t => t + i * msPerDay) <$> start);
  mret (JObj [
    ("day", JInt (i + 1));
    ("date", JStr date);
    ("theme", JStr (if i =? 0 then "Arrival & Orientation"
                    else "Day " +:+ pretty (i + 1) +:+ " Exploration"));
    ("morning", JObj [
       ("time", JStr "09:00");
       ("activity", JStr ("Explore " +:+ destination +:+ " highlights"));
       ("location", JStr "City Center");
       ("cost", JStr "$15");
       ("tips", JStrs ["Start early for better photos"]) ]);
    ("lunch", JObj [
       ("restaurant", JStr "Midday Café");
       ("cuisine", JStr "Local");
       ("cost", JStr "$18");
       ("specialties", JStrs ["Daily special"; "Local favorite"]) ]);
    ("afternoon", JObj [
       ("time", JStr "14:00");
       ("activity", JStr "Cultural experience");
       ("location", JStr "Heritage District");
       ("cost", JStr "$20");
       ("tips", JStrs ["Ask about student discounts"]) ]);
    ("dinner", JObj [
       ("restaurant", JStr "Evening Bistro");
       ("cuisine", JStr "Contemporary");
       ("cost", JStr "$35");
       ("specialties", JStrs ["Chef's special"; "Local wine"]) ]);
    ("evening", JObj [
       ("activity", JStr "Evening walk");
       ("location", JStr "Waterfront");
       ("cost", JStr "Free");
       ("tips", JStrs ["Beautiful sunset views"]) ]) ]).

(** The per-day bounds of the cost breakdown. *)
Definition perDayMin : Z := 165.
Definition perDayMax : Z := 670.

Section Handler.
Context (rt : Runtime).

(** [createFallbackItinerary(request)] *)
Definition createFallbackItinerary (request : DetailedItineraryRequest)
    : Settled JSON :=
  let dest := destination request in
  let start := Date_parse rt (startDate request) in
  dailyItinerary ← arrayFrom (duration request) (dailyEntry dest start);
  mret (JObj [
    ("destination", JStr dest);
    ("overview", JStr (dest +:+ " offers rich cultural experiences and attractions."));
    ("bestTimeToVisit", JStr "Year-round");
    ("safetyRating", JInt 8);
    ("safetyTips", JStrs ["Stay aware of surroundings"; "Use official transportation"]);
    ("culturalTips", JStrs ["Learn basic local phrases"; "Respect local customs"]);
    ("hotels", JArr [ JObj [
       ("name", JStr "Central Plaza Hotel");
       ("category", JStr (budgetName (budget request)));
       ("priceRange", JStr (match budget request with
                            | budget_ => "$60-90"
                            | midRange => "$120-180"
                            | luxury => "$250-400"
                            end));
       ("location", JStr "City Center");
       ("amenities", JStrs ["WiFi"; "Breakfast"; "Concierge"]);
       ("rating", JNum (42 # 10));
       ("bookingTips", JStr "Book 2 weeks in advance");
       ("address", JStr ("Main Square, " +:+ dest)) ] ]);
    ("restaurants", JArr [ JObj [
       ("name", JStr "Local Heritage Restaurant");
       ("cuisine", JStr "Traditional");
       ("mealType", JStr "dinner");
       ("priceRange", JStr "$25-40");
       ("specialties", JStrs ["Regional specialty"; "Traditional dessert"]);
       ("location", JStr "Historic Quarter");
       ("reservationRequired", JBool true);
       ("rating", JNum (46 # 10));
       ("dietaryOptions", JStrs ["Vegetarian options"]) ] ]);
    ("attractions", JArr [ JObj [
       ("name", JStr (dest +:+ " Cultural Center"));
       ("type", JStr "Cultural Site");
       ("description", JStr "Main cultural attraction showcasing local heritage");
       ("duration", JStr "2-3 hours");
       ("bestTime", JStr "Morning");
       ("ticketPrice", JStr "$15-20");
       ("location", JStr "Cultural District");
       ("crowdLevel", JStr "moderate");
       ("accessibility", JStrs ["Wheelchair accessible"]);
       ("tips", JStrs ["Free guided tours at 10am and 2pm"]) ] ]);
    ("transportation", JObj [
       ("airport", JArr [ transportOption "Airport Shuttle"
          "Direct service to city center" "$15-25" "45 minutes"
          "Available at arrivals" "Runs every 30 minutes" "Wheelchair accessible" ]);
       ("local", JArr [ transportOption "City Bus"
          "Comprehensive bus network" "$2 per ride" "Varies"
          "Pay on board or use app" "Get a day pass for $8" "Most buses accessible" ]);
       ("intercity", JArr [ transportOption "Regional Train"
          "Connect to nearby destinations" "$20-45" "1-4 hours"
          "Book at station or online" "Discounts for advance booking"
          "Accessible cars available" ]) ]);
    ("dailyItinerary", JArr dailyItinerary);
    ("costBreakdown", JObj [
       ("accommodation", range (60 * duration request) (400 * duration request));
       ("food", range (50 * duration request) (120 * duration request));
       ("activities", range (30 * duration request) (80 * duration request));
       ("transport", range (25 * duration request) (70 * duration request));
       ("total", range (perDayMin * duration request) (perDayMax * duration request)) ]);
    ("packingList", JStrs [
       "Comfortable walking shoes";
       "Weather-appropriate clothing";
       "Portable charger";
       "Travel documents";
       "Camera";
       "Sunscreen" ]);
    ("emergencyInfo", JObj [
       ("emergencyNumber", JStr "Emergency services");
       ("hospitals", JStrs [dest +:+ " General Hospital"]);
       ("embassies", JStrs ["Contact your local embassy"]);
       ("importantPhones", JStrs ["Tourist information: Local number"]) ]) ]).

(** The [try] block after [const request = await req.json()]. *)
Definition tryBlock (env : Env) (transport : Dispatcher.Transport)
    (request : DetailedItineraryRequest) : Handled :=
  if negb (truthy (OPENAI_API_KEY env)) then
    ([], Rejected (newError "OpenAI API key not configured"))
  else
    let '(tr, fetched) := Dispatcher.fetchWithRetry transport 3 in
    (tr,
     response ← fetched;
     if negb (ok response) then
       Rejected (newError ("OpenAI API error: " +:+ pretty (status response)
                           +:+ " " +:+ statusText response
                           +:+ " - " +:+ bodyText response))
     else
       data ← responseJson rt response;
       content ← completionContent data;
       itinerary ← resolve rt content (createFallbackItinerary request);
       mret (jsonResponse 200 itinerary)).

(** The [catch] block: [{ error: error.message }] with status 500. *)
Definition catchBlock (error : Error) : Settled HttpResponse :=
  Fulfilled (jsonResponse 500 (JObj [("error", JStr (errMessage error))])).

(** The function passed to [serve]. *)
Definition serve (method : string) (body : Settled DetailedItineraryRequest)
    (env : Env) (transport : Dispatcher.Transport) : Handled :=
  if String.eqb method "OPTIONS" then ([], Fulfilled preflightResponse)
  else
    tryCatch
      match body with
      | Fulfilled request => tryBlock env transport request
      | Rejected e => ([], Rejected e)
      end
      catchBlock.

End Handler.

(** The top-level keys of the shape the system prompt asks for. *)
Definition requiredKeys : list string :=
  ["destination"; "overview"; "bestTimeToVisit"; "safetyRating";
   "safetyTips"; "culturalTips"; "hotels"; "restaurants"; "attractions";
   "transportation"; "dailyItinerary"; "costBreakdown"; "packingList";
   "emergencyInfo"].

(** The five parts of a day. *)
Definition dayParts : list string :=
  ["morning"; "lunch"; "afternoon"; "dinner"; "evening"].

(** The properties of each part of a day, as the callback writes them
    and the browser's [dailyItinerary] type declares them. *)
Definition dayPartShape : list (string * list string) :=
  [ ("morning", ["time"; "activity"; "location"; "cost"; "tips"]);
    ("lunch", ["restaurant"; "cuisine"; "cost"; "specialties"]);
    ("afternoon", ["time"; "activity"; "location"; "cost"; "tips"]);
    ("dinner", ["restaurant"; "cuisine"; "cost"; "specialties"]);
    ("evening", ["activity"; "location"; "cost"; "tips"]) ].

(** A text that is not empty, or a list of such texts that is not
    empty. *)
Definition written (v : option JSON) : bool :=
  match v with
  | Some (JStr (String _ _)) => true
  | Some (JArr (item :: items)) =>
      forallb (fun x => match x with JStr (String _ _) => true | _ => false end)
              (item :: items)
  | _ => false
  end.

(** [v] is a sub-entry: an object that holds something written under
    each of [keys]. *)
Definition subEntry (keys : list string) (v : option JSON) : bool :=
  match v with
  | Some (JObj fields) => forallb (fun k => written (assoc k fields)) keys
  | _ => false
  end.

(** Every part of the day entry [day] is a sub-entry of its shape. *)
Definition hasDayParts (day : JSON) : bool :=
  forallb (fun '(part, keys) => subEntry keys (field part day)) dayPartShape.

End ComprehensiveItinerary.

(** ** location-recommendations *)

Module LocationRecommendations.

Record LocationRequest := mkLocationRequest {
  destination : string;
  previousDestination : option string
}.

(** [createFallbackRecommendations(destination)] *)
Definition createFallbackRecommendations (destination : string) : JSON :=
  JObj [
    ("restaurants", JArr [ JObj [
       ("name", JStr "Local Favorite Restaurant");
       ("cuisine", JStr "Local");
       ("priceRange", JStr "$$");
       ("description", JStr ("Popular local restaurant in " +:+ destination));
       ("location", JStr "City Center");
       ("mustTry", JStrs ["Local specialty dish"; "Traditional dessert"]) ] ]);
    ("sightseeing", JArr [ JObj [
       ("name", JStr (destination +:+ " Main Attraction"));
       ("type", JStr "Historical Site");
       ("description", JStr ("Must-visit landmark in " +:+ destination));
       ("duration", JStr "2-3 hours");
       ("bestTime", JStr "Morning");
       ("ticketPrice", JStr "Varies") ] ]);
    ("transportation", JObj [
       ("local", JObj [
          ("modes", JStrs ["Walking"; "Public Transport"; "Taxi"]);
          ("tips", JStrs ["Use local transport apps"; "Keep small change handy"]) ]) ]);
    ("nightlife", JArr [ JObj [
       ("name", JStr "Local Bar District");
       ("type", JStr "Entertainment Area");
       ("description", JStr ("Popular nightlife area in " +:+ destination));
       ("priceRange", JStr "$$") ] ]);
    ("shopping", JArr [ JObj [
       ("name", JStr "Local Market");
       ("type", JStr "Traditional Market");
       ("description", JStr ("Traditional shopping area in " +:+ destination));
       ("specialties", JStrs ["Local crafts"; "Souvenirs"]) ] ]);
    ("tips", JStrs [
       "Learn basic local phrases";
       "Carry local currency";
       "Respect local customs" ]) ].

Section Handler.
Context (rt : Runtime).

(** The [try] block after the request body is destructured. *)
Definition tryBlock (env : Env) (transport : Dispatcher.Transport)
    (request : LocationRequest) : Handled :=
  if negb (truthy (OPENAI_API_KEY env)) then
    ([], Rejected (newError "OpenAI API key not configured"))
  else
    let '(tr, fetched) := Dispatcher.fetchWithRetry transport 3 in
    (tr,
     response ← fetched;
     if negb (ok response) then
       mret (jsonResponse 200 (createFallbackRecommendations (destination request)))
     else
       data ← responseJson rt response;
       content ← completionContent data;
       recommendations ←
         resolve rt content
           (Fulfilled (createFallbackRecommendations (destination request)));
       mret (jsonResponse 200 recommendations)).

(** The [catch] block calls [createFallbackRecommendations(destination)],
    but [destination] is a [const] of the [try] block and not in scope
    here: evaluating it throws. *)
Definition catchBlock (error : Error) : Settled HttpResponse :=
  Rejected (ReferenceError "destination is not defined").

(** The function passed to [serve]. *)
Definition serve (method : string) (body : Settled LocationRequest)
    (env : Env) (transport : Dispatcher.Transport) : Handled :=
  if String.eqb method "OPTIONS" then ([], Fulfilled preflightResponse)
  else
    tryCatch
      match body with
      | Fulfilled request => tryBlock env transport request
      | Rejected e => ([], Rejected e)
      end
      catchBlock.

End Handler.

(** The top-level keys of the shape the system prompt asks for. *)
Definition requiredKeys : list string :=
  ["restaurants"; "sightseeing"; "transportation"; "nightlife"; "shopping"; "tips"].

End LocationRecommendations.

(** ** destination-suggestions *)

Module DestinationSuggestions.

Record SuggestionRequest := mkSuggestionRequest {
  query : string;
  limit : option Z            (* [limit?: number] *)
}.

(** A row of the table [destination_suggestions]; [popularity_score] is
    an [INTEGER DEFAULT 0] column. *)
Record Row := mkRow {
  name : string;
  country : string;
  continent : string;
  description : JSON;
  popular_for : JSON;
  best_time : JSON;
  coordinates : JSON;
  popularity_score : Z
}.

(** What [await supabase.from(...).select('*')....limit(n)] resolves to:
    [{ data, error }] with one of the two set. *)
Inductive DbReply :=
| DbRows (data : list Row)
| DbFailure (error : Error).

(** The query that a chain of [from], [select], [or], [order] and
    [limit] describes. *)
Record Select := mkSelect {
  fromTable : string;
  selected : string;
  orFilter : option string;
  orderBy : option (string * bool);      (* the column, and [ascending] *)
  limitTo : option Z
}.

(** The client that [createClient] returns, by what awaiting a query
    resolves to. *)
Definition Client := Select -> Settled DbReply.

(** [@supabase/supabase-js] and the database behind it.  Neither is part
    of the repository: the handler is defined over every behaviour of
    [createClient(supabaseUrl, supabaseKey)], which throws on the
    settings it refuses, and of the client it returns. *)
Record Supabase := mkSupabase {
  createClient : option string -> option string -> Settled Client
}.

(** The callback of [data.map(item => ({ ... }))]. *)
Definition toSuggestion (item : Row) : JSON :=
  JObj [
    ("name", JStr (name item));
    ("country", JStr (country item));
    ("continent", JStr (continent item));
    ("description", description item);
    ("popularFor", popular_for item);
    ("bestTime", best_time item);
    ("coordinates", coordinates item);
    ("popularityScore", JInt (popularity_score item)) ].

(** An entry of the built-in list. *)
Record Destination := mkDestination {
  dName : string;
  dCountry : string;
  dContinent : string;
  dDescription : string;
  dPopularFor : list string;
  dBestTime : string;
  dLat : Q;
  dLng : Q;
  dPopularityScore : Z
}.

Definition destinationJson (d : Destination) : JSON :=
  JObj [
    ("name", JStr (dName d));
    ("country", JStr (dCountry d));
    ("continent", JStr (dContinent d));
    ("description", JStr (dDescription d));
    ("popularFor", JStrs (dPopularFor d));
    ("bestTime", JStr (dBestTime d));
    ("coordinates", JObj [("lat", JNum (dLat d)); ("lng", JNum (dLng d))]);
    ("popularityScore", JInt (dPopularityScore d)) ].

Definition fallbackDestinations : list Destination := [
  mkDestination "Paris" "France" "Europe" "City of Light and Love"
    ["Art"; "Culture"; "Romance"; "Food"] "Apr-Jun, Sep-Oct"
    (488566 # 10000) (23522 # 10000) 100;
  mkDestination "Tokyo" "Japan" "Asia" "Modern Metropolis"
    ["Technology"; "Food"; "Culture"; "Shopping"] "Mar-May, Sep-Nov"
    (356762 # 10000) (1396503 # 10000) 95;
  mkDestination "New York" "United States" "North America" "The Big Apple"
    ["Culture"; "Broadway"; "Food"; "Museums"] "Apr-Jun, Sep-Nov"
    (407128 # 10000) (-740060 # 10000) 90;
  mkDestination "London" "United Kingdom" "Europe" "Historic Capital"
    ["History"; "Museums"; "Theater"; "Culture"] "May-Sep"
    (515074 # 10000) (-1278 # 10000) 85;
  mkDestination "Rome" "Italy" "Europe" "Eternal City"
    ["History"; "Architecture"; "Food"; "Art"] "Apr-Jun, Sep-Oct"
    (419028 # 10000) (124964 # 10000) 80 ].

(** The white space that [String.prototype.trim] strips is the
    WhiteSpace and LineTerminator of ECMAScript; in UTF-8 a character of
    it takes one, two or three bytes. *)

(** The byte [c] has the value [k]. *)
Definition byteIs (k : nat) (c : ascii) : bool := (nat_of_ascii c =? k)%nat.

(** The byte [c] has a value from [lo] to [hi]. *)
Definition byteIn (lo hi : nat) (c : ascii) : bool :=
  ((lo <=? nat_of_ascii c) && (nat_of_ascii c <=? hi))%nat.

(** U+0009 to U+000D and U+0020. *)
Definition isSpace (c : ascii) : bool := byteIn 9 13 c || byteIs 32 c.

(** U+00A0, the no-break space: C2 A0. *)
Definition isSpace2 (c1 c2 : ascii) : bool := byteIs 194 c1 && byteIs 160 c2.

(** U+1680 (E1 9A 80); U+2000 to U+200A, U+2028, U+2029 and U+202F
    (E2 80 80 to E2 80 8A, E2 80 A8, E2 80 A9, E2 80 AF); U+205F
    (E2 81 9F); U+3000 (E3 80 80); U+FEFF (EF BB BF). *)
Definition isSpace3 (c1 c2 c3 : ascii) : bool :=
  (byteIs 225 c1 && byteIs 154 c2 && byteIs 128 c3) ||
  (byteIs 226 c1 && byteIs 128 c2 &&
     (byteIn 128 138 c3 || byteIn 168 169 c3 || byteIs 175 c3)) ||
  (byteIs 226 c1 && byteIs 129 c2 && byteIs 159 c3) ||
  (byteIs 227 c1 && byteIs 128 c2 && byteIs 128 c3) ||
  (byteIs 239 c1 && byteIs 187 c2 && byteIs 191 c3).

(** [s.trim().length > 0]: some character is not white space. *)
Fixpoint nonBlank (s : string) : bool :=
  match s with
  | EmptyString => false
  | String c1 s1 =>
      if isSpace c1 then nonBlank s1
      else
        match s1 with
        | String c2 s2 =>
            if isSpace2 c1 c2 then nonBlank s2
            else
              match s2 with
              | String c3 s3 =>
                  if isSpace3 c1 c2 c3 then nonBlank s3 else true
              | EmptyString => true
              end
        | EmptyString => true
        end
  end.

(** [toLowerCase] on the ASCII letters. *)
Definition lowerChar (c : ascii) : ascii :=
  let n := nat_of_ascii c in
  if ((65 <=? n) && (n <=? 90))%nat then ascii_of_nat (n + 32) else c.

Fixpoint toLowerCase (s : string) : string :=
  match s with
  | EmptyString => EmptyString
  | String c s' => String (lowerChar c) (toLowerCase s')
  end.

(** [s.includes(sub)] *)
Fixpoint includes (s sub : string) : bool :=
  String.prefix sub s ||
  match s with
  | EmptyString => false
  | String _ s' => includes s' sub
  end.

(** [getFallbackSuggestions(query)] *)
Definition getFallbackSuggestions (query : string) : list Destination :=
  if negb (truthy (Some query)) || negb (nonBlank query) then
    fallbackDestinations
  else
    let q := toLowerCase query in
    List.filter
      (fun dest =>
         includes (toLowerCase (dName dest)) q ||
         includes (toLowerCase (dCountry dest)) q ||
         existsb (fun tag => includes (toLowerCase tag) q) (dPopularFor dest))
      fallbackDestinations.

(** The chain of the branch without a query: every row of the table,
    by descending [popularity_score], at most [limit] of them. *)
Definition popularDestinations (limit : Z) : Select :=
  mkSelect "destination_suggestions" "*" None
    (Some ("popularity_score", false)) (Some limit).

(** The chain of the branch with a query: the same, after the [or]
    filter on name, country and description. *)
Definition matchingDestinations (query : string) (limit : Z) : Select :=
  mkSelect "destination_suggestions" "*"
    (Some ("name.ilike.%" +:+ query +:+ "%,country.ilike.%" +:+ query
           +:+ "%,description.ilike.%" +:+ query +:+ "%"))
    (Some ("popularity_score", false)) (Some limit).

(** [{ suggestions }] with status 200. *)
Definition suggestionsResponse (suggestions : list JSON) : HttpResponse :=
  jsonResponse 200 (JObj [("suggestions", JArr suggestions)]).

(** The [try] block; [limit = 10] when the request gives none. *)
Definition tryBlock (env : Env) (db : Supabase) (request : SuggestionRequest)
    : Settled HttpResponse :=
  let query := query request in
  let limit := default 10 (limit request) in
  supabase ← createClient db (SUPABASE_URL env) (SUPABASE_SERVICE_ROLE_KEY env);
  suggestions ←
    (if truthy (Some query) && nonBlank query then
       reply ← supabase (matchingDestinations query limit);
       mret match reply with
            | DbFailure _ => destinationJson <$> getFallbackSuggestions query
            | DbRows data => toSuggestion <$> data
            end
     else
       reply ← supabase (popularDestinations limit);
       mret match reply with
            | DbFailure _ => destinationJson <$> getFallbackSuggestions EmptyString
            | DbRows data => toSuggestion <$> data
            end);
  mret (suggestionsResponse suggestions).

(** The [catch] block. *)
Definition catchBlock (error : Error) : Settled HttpResponse :=
  Fulfilled (jsonResponse 200 (JObj [
    ("suggestions", JArr (destinationJson <$> getFallbackSuggestions EmptyString));
    ("error", JStr "Using fallback suggestions") ])).

(** The function passed to [serve]. *)
Definition serve (method : string) (body : Settled SuggestionRequest)
    (env : Env) (db : Supabase) : Settled HttpResponse :=
  if String.eqb method "OPTIONS" then Fulfilled preflightResponse
  else
    match (request ← body; tryBlock env db request) with
    | Fulfilled r => Fulfilled r
    | Rejected error => catchBlock error
    end.

(** The [suggestions] array of a response and the scores in it. *)
Definition suggestionsOf (r : HttpResponse) : list JSON :=
  match respBody r with
  | JsonBody v => match field "suggestions" v with
                  | Some (JArr l) => l
                  | _ => []
                  end
  | TextBody _ => []
  end.

Definition scoreOf (v : JSON) : option Z :=
  match field "popularityScore" v with
  | Some (JNum q) => Some (Qnum q)
  | _ => None
  end.

End DestinationSuggestions.

(** ** A runtime to run the handlers on examples *)

(** A reader for the fragment of JSON without string escapes, fractions
    and exponents, and for dates written [YYYY-MM-DD]; on that fragment
    it returns what [JSON.parse] and [Date.parse] return.  The theorems
    below hold for every runtime; this one only serves to evaluate the
    handlers on concrete inputs. *)
Module Reference.

Definition dquote : ascii := ascii_of_nat 34.
Definition backslash : ascii := ascii_of_nat 92.

Definition isDigit (c : ascii) : bool :=
  let n := nat_of_ascii c in ((48 <=? n) && (n <=? 57))%nat.

Definition digitValue (c : ascii) : Z := Z.of_nat (nat_of_ascii c) - 48.

(** JSON white space: space, tab, line feed, carriage return. *)
Definition isJsonSpace (c : ascii) : bool :=
  let n := nat_of_ascii c in
  ((n =? 32) || (n =? 9) || (n =? 10) || (n =? 13))%nat.

Fixpoint skipSpace (s : string) : string :=
  match s with
  | String c s' => if isJsonSpace c then skipSpace s' else s
  | EmptyString => s
  end.

(** The characters up to the closing quote, and what follows it. *)
Fixpoint readString (s : string) : option (string * string) :=
  match s with
  | EmptyString => None
  | String c s' =>
      if Ascii.eqb c dquote then Some (EmptyString, s')
      else if Ascii.eqb c backslash || (nat_of_ascii c <? 32)%nat then None
      else '(str, rest) ← readString s'; Some (String c str, rest)
  end.

(** The digits at the front, as a number. *)
Fixpoint readDigits (acc : Z) (s : string) : Z * string :=
  match s with
  | String c s' => if isDigit c then readDigits (10 * acc + digitValue c) s' else (acc, s)
  | EmptyString => (acc, s)
  end.

(** An integer without a leading zero; a fraction or an exponent is
    outside the fragment. *)
Definition readInt (s : string) : option (Z * string) :=
  match s with
  | String c s' =>
      if isDigit c then
        let '(n, rest) := readDigits 0 s in
        match s', rest with
        | String c' _, _ =>
            if Ascii.eqb c "0" && isDigit c' then None
            else match rest with
                 | String r _ =>
                     if Ascii.eqb r "." || Ascii.eqb r "e" || Ascii.eqb r "E"
                     then None else Some (n, rest)
                 | EmptyString => Some (n, rest)
                 end
        | EmptyString, _ => Some (n, rest)
        end
      else None
  | EmptyString => None
  end.

(** [acc] with property [k] set to [v]: a repeated key keeps its place
    and takes the later value. *)
Fixpoint setField (k : string) (v : JSON) (acc : list (string * JSON))
    : list (string * JSON) :=
  match acc with
  | [] => [(k, v)]
  | (k', v') :: rest =>
      if String.eqb k' k then (k, v) :: rest else (k', v') :: setField k v rest
  end.

(** Strip the literal [lit] from the front of [s]. *)
Fixpoint expect (lit s : string) : option string :=
  match lit, s with
  | EmptyString, _ => Some s
  | String a lit', String b s' => if Ascii.eqb a b then expect lit' s' else None
  | _, EmptyString => None
  end.

(** A value at the front of [s] and the rest of [s]; [elements] reads
    the inside of an array after its first value, [members] the inside
    of an object after its first member. *)
Fixpoint value (fuel : nat) (s : string) : option (JSON * string) :=
  match fuel with
  | O => None
  | S fuel =>
      match skipSpace s with
      | EmptyString => None
      | String c rest =>
          if Ascii.eqb c "{" then
            match skipSpace rest with
            | String c' rest' =>
                if Ascii.eqb c' "}" then Some (JObj [], rest')
                else members fuel [] (String c' rest')
            | EmptyString => None
            end
          else if Ascii.eqb c "[" then
            match skipSpace rest with
            | String c' rest' =>
                if Ascii.eqb c' "]" then Some (JArr [], rest')
                else elements fuel [] (String c' rest')
            | EmptyString => None
            end
          else if Ascii.eqb c dquote then
            '(str, rest') ← readString rest; Some (JStr str, rest')
          else if Ascii.eqb c "-" then
            '(n, rest') ← readInt rest; Some (JInt (- n), rest')
          else if isDigit c then
            '(n, rest') ← readInt (String c rest); Some (JInt n, rest')
          else if Ascii.eqb c "t" then
            rest' ← expect "rue" rest; Some (JBool true, rest')
          else if Ascii.eqb c "f" then
            rest' ← expect "alse" rest; Some (JBool false, rest')
          else if Ascii.eqb c "n" then
            rest' ← expect "ull" rest; Some (JNull, rest')
          else None
      end
  end
with elements (fuel : nat) (acc : list JSON) (s : string) : option (JSON * string) :=
  match fuel with
  | O => None
  | S fuel =>
      '(v, rest) ← value fuel s;
      match skipSpace rest with
      | String c rest' =>
          if Ascii.eqb c "," then elements fuel (acc ++ [v]) rest'
          else if Ascii.eqb c "]" then Some (JArr (acc ++ [v]), rest')
          else None
      | EmptyString => None
      end
  end
with members (fuel : nat) (acc : list (string * JSON)) (s : string)
    : option (JSON * string) :=
  match fuel with
  | O => None
  | S fuel =>
      match skipSpace s with
      | String q afterQuote =>
          if Ascii.eqb q dquote then
            '(k, rest) ← readString afterQuote;
            match skipSpace rest with
            | String colon rest' =>
                if Ascii.eqb colon ":" then
                  '(v, rest'') ← value fuel rest';
                  match skipSpace rest'' with
                  | String c rest3 =>
                      if Ascii.eqb c "," then members fuel (setField k v acc) rest3
                      else if Ascii.eqb c "}" then Some (JObj (setField k v acc), rest3)
                      else None
                  | EmptyString => None
                  end
                else None
            | EmptyString => None
            end
          else None
      | EmptyString => None
      end
  end.

(** [JSON.parse(text)] on the fragment: one value and nothing after it. *)
Definition parse (text : string) : option JSON :=
  '(v, rest) ← value (2 * String.length text + 2) text;
  match skipSpace rest with
  | EmptyString => Some v
  | String _ _ => None
  end.

(** Days since the epoch of a calendar date. *)
Definition daysFromCivil (y m d : Z) : Z :=
  let y' := if m <=? 2 then y - 1 else y in
  let era := y' / 400 in
  let yoe := y' - era * 400 in
  let mp := if m <=? 2 then m + 9 else m - 3 in
  let doy := (153 * mp + 2) / 5 + d - 1 in
  let doe := yoe * 365 + yoe / 4 - yoe / 100 + doy in
  era * 146097 + doe - 719468.

(** [new Date(s).getTime()] for [s] of the form [YYYY-MM-DD] naming a day
    that exists (UTC midnight); NaN for every other text. *)
Definition parseDate (s : string) : option Z :=
  match s with
  | String y1 (String y2 (String y3 (String y4 (String "-"
      (String m1 (String m2 (String "-" (String d1 (String d2 EmptyString))))))))) =>
      if forallb isDigit [y1; y2; y3; y4; m1; m2; d1; d2] then
        let y := fst (readDigits 0 (String y1 (String y2 (String y3 (String y4 EmptyString))))) in
        let m := fst (readDigits 0 (String m1 (String m2 EmptyString))) in
        let d := fst (readDigits 0 (String d1 (String d2 EmptyString))) in
        let days := daysFromCivil y m d in
        if bool_decide (civilFromDays days = (y, m, d))
        then Some (days * msPerDay) else None
      else None
  | _ => None
  end.

Definition runtime : Runtime := mkRuntime parse parseDate.

(** A provider reply whose message content is [content]:
    [{"choices":[{"message":{"content":content}}]}] for a [content]
    without quotes and backslashes. *)
Definition completion (content : string) : Response :=
  mkResponse 200 "OK"
    ("{" +:+ String dquote "choices" +:+ String dquote ":[{"
     +:+ String dquote "message" +:+ String dquote ":{"
     +:+ String dquote "content" +:+ String dquote ":"
     +:+ String dquote content +:+ String dquote "}}]}").

End Reference.

(** ** Vocabulary of the statements *)

(** The character [c] occurs in [s]. *)
Fixpoint hasChar (c : ascii) (s : string) : bool :=
  match s with
  | EmptyString => false
  | String c' s' => Ascii.eqb c' c || hasChar c s'
  end.

(** [v.a.b.c] on JSON values. *)
Fixpoint path (keys : list string) (v : JSON) : option JSON :=
  match keys with
  | [] => Some v
  | k :: rest => v' ← field k v; path rest v'
  end.

(** A start date all of whose [n] days are representable time values. *)
Definition validDays (rt : Runtime) (startDate : string) (n : Z) : Prop :=
  exists t, Date_parse rt startDate = Some t /\
            - maxTime <= t /\ t + n * msPerDay <= maxTime.

(** A handler outcome that fulfils with status 200, and with a JSON
    document unless the request is a CORS preflight. *)
Definition answers200 (method : string) (h : Handled) : Prop :=
  exists r, snd h = Fulfilled r /\ respStatus r = 200 /\
            (method <> "OPTIONS" -> isJson200 r).

Module DbContract.
Import DestinationSuggestions.

(** Scores in descending order. *)
Definition descending (scores : list Z) : Prop :=
  StronglySorted Z.ge scores.

(** [rows] are the first [n] of the catalog ranked by descending
    score. *)
Definition topOf (catalog : list Row) (n : Z) (rows : list Row) : Prop :=
  exists ranked,
    ranked ≡ₚ catalog /\
    descending (popularity_score <$> ranked) /\
    rows = take (Z.to_nat n) ranked.

(** Rows in the order that an [order] clause asks for.  A clause on
    another column, or no clause, asks nothing of the scores. *)
Definition ordered (clause : option (string * bool)) (rows : list Row) : Prop :=
  match clause with
  | Some (column, ascending) =>
      if String.eqb column "popularity_score" then
        if ascending then StronglySorted Z.le (popularity_score <$> rows)
        else descending (popularity_score <$> rows)
      else True
  | None => True
  end.

(** What a query without a filter asks of a table that holds [catalog]:
    the rows of the table in the order it names, cut at the limit it
    names. *)
Definition answer (catalog : list Row) (q : Select) (rows : list Row) : Prop :=
  exists ranked,
    ranked ≡ₚ catalog /\
    ordered (orderBy q) ranked /\
    rows = match limitTo q with
           | Some n => take (Z.to_nat n) ranked
           | None => ranked
           end.

(** A client of a database whose table [destination_suggestions] holds
    [catalog]: the rows it returns for a query without a filter are an
    answer to that query. *)
Definition serves (client : Client) (catalog : list Row) : Prop :=
  forall q rows,
    fromTable q = "destination_suggestions" ->
    orFilter q = None ->
    client q = Fulfilled (DbRows rows) ->
    answer catalog q rows.

(** The scores of the suggestions in a response. *)
Definition scoresOf (r : HttpResponse) : list (option Z) :=
  scoreOf <$> suggestionsOf r.

End DbContract.

(** The extraction rule in the spec's words, to compare [jsonMatch] with. *)
Module Spec.

(** The prefix of [s] up to the brace that closes [depth] open ones. *)
Fixpoint balancedPrefix (depth : nat) (s : string) : option string :=
  match s with
  | EmptyString => None
  | String c s' =>
      if Ascii.eqb c openBrace then
        String c <$> balancedPrefix (S depth) s'
      else if Ascii.eqb c closeBrace then
        match depth with
        | O => None
        | 1%nat => Some (String c EmptyString)
        | S d => String c <$> balancedPrefix d s'
        end
      else String c <$> balancedPrefix depth s'
  end.

(** "The first balanced top-level brace-delimited substring": from the
    first ["{"] to the ["}"] that closes it. *)
Definition firstBalanced (s : string) : option string :=
  match fromFirstOpen s with
  | Some (String c rest) => String c <$> balancedPrefix 1 rest
  | _ => None
  end.

End Spec.

(** ** Inputs of the examples *)

Module Examples.

(** The provider answers 500 to every attempt. *)
Definition serverDown : Dispatcher.Transport :=
  fun _ => Fulfilled (mkResponse 500 "Internal Server Error" "upstream down").

(** Every attempt fails on the network. *)
Definition networkDown : Dispatcher.Transport :=
  fun attempt => Rejected (TypeError ("connection refused #" +:+ pretty attempt)).

Definition greeting : Response := mkResponse 200 "OK" "hello".

(** The first attempt succeeds. *)
Definition healthy : Dispatcher.Transport := fun _ => Fulfilled greeting.

(** The provider replies with the given message content. *)
Definition replying (content : string) : Dispatcher.Transport :=
  fun _ => Fulfilled (Reference.completion content).

(** [s] between double quotes. *)
Definition quoted (s : string) : string :=
  String Reference.dquote (s +:+ String Reference.dquote EmptyString).

(** A reply text that is exactly one JSON object of the shape
    location-recommendations asks for, and what it decodes to. *)
Definition recommendationsText : string :=
  "{" +:+ quoted "restaurants" +:+ ":[]," +:+ quoted "sightseeing" +:+ ":[],"
  +:+ quoted "transportation" +:+ ":{}," +:+ quoted "nightlife" +:+ ":[],"
  +:+ quoted "shopping" +:+ ":[]," +:+ quoted "tips" +:+ ":[]}".

Definition recommendationsValue : JSON :=
  JObj [("restaurants", JArr []); ("sightseeing", JArr []);
        ("transportation", JObj []); ("nightlife", JArr []);
        ("shopping", JArr []); ("tips", JArr [])].

(** The same object followed by prose that ends in a closing brace. *)
Definition recommendationsThenSmiley : string :=
  recommendationsText +:+ " Enjoy :-}".

Definition configured : Env :=
  mkEnv (Some "sk-test") (Some "https://db.example") (Some "service-key").

Definition noProviderKey : Env :=
  mkEnv None (Some "https://db.example") (Some "service-key").

Definition chat : TravelChat.ChatRequest :=
  TravelChat.mkChatRequest [TravelChat.mkChatMessage "user" "Where to in May?"].

Definition twoCities : GenerateItinerary.ItineraryRequest :=
  GenerateItinerary.mkItineraryRequest ["Paris"; "Rome"] 3
    "2024-03-15" "2024-03-17" "mid-range" "balanced" ["food"].

Definition parisLuxury : ComprehensiveItinerary.DetailedItineraryRequest :=
  ComprehensiveItinerary.mkRequest "Paris" 3 "2024-03-15"
    ComprehensiveItinerary.luxury "balanced" ["art"] 2 None.

(** The same request with a start date that is not a date. *)
Definition parisLuxuryUndated : ComprehensiveItinerary.DetailedItineraryRequest :=
  ComprehensiveItinerary.mkRequest "Paris" 3 "soon"
    ComprehensiveItinerary.luxury "balanced" ["art"] 2 None.

(** A library that refuses a missing setting and a URL that is not
    http(s), and otherwise returns the given client. *)
Definition library (client : DestinationSuggestions.Client)
    : DestinationSuggestions.Supabase :=
  DestinationSuggestions.mkSupabase (fun url key =>
    match url, key with
    | Some (String c u), Some (String _ _) =>
        if String.prefix "http://" (String c u) || String.prefix "https://" (String c u)
        then Fulfilled client
        else Rejected (newError "Invalid supabaseUrl: Must be a valid HTTP or HTTPS URL.")
    | Some (String _ _), _ => Rejected (newError "supabaseKey is required.")
    | _, _ => Rejected (newError "supabaseUrl is required.")
    end).

(** A database that cannot be reached. *)
Definition dbDown : DestinationSuggestions.Supabase :=
  library (fun _ =>
    Fulfilled (DestinationSuggestions.DbFailure (newError "connection refused"))).

Definition row (name country : string) (score : Z) : DestinationSuggestions.Row :=
  DestinationSuggestions.mkRow name country "Europe" JNull (JArr []) JNull JNull score.

Definition catalog : list DestinationSuggestions.Row :=
  [row "Rome" "Italy" 80; row "Paris" "France" 100; row "London" "United Kingdom" 85].

(** The catalog by descending score. *)
Definition ranking : list DestinationSuggestions.Row :=
  [row "Paris" "France" 100; row "London" "United Kingdom" 85; row "Rome" "Italy" 80].

(** A client of a table that holds [catalog]; it answers the queries
    without a filter and fails on the others. *)
Definition catalogClient : DestinationSuggestions.Client :=
  fun q =>
    if negb (String.eqb (DestinationSuggestions.fromTable q) "destination_suggestions")
    then Fulfilled (DestinationSuggestions.DbFailure (newError "relation does not exist"))
    else
      match DestinationSuggestions.orFilter q with
      | Some _ =>
          Fulfilled (DestinationSuggestions.DbFailure (newError "filter not supported"))
      | None =>
          let rows :=
            match DestinationSuggestions.orderBy q with
            | Some (column, ascending) =>
                if String.eqb column "popularity_score" then
                  if ascending then reverse ranking else ranking
                else catalog
            | None => catalog
            end in
          Fulfilled (DestinationSuggestions.DbRows
            match DestinationSuggestions.limitTo q with
            | Some n => take (Z.to_nat n) rows
            | None => rows
            end)
      end.

(** A database holding [catalog]. *)
Definition dbUp : DestinationSuggestions.Supabase := library catalogClient.

(** A database URL without a scheme. *)
Definition noScheme : Env :=
  mkEnv (Some "sk-test") (Some "db.example") (Some "service-key").

Definition topTwo : DestinationSuggestions.SuggestionRequest :=
  DestinationSuggestions.mkSuggestionRequest EmptyString (Some 2).

End Examples.

(** ** More to observe on a run and on an itinerary *)

Module Trace.
Import Dispatcher.

(** The lines written with [console.log], in order. *)
Fixpoint logs (tr : list Event) : list string :=
  match tr with
  | [] => []
  | EvLog line :: tr' => line :: logs tr'
  | _ :: tr' => logs tr'
  end.

(** What the log line of a retry starts with, by what the attempt
    gave. *)
Definition reason (settled : Settled Response) : string :=
  match settled with
  | Fulfilled response =>
      if status response =? 429 then "Rate limited" else "Server error"
  | Rejected _ => "Request failed"
  end.

(** The time spent in [setTimeout], in milliseconds. *)
Definition totalDelay (tr : list Event) : Z := foldr Z.add 0 (delays tr).

End Trace.

(** The elements of an array-valued property. *)
Definition itemsOf (v : option JSON) : list JSON :=
  match v with
  | Some (JArr items) => items
  | _ => []
  end.

(** The value of an integer-valued property. *)
Definition intOf (v : option JSON) : option Z :=
  match v with
  | Some (JNum q) => if (Qden q =? 1)%positive then Some (Qnum q) else None
  | _ => None
  end.

(** The [priceEstimate]s of the activities of a day entry. *)
Definition priceEstimates (day : JSON) : list (option Z) :=
  (fun activity => intOf (field "priceEstimate" activity))
    <$> itemsOf (field "activities" day).

(** The sum of a list of numbers, [None] if one is missing. *)
Fixpoint sumAll (l : list (option Z)) : option Z :=
  match l with
  | [] => Some 0
  | x :: l' => a ← x; b ← sumAll l'; Some (a + b)
  end.

(** The bound ["min"] or ["max"] of a row of the cost table. *)
Definition costOf (v : JSON) (category bound : string) : option Z :=
  intOf (path ["costBreakdown"; category; bound] v).

(** The rows of the cost table that the total adds up. *)
Definition costCategories : list string :=
  ["accommodation"; "food"; "activities"; "transport"].

(** ** The browser-side services that call the functions *)

(** What a service's [fetch] of a function settles to is the response the
    function's handler gives; a rejection is a network failure between
    the browser and the function. *)

(** [response.ok] on the browser's side. *)
Definition httpOk (r : HttpResponse) : bool :=
  (200 <=? respStatus r) && (respStatus r <=? 299).

Section BrowserResponse.
Context (rt : Runtime).

(** [await response.json()]: the document the function serialised, or
    the parse of a text body. *)
Definition httpJson (r : HttpResponse) : Settled JSON :=
  match respBody r with
  | JsonBody v => Fulfilled v
  | TextBody s =>
      match JSON_parse rt s with
      | Some v => Fulfilled v
      | None => Rejected (SyntaxError "Unexpected token in JSON")
      end
  end.

(** The [try] block of the services that throw a plain
    [API error: ${response.statusText}] on a response that is not ok and
    return the decoded body otherwise.  The error is only logged; the
    status text is not part of the model of a response. *)
Definition fetchedJson (fetched : Settled HttpResponse) : Settled JSON :=
  response ← fetched;
  if negb (httpOk response) then Rejected (newError "API error")
  else httpJson response.

(** The [try] block of the services that first read
    [errorData = await response.json()] on a response that is not ok and
    then throw [errorData.error || `API error: ...`]: on such a response
    every path throws. *)
Definition fetchedJsonOrError (fetched : Settled HttpResponse) : Settled JSON :=
  response ← fetched;
  if negb (httpOk response) then
    errorData ← httpJson response;
    error ← getProp (Some errorData) "error";
    Rejected (newError (match error with
                        | Some (JStr (String c msg)) => String c msg
                        | _ => "API error"
                        end))
  else httpJson response.

End BrowserResponse.

(** *** services/openaiService.ts *)

Module OpenAIService.

(** The reply of [chatWithAssistant] when the call fails. *)
Definition sorry : string :=
  "I'm sorry, I'm having trouble connecting right now. Please try again later.".

Section Service.
Context (rt : Runtime).

(** [createFallbackItinerary(request)]: the loop is, word for word, the
    loop of the function's builder ([GenerateItinerary.fallbackDay] is
    its body); the two lists of tips are shorter. *)
Definition createFallbackItinerary (request : GenerateItinerary.ItineraryRequest)
    : Settled JSON :=
  let startDate := Date_parse rt (GenerateItinerary.startDate request) in
  days ← mapM (GenerateItinerary.fallbackDay
                 (GenerateItinerary.destinations request) startDate
                 (GenerateItinerary.duration request))
              (seqZ 0 (GenerateItinerary.duration request));
  mret (JObj [
    ("days", JArr days);
    ("totalEstimatedCost", JInt (GenerateItinerary.duration request * 115));
    ("travelTips", JStrs [
       "Pack light and bring comfortable walking shoes";
       "Keep copies of important documents";
       "Learn basic phrases in the local language" ]);
    ("packingRecommendations", JStrs [
       "Comfortable walking shoes";
       "Weather-appropriate clothing";
       "Portable charger" ]) ]).

(** [createFallbackRecommendations(destination)]: the same object
    literal as the function's. *)
Definition createFallbackRecommendations (destination : string) : JSON :=
  LocationRecommendations.createFallbackRecommendations destination.

(** [getLocationRecommendations(destination, previousDestination)],
    given what the [fetch] settles to. *)
Definition getLocationRecommendations (fetched : Settled HttpResponse)
    (destination : string) : JSON :=
  match fetchedJson rt fetched with
  | Fulfilled data => data
  | Rejected _ => createFallbackRecommendations destination
  end.

(** [chatWithAssistant(messages)]: [data.response], which is [undefined]
    when the body has no such property. *)
Definition chatWithAssistant (fetched : Settled HttpResponse) : JSValue :=
  match (data ← fetchedJson rt fetched; getProp (Some data) "response") with
  | Fulfilled reply => reply
  | Rejected _ => Some (JStr sorry)
  end.

(** [generateItinerary(request)]: the fallback builder runs inside the
    [catch] block, so what it throws is thrown to the caller. *)
Definition generateItinerary (fetched : Settled HttpResponse)
    (request : GenerateItinerary.ItineraryRequest) : Settled JSON :=
  match fetchedJsonOrError rt fetched with
  | Fulfilled data => Fulfilled data
  | Rejected _ => createFallbackItinerary request
  end.

End Service.

End OpenAIService.

(** *** services/comprehensiveAIService.ts *)

Module ComprehensiveAIService.
Import ComprehensiveItinerary.

(** The reply of [chatWithTravelExpert] when the call fails. *)
Definition trouble : string :=
  "I'm having trouble connecting right now. Please try asking about specific destinations, hotels, restaurants, or travel tips!".

(** The callback of [Array.from({ length: request.duration }, ...)]. *)
Definition dailyEntry (destination : string) (start : option Z) (i : Z)
    : Settled JSON :=
  date ← isoDate ((fun t => t + i * msPerDay) <$> start);
  mret (JObj [
    ("day", JInt (i + 1));
    ("date", JStr date);
    ("theme", JStr (if i =? 0 then "Arrival & Exploration"
                    else "Day " +:+ pretty (i + 1) +:+ " Adventures"));
    ("morning", JObj [
       ("time", JStr "09:00");
       ("activity", JStr ("Explore " +:+ destination));
       ("location", JStr "City Center");
       ("cost", JStr "$10-20");
       ("tips", JStrs ["Start early to avoid crowds"]) ]);
    ("lunch", JObj [
       ("restaurant", JStr "Local Bistro");
       ("cuisine", JStr "Local");
       ("cost", JStr "$15-25");
       ("specialties", JStrs ["Traditional dish"; "Local favorite"]) ]);
    ("afternoon", JObj [
       ("time", JStr "14:00");
       ("activity", JStr "Cultural Experience");
       ("location", JStr "Museum District");
       ("cost", JStr "$15-30");
       ("tips", JStrs ["Check for student discounts"]) ]);
    ("dinner", JObj [
       ("restaurant", JStr "Evening Restaurant");
       ("cuisine", JStr "International");
       ("cost", JStr "$25-40");
       ("specialties", JStrs ["Chef's special"; "Local wine"]) ]);
    ("evening", JObj [
       ("activity", JStr "Evening Stroll");
       ("location", JStr "Historic District");
       ("cost", JStr "Free");
       ("tips", JStrs ["Great for photos"]) ]) ]).

(** The built-in list of the service: three destinations. *)
Definition fallbackDestinations : list DestinationSuggestions.Destination := [
  DestinationSuggestions.mkDestination "Paris" "France" "Europe"
    "City of Light and Love" ["Art"; "Culture"; "Romance"; "Food"]
    "Apr-Jun, Sep-Oct" (488566 # 10000) (23522 # 10000) 100;
  DestinationSuggestions.mkDestination "Tokyo" "Japan" "Asia"
    "Modern Metropolis" ["Technology"; "Food"; "Culture"; "Shopping"]
    "Mar-May, Sep-Nov" (356762 # 10000) (1396503 # 10000) 95;
  DestinationSuggestions.mkDestination "New York" "United States" "North America"
    "The Big Apple" ["Culture"; "Broadway"; "Food"; "Museums"]
    "Apr-Jun, Sep-Nov" (407128 # 10000) (-740060 # 10000) 90 ].

(** [getFallbackSuggestions(query)]: the filter alone, with no test for
    an empty query. *)
Definition getFallbackSuggestions (query : string)
    : list DestinationSuggestions.Destination :=
  let q := DestinationSuggestions.toLowerCase query in
  List.filter
    (fun dest =>
       DestinationSuggestions.includes
         (DestinationSuggestions.toLowerCase (DestinationSuggestions.dName dest)) q ||
       DestinationSuggestions.includes
         (DestinationSuggestions.toLowerCase (DestinationSuggestions.dCountry dest)) q ||
       existsb (fun tag => DestinationSuggestions.includes
                             (DestinationSuggestions.toLowerCase tag) q)
               (DestinationSuggestions.dPopularFor dest))
    fallbackDestinations.

Section Service.
Context (rt : Runtime).

(** [createFallbackItinerary(request)] *)
Definition createFallbackItinerary (request : DetailedItineraryRequest)
    : Settled JSON :=
  let dest := destination request in
  let start := Date_parse rt (startDate request) in
  dailyItinerary ← arrayFrom (duration request) (dailyEntry dest start);
  mret (JObj [
    ("destination", JStr dest);
    ("overview", JStr (dest +:+ " is a wonderful destination with rich culture and attractions."));
    ("bestTimeToVisit", JStr "Year-round");
    ("safetyRating", JInt 8);
    ("safetyTips", JStrs [
       "Keep your belongings secure";
       "Stay aware of your surroundings";
       "Use official transportation" ]);
    ("culturalTips", JStrs [
       "Learn basic local phrases";
       "Respect local customs";
       "Dress appropriately for religious sites" ]);
    ("hotels", JArr [ JObj [
       ("name", JStr "Central Hotel");
       ("category", JStr (budgetName (budget request)));
       ("priceRange", JStr (match budget request with
                            | budget_ => "$50-100"
                            | midRange => "$100-200"
                            | luxury => "$200+"
                            end));
       ("location", JStr "City Center");
       ("amenities", JStrs ["WiFi"; "Breakfast"; "AC"]);
       ("rating", JNum (42 # 10));
       ("bookingTips", JStr "Book in advance for better rates");
       ("address", JStr ("Main Street, " +:+ dest)) ] ]);
    ("restaurants", JArr [ JObj [
       ("name", JStr "Local Favorite");
       ("cuisine", JStr "Local");
       ("mealType", JStr "lunch");
       ("priceRange", JStr "$15-25");
       ("specialties", JStrs ["Local specialty dish"]);
       ("location", JStr "Downtown");
       ("reservationRequired", JBool false);
       ("rating", JNum (45 # 10));
       ("dietaryOptions", JStrs ["Vegetarian options available"]) ] ]);
    ("attractions", JArr [ JObj [
       ("name", JStr (dest +:+ " Main Attraction"));
       ("type", JStr "Historical Site");
       ("description", JStr ("Must-visit landmark in " +:+ dest));
       ("duration", JStr "2-3 hours");
       ("bestTime", JStr "Morning");
       ("ticketPrice", JStr "$15-25");
       ("location", JStr "City Center");
       ("crowdLevel", JStr "moderate");
       ("accessibility", JStrs ["Wheelchair accessible"]);
       ("tips", JStrs ["Arrive early to avoid crowds"]) ] ]);
    ("transportation", JObj [
       ("airport", JArr [ transportOption "Taxi"
          "Direct transport from airport" "$25-40" "30-45 minutes"
          "Available at airport" "Use official taxi services"
          "Wheelchair accessible vehicles available" ]);
       ("local", JArr [ transportOption "Public Transport"
          "Efficient city transport system" "$2-5 per ride" "Varies"
          "Buy tickets at stations" "Get a day pass for savings"
          "Most stations accessible" ]);
       ("intercity", JArr [ transportOption "Train"
          "Comfortable intercity travel" "$20-50" "2-4 hours"
          "Book online or at station" "Book in advance for better prices"
          "Accessible carriages available" ]) ]);
    ("dailyItinerary", JArr dailyItinerary);
    ("costBreakdown", JObj [
       ("accommodation", range (50 * duration request) (200 * duration request));
       ("food", range (40 * duration request) (100 * duration request));
       ("activities", range (30 * duration request) (80 * duration request));
       ("transport", range (20 * duration request) (60 * duration request));
       ("total", range (140 * duration request) (440 * duration request)) ]);
    ("packingList", JStrs [
       "Comfortable walking shoes";
       "Weather-appropriate clothing";
       "Portable charger";
       "Travel adapter";
       "First aid kit";
       "Sunscreen";
       "Camera" ]);
    ("emergencyInfo", JObj [
       ("emergencyNumber", JStr "911");
       ("hospitals", JStrs [dest +:+ " General Hospital"]);
       ("embassies", JStrs ["Contact your embassy"]);
       ("importantPhones", JStrs ["Tourist helpline: 123-456-7890"]) ]) ]).

(** [generateDetailedItinerary(request)]: the fallback builder runs
    inside the [catch] block. *)
Definition generateDetailedItinerary (fetched : Settled HttpResponse)
    (request : DetailedItineraryRequest) : Settled JSON :=
  match fetchedJsonOrError rt fetched with
  | Fulfilled data => Fulfilled data
  | Rejected _ => createFallbackItinerary request
  end.

(** [getDestinationSuggestions(query)]: [data.suggestions], or the
    filtered built-in list. *)
Definition getDestinationSuggestions (fetched : Settled HttpResponse)
    (query : string) : JSValue :=
  match (data ← fetchedJson rt fetched; getProp (Some data) "suggestions") with
  | Fulfilled suggestions => suggestions
  | Rejected _ =>
      Some (JArr (DestinationSuggestions.destinationJson
                    <$> getFallbackSuggestions query))
  end.

(** [chatWithTravelExpert(messages)] *)
Definition chatWithTravelExpert (fetched : Settled HttpResponse) : JSValue :=
  match (data ← fetchedJson rt fetched; getProp (Some data) "response") with
  | Fulfilled reply => reply
  | Rejected _ => Some (JStr trouble)
  end.

End Service.

End ComprehensiveAIService.

(** *** A service call against its function *)

(** The browser's [fetch] reaches the function, which runs its handler
    on the posted body and answers with what the handler returns.  A
    handler that throws leaves the service without a response that is ok;
    every service treats that as it treats a failed fetch, in its [catch]
    block. *)
Module EndToEnd.

Section Calls.
Context (rt : Runtime) (env : Env) (transport : Dispatcher.Transport).

(** [openAIService.chatWithAssistant(messages)] against travel-chat. *)
Definition chat (messages : list TravelChat.ChatMessage) : JSValue :=
  OpenAIService.chatWithAssistant rt
    (snd (TravelChat.serve rt TravelChat.unavailable "POST"
            (Fulfilled (TravelChat.mkChatRequest messages)) env transport)).

(** [comprehensiveAIService.chatWithTravelExpert(messages)] against
    travel-expert-chat. *)
Definition expertChat (messages : list TravelChat.ChatMessage) : JSValue :=
  ComprehensiveAIService.chatWithTravelExpert rt
    (snd (TravelChat.serve rt TravelChat.unavailableExpert "POST"
            (Fulfilled (TravelChat.mkChatRequest messages)) env transport)).

(** [openAIService.getLocationRecommendations(destination,
    previousDestination)] against location-recommendations. *)
Definition locationRecommendations (destination : string)
    (previousDestination : option string) : JSON :=
  OpenAIService.getLocationRecommendations rt
    (snd (LocationRecommendations.serve rt "POST"
            (Fulfilled (LocationRecommendations.mkLocationRequest destination
                          previousDestination)) env transport))
    destination.

(** [openAIService.generateItinerary(request)] against
    generate-itinerary. *)
Definition itinerary (request : GenerateItinerary.ItineraryRequest)
    : Settled JSON :=
  OpenAIService.generateItinerary rt
    (snd (GenerateItinerary.serve rt "POST" (Fulfilled request) env transport))
    request.

(** [comprehensiveAIService.generateDetailedItinerary(request)] against
    comprehensive-itinerary. *)
Definition detailedItinerary
    (request : ComprehensiveItinerary.DetailedItineraryRequest) : Settled JSON :=
  ComprehensiveAIService.generateDetailedItinerary rt
    (snd (ComprehensiveItinerary.serve rt "POST" (Fulfilled request) env transport))
    request.

(** [comprehensiveAIService.getDestinationSuggestions(query)] against
    destination-suggestions; the posted body is [{ query }], without a
    limit. *)
Definition suggestions (db : DestinationSuggestions.Supabase) (query : string)
    : JSValue :=
  ComprehensiveAIService.getDestinationSuggestions rt
    (DestinationSuggestions.serve "POST"
       (Fulfilled (DestinationSuggestions.mkSuggestionRequest query None)) env db)
    query.

End Calls.

End EndToEnd.

(** ** Vocabulary of the further statements *)

(** The provider's response is ok and is a completion whose message
    content is [content]. *)
Definition completes (rt : Runtime) (response : Response) (content : JSValue)
    : Prop :=
  ok response = true /\
  exists data, JSON_parse rt (bodyText response) = Some data /\
               completionContent data = Fulfilled content.

(** A reply the inner [try] can do nothing with: a completion whose
    content holds no JSON text that decodes. *)
Definition unusableReply (rt : Runtime) (response : Response) : Prop :=
  exists content e,
    completes rt response content /\ extractJson rt content = Rejected e.

(** The provider cannot be used at all: no key, no response after the
    retries, or a last response that is not ok. *)
Definition providerUnavailable (env : Env) (transport : Dispatcher.Transport)
    : Prop :=
  truthy (OPENAI_API_KEY env) = false \/
  (exists e, snd (Dispatcher.fetchWithRetry transport 3) = Rejected e) \/
  (exists response,
     snd (Dispatcher.fetchWithRetry transport 3) = Fulfilled response /\
     ok response = false).

(** ** Further inputs of the examples *)

Module Scenarios.

(** Rate limited twice, then served. *)
Definition busyThenServed : Dispatcher.Transport :=
  fun attempt =>
    if attempt <? 2 then Fulfilled (mkResponse 429 "Too Many Requests" "slow down")
    else Fulfilled Examples.greeting.

(** A completion whose message content is [content]. *)
Definition completionOf (content : JSON) : JSON :=
  JObj [("choices", JArr [JObj [("message", JObj [("content", content)])]])].

Definition fourDaysThreeCities : GenerateItinerary.ItineraryRequest :=
  GenerateItinerary.mkItineraryRequest ["Paris"; "Rome"; "Vienna"] 4
    "2024-03-15" "2024-03-18" "mid-range" "balanced" ["food"].

Definition undatedTrip : GenerateItinerary.ItineraryRequest :=
  GenerateItinerary.mkItineraryRequest ["Paris"] 2 "soon" "later"
    "mid-range" "balanced" ["food"].

Definition undated : ComprehensiveItinerary.DetailedItineraryRequest :=
  ComprehensiveItinerary.mkRequest "Paris" 2 "soon"
    ComprehensiveItinerary.midRange "balanced" ["art"] 2 None.

(** A stay of 2^32 days. *)
Definition endless : ComprehensiveItinerary.DetailedItineraryRequest :=
  ComprehensiveItinerary.mkRequest "Paris" 4294967296 "2024-03-15"
    ComprehensiveItinerary.midRange "balanced" ["art"] 2 None.

(** A query of one no-break space, U+00A0, and one ideographic space,
    U+3000. *)
Definition wideSpaces : string :=
  String (ascii_of_nat 194) (String (ascii_of_nat 160)
    (String (ascii_of_nat 227) (String (ascii_of_nat 128)
       (String (ascii_of_nat 128) EmptyString)))).

(** What the function's builder gives for the Paris request. *)
Definition parisLuxuryFallback : JSON :=
  Eval vm_compute in
    match ComprehensiveItinerary.createFallbackItinerary Reference.runtime
            Examples.parisLuxury with
    | Fulfilled v => v
    | Rejected _ => JNull
    end.

End Scenarios.

(** * Properties *)

#[local] Arguments String.append !_ _ / : simpl nomatch.

(** ** The retry loop *)

Section DispatcherFacts.
Import Dispatcher.
Context (transport : Transport) (maxRetries : Z).

(** With every attempt before the last one retried, the loop uses all
    its iterations and ends the way the last attempt ends. *)
Lemma retryLoop_exhaustion (n : nat) (attempt : Z) (lastError : option Error) :
  attempt + Z.of_nat n = maxRetries + 1 ->
  (0 < n)%nat ->
  (forall a, attempt <= a < maxRetries -> retryable (transport a) = true) ->
  attempts (fst (retryLoop transport maxRetries n attempt lastError)) = Z.of_nat n /\
  snd (retryLoop transport maxRetries n attempt lastError) = transport maxRetries.
Proof.
  revert attempt lastError.
  induction n as [|n IH]; intros attempt lastError Hsum Hpos Hretry; [lia|].
  cbn [retryLoop].
  destruct (Z.ltb_spec attempt maxRetries) as [Hlt|Hge].
  - assert (Hn : (0 < n)%nat) by lia.
    pose proof (Hretry attempt ltac:(lia)) as Hhere.
    destruct (transport attempt) as [response|error] eqn:Hfetch; cbn in Hhere.
    + rewrite Hhere. cbn [andb].
      destruct (IH (attempt + 1) lastError) as [Hcount Hres]; [lia|done|intros; apply Hretry; lia|].
      destruct (retryLoop _ _ n _ _) as [tr res]. cbn in *. split; [lia|done].
    + destruct (IH (attempt + 1) (Some error)) as [Hcount Hres]; [lia|done|intros; apply Hretry; lia|].
      destruct (retryLoop _ _ n _ _) as [tr res]. cbn in *. split; [lia|done].
  - assert (n = 0%nat) by lia. subst n.
    assert (attempt = maxRetries) by lia. subst attempt.
    destruct (transport maxRetries) as [response|error]; cbn.
    + rewrite andb_false_r. cbn. done.
    + done.
Qed.

(** A schedule starts with a fetch. *)
Lemma schedule_head (k : nat) (a : Z) :
  exists rest, schedule k a = EvFetch a :: rest.
Proof. destruct k; cbn; eauto. Qed.

(** The fetches and sleeps of any run form a schedule. *)
Lemma retryLoop_timing (n : nat) (attempt : Z) (lastError : option Error) :
  attempt + Z.of_nat n = maxRetries + 1 ->
  (0 < n)%nat ->
  exists k : nat, (k < n)%nat /\
    timing (fst (retryLoop transport maxRetries n attempt lastError)) = schedule k attempt /\
    attempts (fst (retryLoop transport maxRetries n attempt lastError)) = Z.of_nat k + 1.
Proof.
  revert attempt lastError.
  induction n as [|n IH]; intros attempt lastError Hsum Hpos; [lia|].
  cbn [retryLoop].
  destruct (Z.ltb_spec attempt maxRetries) as [Hlt|Hge].
  - assert (Hn : (0 < n)%nat) by lia.
    destruct (transport attempt) as [response|error].
    + destruct (badStatus response); cbn [andb].
      * destruct (IH (attempt + 1) lastError) as (k & Hk & Htm & Hat); [lia|done|].
        destruct (retryLoop _ _ n _ _) as [tr res]. cbn in *.
        exists (S k). cbn. rewrite Htm. split; [lia|]. split; [done|lia].
      * exists 0%nat. cbn. split; [lia|done].
    + destruct (IH (attempt + 1) (Some error)) as (k & Hk & Htm & Hat); [lia|done|].
      destruct (retryLoop _ _ n _ _) as [tr res]. cbn in *.
      exists (S k). cbn. rewrite Htm. split; [lia|]. split; [done|lia].
  - assert (n = 0%nat) by lia. subst n.
    exists 0%nat. split; [lia|].
    destruct (transport attempt) as [response|error]; cbn.
    + rewrite andb_false_r. cbn. done.
    + done.
Qed.


(** Dropping the log lines keeps the delays. *)
Lemma delays_timing (tr : list Event) : delays (timing tr) = delays tr.
Proof.
  induction tr as [|ev tr IH]; [done|].
  destruct ev; cbn; rewrite ?IH; done.
Qed.

(** The delays of a schedule, numbered by the attempt they precede. *)
Lemma delays_schedule (k : nat) (a : Z) :
  delays (schedule k a) =
  (fun n => 2 ^ (n - 1) * 1000) <$> seqZ (a + 1) (Z.of_nat k).
Proof.
  revert a. induction k as [|k IH]; intros a; [done|].
  rewrite seqZ_cons by lia. cbn [schedule delays fmap list_fmap].
  rewrite IH. unfold backoff. repeat f_equal; lia.
Qed.

(** In a schedule the delay before attempt [n] is [2^(n-1) * 1000]. *)
Lemma delayBefore_schedule (k : nat) (a n : Z) :
  a < n <= a + Z.of_nat k ->
  delayBefore n (schedule k a) = Some (2 ^ (n - 1) * 1000).
Proof.
  revert a. induction k as [|k IH]; intros a Hn; [lia|].
  cbn [schedule delayBefore].
  destruct (schedule_head k (a + 1)) as [rest Hrest].
  pose proof (IH (a + 1)) as IH'. rewrite Hrest in IH' |- *.
  destruct (Z.eqb_spec (a + 1) n) as [<-|Hne].
  - unfold backoff. do 3 f_equal. lia.
  - apply IH'. lia.
Qed.

(** A schedule ends with its last fetch. *)
Lemma last_schedule (k : nat) (a : Z) :
  last (schedule k a) = Some (EvFetch (a + Z.of_nat k)).
Proof.
  revert a. induction k as [|k IH]; intros a.
  - cbn. do 2 f_equal. lia.
  - cbn [schedule]. destruct (schedule_head k (a + 1)) as [rest Hrest].
    pose proof (IH (a + 1)) as IH'. rewrite Hrest in IH' |- *.
    cbn [last] in *. rewrite IH'. do 2 f_equal. lia.
Qed.

(** [k] retried failures, then a response with a good status: it is
    returned after [k + 1] fetches. *)
Lemma retryLoop_nonretryable (k n : nat) (attempt : Z) (lastError : option Error)
    (r : Response) :
  attempt + Z.of_nat n = maxRetries + 1 ->
  attempt + Z.of_nat k <= maxRetries ->
  (forall a, attempt <= a < attempt + Z.of_nat k -> retryable (transport a) = true) ->
  transport (attempt + Z.of_nat k) = Fulfilled r ->
  badStatus r = false ->
  snd (retryLoop transport maxRetries n attempt lastError) = Fulfilled r /\
  attempts (fst (retryLoop transport maxRetries n attempt lastError)) = Z.of_nat k + 1 /\
  timing (fst (retryLoop transport maxRetries n attempt lastError)) = schedule k attempt.
Proof.
  revert n attempt lastError.
  induction k as [|k IH]; intros n attempt lastError Hsum Hle Hretry Hlast Hgood.
  - destruct n as [|n]; [lia|]. cbn [retryLoop].
    replace (attempt + Z.of_nat 0) with attempt in Hlast by lia.
    rewrite Hlast, Hgood. cbn. done.
  - destruct n as [|n]; [lia|]. cbn [retryLoop].
    pose proof (Hretry attempt ltac:(lia)) as Hhere.
    assert (Hlt : (attempt <? maxRetries) = true) by (apply Z.ltb_lt; lia).
    rewrite Hlt.
    assert (Hstep : forall le,
      snd (retryLoop transport maxRetries n (attempt + 1) le) = Fulfilled r /\
      attempts (fst (retryLoop transport maxRetries n (attempt + 1) le)) = Z.of_nat k + 1 /\
      timing (fst (retryLoop transport maxRetries n (attempt + 1) le)) = schedule k (attempt + 1)).
    { intros le. apply IH; [lia|lia|intros; apply Hretry; lia| |done].
      rewrite <- Hlast. f_equal. lia. }
    destruct (transport attempt) as [response|error]; cbn in Hhere.
    + rewrite Hhere. cbn [andb].
      destruct (Hstep lastError) as (Hres & Hat & Htm).
      destruct (retryLoop _ _ n _ _) as [tr res]. cbn in *.
      rewrite Htm. split; [done|]. split; [lia|done].
    + destruct (Hstep (Some error)) as (Hres & Hat & Htm).
      destruct (retryLoop _ _ n _ _) as [tr res]. cbn in *.
      rewrite Htm. split; [done|]. split; [lia|done].
Qed.

(** A run that throws throws the error of its last attempt. *)
Lemma retryLoop_rejected_inv (n : nat) (attempt : Z) (lastError : option Error)
    (e : Error) :
  attempt + Z.of_nat n = maxRetries + 1 ->
  (0 < n)%nat ->
  snd (retryLoop transport maxRetries n attempt lastError) = Rejected e ->
  transport maxRetries = Rejected e.
Proof.
  revert attempt lastError.
  induction n as [|n IH]; intros attempt lastError Hsum Hpos; [lia|].
  cbn [retryLoop].
  destruct (Z.ltb_spec attempt maxRetries) as [Hlt|Hge].
  - assert (Hn : (0 < n)%nat) by lia.
    destruct (transport attempt) as [response|error].
    + destruct (badStatus response); cbn [andb]; [|done].
      specialize (IH (attempt + 1) lastError ltac:(lia) Hn).
      destruct (retryLoop _ _ n _ _) as [tr res]. exact IH.
    + specialize (IH (attempt + 1) (Some error) ltac:(lia) Hn).
      destruct (retryLoop _ _ n _ _) as [tr res]. exact IH.
  - assert (n = 0%nat) by lia. subst n.
    assert (attempt = maxRetries) by lia. subst attempt.
    destruct (transport maxRetries) as [response|error]; cbn.
    + rewrite andb_false_r. done.
    + done.
Qed.

End DispatcherFacts.

Section DispatcherClaims.
Import Dispatcher.

(** C3 (amended).  When every attempt of a call fails in a way the loop
    retries (status 429 or 5xx, or a rejected fetch), [fetchWithRetry]
    makes exactly [maxRetries + 1] attempts and ends the way its last
    attempt ended: after a bad status it hands that last response to the
    caller ([Delivered], not [Exhausted]); after a network error it
    throws that error ([Exhausted] with the most recent network error). *)
Theorem fetchWithRetry_retryable_only (transport : Transport) (maxRetries : Z) :
  0 <= maxRetries ->
  (forall a, 0 <= a <= maxRetries -> retryable (transport a) = true) ->
  attempts (fst (fetchWithRetry transport maxRetries)) = maxRetries + 1 /\
  snd (fetchWithRetry transport maxRetries) = transport maxRetries /\
  (forall r, transport maxRetries = Fulfilled r ->
     snd (fetchWithRetry transport maxRetries) = Delivered r) /\
  (forall e, transport maxRetries = Rejected e ->
     snd (fetchWithRetry transport maxRetries) = Exhausted e).
Proof.
  intros Hmax Hretry. unfold fetchWithRetry.
  destruct (retryLoop_exhaustion transport maxRetries
              (Z.to_nat (maxRetries + 1)) 0 None) as [Hcount Hres];
    [lia|lia|intros; apply Hretry; lia|].
  rewrite Hcount, Hres. split; [lia|]. split; [done|]. split; intros ? ->; done.
Qed.

Lemma fetchWithRetry_retryable_only_witness :
  attempts (fst (fetchWithRetry Examples.networkDown 3)) = 3 + 1 /\
  snd (fetchWithRetry Examples.networkDown 3) = Examples.networkDown 3 /\
  (forall r, Examples.networkDown 3 = Fulfilled r ->
     snd (fetchWithRetry Examples.networkDown 3) = Delivered r) /\
  (forall e, Examples.networkDown 3 = Rejected e ->
     snd (fetchWithRetry Examples.networkDown 3) = Exhausted e).
Proof.
  apply (fetchWithRetry_retryable_only Examples.networkDown 3); [lia|].
  intros a _. reflexivity.
Defined.

(** The provider answers 500 four times: four attempts, and the call
    returns the last response instead of throwing. *)
Lemma serverDown_is_delivered :
  (forall a, retryable (Examples.serverDown a) = true) /\
  attempts (fst (fetchWithRetry Examples.serverDown 3)) = 3 + 1 /\
  snd (fetchWithRetry Examples.serverDown 3)
    = Delivered (mkResponse 500 "Internal Server Error" "upstream down") /\
  ~ (exists e, snd (fetchWithRetry Examples.serverDown 3) = Exhausted e).
Proof.
  split; [intros; reflexivity|]. split; [reflexivity|]. split; [reflexivity|].
  intros [e He]. vm_compute in He. discriminate He.
Qed.

(** Whenever an attempt is made, a thrown error is the network error of
    the last attempt; the error made up by [fetchWithRetry] itself only
    appears when the loop does not run at all. *)
Lemma fetchWithRetry_exhausted_inv (transport : Transport) (maxRetries : Z)
    (e : Error) :
  0 <= maxRetries ->
  snd (fetchWithRetry transport maxRetries) = Exhausted e ->
  transport maxRetries = Rejected e.
Proof.
  intros Hmax. unfold fetchWithRetry.
  apply retryLoop_rejected_inv; lia.
Qed.

Lemma fetchWithRetry_no_attempt (transport : Transport) (maxRetries : Z) :
  maxRetries < 0 ->
  fetchWithRetry transport maxRetries
  = ([], Exhausted (newError "Max retries exceeded")).
Proof.
  intros Hneg. unfold fetchWithRetry.
  destruct (Z.to_nat (maxRetries + 1)) eqn:Hn; [done|lia].
Qed.

(** C4 (amended).  The delay slept before retry attempt [n]
    ([n = 1, 2, 3, ...]) is [2^(n-1) * 1000] ms, that is [2^a * 1000]
    for the index [a = n - 1] of the attempt that just failed: 1000,
    2000, 4000 ms across three retries.  A run ends with a fetch, so no
    delay follows the final attempt. *)
Theorem backoff_between_attempts (transport : Transport) (maxRetries : Z) :
  0 <= maxRetries ->
  exists k : nat,
    Z.of_nat k <= maxRetries /\
    attempts (fst (fetchWithRetry transport maxRetries)) = Z.of_nat k + 1 /\
    delays (fst (fetchWithRetry transport maxRetries))
      = (fun n => 2 ^ (n - 1) * 1000) <$> seqZ 1 (Z.of_nat k) /\
    (forall n, 1 <= n <= Z.of_nat k ->
       delayBefore n (timing (fst (fetchWithRetry transport maxRetries)))
         = Some (2 ^ (n - 1) * 1000)) /\
    last (timing (fst (fetchWithRetry transport maxRetries)))
      = Some (EvFetch (Z.of_nat k)) /\
    ((forall a, 0 <= a < maxRetries -> retryable (transport a) = true) ->
     Z.of_nat k = maxRetries).
Proof.
  intros Hmax. unfold fetchWithRetry.
  destruct (retryLoop_timing transport maxRetries
              (Z.to_nat (maxRetries + 1)) 0 None) as (k & Hk & Htm & Hat); [lia|lia|].
  exists k. split; [lia|]. split; [done|].
  split. { rewrite <- delays_timing, Htm. apply delays_schedule. }
  split. { intros n Hn. rewrite Htm. apply delayBefore_schedule. lia. }
  split. { rewrite Htm. apply last_schedule. }
  intros Hretry.
  destruct (retryLoop_exhaustion transport maxRetries
              (Z.to_nat (maxRetries + 1)) 0 None) as [Hcount _];
    [lia|lia|intros; apply Hretry; lia|].
  lia.
Qed.

Lemma backoff_between_attempts_witness :
  exists k : nat,
    Z.of_nat k <= 3 /\
    attempts (fst (fetchWithRetry Examples.serverDown 3)) = Z.of_nat k + 1 /\
    delays (fst (fetchWithRetry Examples.serverDown 3))
      = (fun n => 2 ^ (n - 1) * 1000) <$> seqZ 1 (Z.of_nat k) /\
    (forall n, 1 <= n <= Z.of_nat k ->
       delayBefore n (timing (fst (fetchWithRetry Examples.serverDown 3)))
         = Some (2 ^ (n - 1) * 1000)) /\
    last (timing (fst (fetchWithRetry Examples.serverDown 3)))
      = Some (EvFetch (Z.of_nat k)) /\
    ((forall a, 0 <= a < 3 -> retryable (Examples.serverDown a) = true) ->
     Z.of_nat k = 3).
Proof. apply (backoff_between_attempts Examples.serverDown 3). lia. Defined.

(** With the provider down, the first retry comes after 1000 ms, not
    after [2^1 * 1000]. *)
Lemma first_retry_waits_one_second :
  delays (fst (fetchWithRetry Examples.serverDown 3)) = [1000; 2000; 4000] /\
  delayBefore 1 (timing (fst (fetchWithRetry Examples.serverDown 3))) = Some 1000 /\
  delayBefore 1 (timing (fst (fetchWithRetry Examples.serverDown 3)))
    <> Some (2 ^ 1 * 1000).
Proof. split; [reflexivity|]. split; [reflexivity|]. vm_compute. discriminate. Qed.

(** A good status on the first attempt: one fetch. *)
Lemma fetchWithRetry_first_attempt (transport : Transport) (maxRetries : Z)
    (r : Response) :
  0 <= maxRetries ->
  transport 0 = Fulfilled r ->
  badStatus r = false ->
  fetchWithRetry transport maxRetries = ([EvFetch 0], Fulfilled r).
Proof.
  intros Hmax Hfetch Hgood. unfold fetchWithRetry.
  destruct (Z.to_nat (maxRetries + 1)) as [|n] eqn:Hn; [lia|].
  cbn [retryLoop]. rewrite Hfetch, Hgood. done.
Qed.

(** 2xx, and 4xx other than 429, are not retried. *)
Lemma goodStatus (r : Response) :
  200 <= status r < 300 \/ (400 <= status r < 500 /\ status r <> 429) ->
  badStatus r = false.
Proof.
  intros H. unfold badStatus. apply orb_false_iff. split.
  - apply Z.eqb_neq. lia.
  - apply Z.leb_gt. lia.
Qed.

(** C6.  A response with a status that is not retried (2xx, or 4xx
    other than 429) is returned at once as [Delivered], with no further
    attempt; when it is the first attempt's, the run is that one fetch
    and the response comes back whatever its body. *)
Theorem nonretryable_delivered_at_once (transport : Transport) (maxRetries : Z)
    (k : nat) (r : Response) :
  Z.of_nat k <= maxRetries ->
  (forall a, 0 <= a < Z.of_nat k -> retryable (transport a) = true) ->
  transport (Z.of_nat k) = Fulfilled r ->
  200 <= status r < 300 \/ (400 <= status r < 500 /\ status r <> 429) ->
  snd (fetchWithRetry transport maxRetries) = Delivered r /\
  attempts (fst (fetchWithRetry transport maxRetries)) = Z.of_nat k + 1 /\
  (k = 0%nat -> fst (fetchWithRetry transport maxRetries) = [EvFetch 0]).
Proof.
  intros Hk Hretry Hfetch Hstatus.
  pose proof (goodStatus r Hstatus) as Hgood.
  destruct (retryLoop_nonretryable transport maxRetries k
              (Z.to_nat (maxRetries + 1)) 0 None r) as (Hres & Hat & _);
    [lia|lia|intros; apply Hretry; lia|done|done|].
  split; [done|]. split; [done|].
  intros ->. rewrite (fetchWithRetry_first_attempt transport maxRetries r); [done|lia|done|done].
Qed.

Lemma nonretryable_delivered_at_once_witness :
  snd (fetchWithRetry Examples.healthy 3) = Delivered Examples.greeting /\
  attempts (fst (fetchWithRetry Examples.healthy 3)) = Z.of_nat 0 + 1 /\
  (0%nat = 0%nat -> fst (fetchWithRetry Examples.healthy 3) = [EvFetch 0]).
Proof.
  apply (nonretryable_delivered_at_once Examples.healthy 3 0 Examples.greeting);
    [lia | intros; lia | reflexivity | left; cbn; lia].
Defined.

End DispatcherClaims.

(** ** The extraction of the JSON text *)

Lemma append_assoc (a b c : string) : (a +:+ b) +:+ c = a +:+ (b +:+ c).
Proof. induction a as [|x a IH]; simpl; [done|]. by rewrite IH. Qed.

(** A prefix without an opening brace is skipped. *)
Lemma fromFirstOpen_skip (pre rest : string) :
  hasChar openBrace pre = false ->
  fromFirstOpen (pre +:+ String openBrace rest) = Some (String openBrace rest).
Proof.
  induction pre as [|c pre IH]; cbn; intros Hpre; [done|].
  apply orb_false_iff in Hpre as [Hc Hpre]. rewrite Hc. auto.
Qed.

(** What [fromFirstOpen] returns starts at the first opening brace. *)
Lemma fromFirstOpen_inv (s t : string) :
  fromFirstOpen s = Some t ->
  exists pre rest, s = pre +:+ t /\ t = String openBrace rest /\
                   hasChar openBrace pre = false.
Proof.
  revert t. induction s as [|c s IH]; cbn; intros t Ht; [done|].
  destruct (Ascii.eqb_spec c openBrace) as [->|Hne].
  - injection Ht as <-. exists EmptyString, s. done.
  - destruct (IH t Ht) as (pre & rest & -> & -> & Hpre).
    exists (String c pre), rest. cbn. split; [done|]. split; [done|].
    rewrite Hpre. by apply Ascii.eqb_neq in Hne as ->.
Qed.

(** Without a closing brace there is no match. *)
Lemma upToLastClose_none (s : string) :
  hasChar closeBrace s = false -> upToLastClose s = None.
Proof.
  induction s as [|c s IH]; cbn; intros Hs; [done|].
  apply orb_false_iff in Hs as [Hc Hs]. by rewrite IH, Hc.
Qed.

(** The match ends at a closing brace that no other follows. *)
Lemma upToLastClose_last (mid post : string) :
  hasChar closeBrace post = false ->
  upToLastClose (mid +:+ String closeBrace post)
    = Some (mid +:+ String closeBrace EmptyString).
Proof.
  intros Hpost. induction mid as [|c mid IH]; cbn.
  - by rewrite upToLastClose_none.
  - by rewrite IH.
Qed.

(** What [upToLastClose] returns ends at the last closing brace. *)
Lemma upToLastClose_inv (s m : string) :
  upToLastClose s = Some m ->
  exists mid post, m = mid +:+ String closeBrace EmptyString /\
                   s = m +:+ post /\ hasChar closeBrace post = false.
Proof.
  revert m. induction s as [|c s IH]; cbn; intros m Hm; [done|].
  destruct (upToLastClose s) as [m'|] eqn:Hs.
  - injection Hm as <-. destruct (IH m' eq_refl) as (mid & post & -> & -> & Hpost).
    exists (String c mid), post. done.
  - destruct (Ascii.eqb_spec c closeBrace) as [->|Hne]; [|done].
    injection Hm as <-. exists EmptyString, s. cbn. split; [done|]. split; [done|].
    clear IH. induction s as [|c s IH]; cbn in *; [done|].
    destruct (upToLastClose s); [done|].
    destruct (Ascii.eqb c closeBrace); [done|]. cbn. by apply IH.
Qed.

(** The match runs from the first opening to the last closing brace. *)
Lemma jsonMatch_greedy (pre mid post : string) :
  hasChar openBrace pre = false ->
  hasChar closeBrace post = false ->
  jsonMatch (pre +:+ String openBrace (mid +:+ String closeBrace post))
    = Some (String openBrace (mid +:+ String closeBrace EmptyString)).
Proof.
  intros Hpre Hpost. unfold jsonMatch.
  rewrite fromFirstOpen_skip by done. by rewrite upToLastClose_last.
Qed.

(** Every match has this form. *)
Lemma jsonMatch_inv (content m : string) :
  jsonMatch content = Some m ->
  exists pre mid post,
    content = pre +:+ String openBrace (mid +:+ String closeBrace post) /\
    m = String openBrace (mid +:+ String closeBrace EmptyString) /\
    hasChar openBrace pre = false /\ hasChar closeBrace post = false.
Proof.
  unfold jsonMatch. intros Hm.
  destruct (fromFirstOpen content) as [t|] eqn:Hopen; [|done].
  destruct (fromFirstOpen_inv _ _ Hopen) as (pre & rest & -> & -> & Hpre).
  destruct (upToLastClose rest) as [m'|] eqn:Hclose; [|done].
  injection Hm as <-.
  destruct (upToLastClose_inv _ _ Hclose) as (mid & post & -> & -> & Hpost).
  exists pre, mid, post. rewrite append_assoc. done.
Qed.

Section ResolverFacts.
Context (rt : Runtime).

(** A match that decodes is the result. *)
Lemma resolve_parsed (s m : string) (v : JSON) (fb : Settled JSON) :
  jsonMatch s = Some m -> JSON_parse rt m = Some v ->
  resolve rt (Some (JStr s)) fb = Fulfilled v.
Proof. intros Hm Hv. unfold resolve, extractJson. by rewrite Hm, Hv. Qed.

(** A throw inside the inner [try] gives the fallback. *)
Lemma resolve_fallback (content : JSValue) (fb : Settled JSON) (e : Error) :
  extractJson rt content = Rejected e -> resolve rt content fb = fb.
Proof. intros He. unfold resolve. by rewrite He. Qed.

(** No match: the inner [try] throws. *)
Lemma extractJson_no_match (s : string) :
  jsonMatch s = None -> exists e, extractJson rt (Some (JStr s)) = Rejected e.
Proof. intros Hm. unfold extractJson. rewrite Hm. eauto. Qed.

(** A match that does not decode: the inner [try] throws. *)
Lemma extractJson_bad_syntax (s m : string) :
  jsonMatch s = Some m -> JSON_parse rt m = None ->
  exists e, extractJson rt (Some (JStr s)) = Rejected e.
Proof. intros Hm Hp. unfold extractJson. rewrite Hm, Hp. eauto. Qed.

End ResolverFacts.

(** ** Loops over day numbers *)

Lemma mapM_Fulfilled_inv {A B : Type} (f : A -> Settled B) (l : list A) (ys : list B) :
  mapM f l = Fulfilled ys -> Forall2 (fun x y => f x = Fulfilled y) l ys.
Proof.
  revert ys. induction l as [|x l IH]; intros ys; cbn.
  - intros [= <-]. constructor.
  - destruct (f x) as [y|e] eqn:Hfx; cbn; [|done].
    destruct (mapM f l) as [k|e]; cbn; [|done].
    intros [= <-]. constructor; auto.
Qed.

(** A loop all of whose turns complete does complete. *)
Lemma mapM_Fulfilled_total {A B : Type} (f : A -> Settled B) (l : list A) :
  Forall (fun x => exists y, f x = Fulfilled y) l ->
  exists ys, mapM f l = Fulfilled ys.
Proof.
  induction 1 as [|x l [y Hy] _ [ys Hys]]; cbn.
  - eauto.
  - rewrite Hy. cbn. rewrite Hys. cbn. eauto.
Qed.

(** A time value in range has a calendar date. *)
Lemma isoDate_valid (t : Z) :
  - maxTime <= t <= maxTime -> exists s, isoDate (Some t) = Fulfilled s.
Proof.
  intros [Hlo Hhi]. unfold isoDate.
  apply Z.leb_le in Hlo, Hhi. rewrite Hlo, Hhi. cbn [andb].
  destruct (civilFromDays _) as [[y m] d]. eauto.
Qed.

(** Every day of a valid stay has a calendar date. *)
Lemma validDays_iso (rt : Runtime) (startDate : string) (n i : Z) :
  validDays rt startDate n -> 0 <= i < n ->
  exists s, isoDate ((fun t => t + i * msPerDay) <$> Date_parse rt startDate)
            = Fulfilled s.
Proof.
  intros (t & -> & Hlo & Hhi) Hi. cbn. apply isoDate_valid.
  unfold msPerDay in *. lia.
Qed.

(** A valid stay is shorter than the longest array. *)
Lemma validDays_length (rt : Runtime) (startDate : string) (n : Z) :
  validDays rt startDate n -> n <= maxArrayLength.
Proof.
  intros (t & _ & Hlo & Hhi). unfold maxArrayLength, maxTime, msPerDay in *. lia.
Qed.

(** What [Array.from] returns, it returns for a length within the
    bound and from callbacks that all returned. *)
Lemma arrayFrom_Fulfilled_inv {A : Type} (n : Z) (f : Z -> Settled A) (ys : list A) :
  arrayFrom n f = Fulfilled ys ->
  n <= maxArrayLength /\
  Forall2 (fun i y => f i = Fulfilled y) (seqZ 0 n) ys.
Proof.
  unfold arrayFrom. destruct (Z.ltb_spec maxArrayLength n); [done|].
  intros Hys. split; [done|]. by apply mapM_Fulfilled_inv.
Qed.

Lemma arrayFrom_Fulfilled_total {A : Type} (n : Z) (f : Z -> Settled A) :
  n <= maxArrayLength ->
  (forall i, 0 <= i < n -> exists y, f i = Fulfilled y) ->
  exists ys, arrayFrom n f = Fulfilled ys.
Proof.
  intros Hn Hf. unfold arrayFrom. destruct (Z.ltb_spec maxArrayLength n); [lia|].
  apply mapM_Fulfilled_total. apply Forall_forall.
  intros i Hi%elem_of_seqZ. apply Hf. lia.
Qed.

(** Too long an array: the call throws before any callback runs. *)
Lemma arrayFrom_too_long {A : Type} (n : Z) (f : Z -> Settled A) :
  maxArrayLength < n ->
  arrayFrom n f = Rejected (RangeError "Invalid array length").
Proof.
  intros Hn. unfold arrayFrom. by destruct (Z.ltb_spec maxArrayLength n); [|lia].
Qed.

(** A first callback that throws ends the call with its error. *)
Lemma arrayFrom_first_throw {A : Type} (n : Z) (f : Z -> Settled A) (e : Error) :
  0 < n <= maxArrayLength -> f 0 = Rejected e -> arrayFrom n f = Rejected e.
Proof.
  intros Hn Hf. unfold arrayFrom. destruct (Z.ltb_spec maxArrayLength n); [lia|].
  rewrite seqZ_cons by lia. cbn. by rewrite Hf.
Qed.

(** ** The simple itinerary's fallback *)

Section GenerateItineraryFacts.
Import GenerateItinerary.
Context (rt : Runtime).

(** [Math.ceil(a / b)] is at least 1 and at least [a / b]. *)
Lemma ceilDiv_bounds (a b : Z) :
  0 < a -> 0 < b -> 1 <= ceilDiv a b /\ a <= b * ceilDiv a b.
Proof.
  intros Ha Hb. unfold ceilDiv.
  pose proof (Z.mul_div_le (- a) b Hb).
  assert (a <= b * - (- a / b)) by lia. split; [nia|done].
Qed.

(** The index of a day is within the list. *)
Lemma destinationIndex_bounds (dests : list string) (duration i : Z) :
  dests <> [] -> 0 < duration -> 0 <= i < duration ->
  0 <= destinationIndex dests duration i < Z.of_nat (length dests).
Proof.
  intros Hne Hd Hi. unfold destinationIndex.
  assert (Hlen : 0 < Z.of_nat (length dests)) by (destruct dests; [done|cbn; lia]).
  destruct (Z.eqb_spec (Z.of_nat (length dests)) 0) as [|_]; [lia|].
  destruct (ceilDiv_bounds duration (Z.of_nat (length dests)) Hd Hlen) as [Hc Hmul].
  split.
  - apply Z.div_pos; lia.
  - apply Z.div_lt_upper_bound; nia.
Qed.

(** The destination of a day is taken from the list, by either branch
    of the [||]. *)
Lemma dayDestination_elem (dests : list string) (duration i : Z) :
  dests <> [] ->
  exists s, dayDestination dests duration i = Some s /\ s ∈ dests.
Proof.
  intros Hne. unfold dayDestination.
  destruct (dests !! Z.to_nat (destinationIndex dests duration i)) as [s|] eqn:Hs.
  - destruct (truthy (Some s)).
    + exists s. split; [done|]. by eapply list_elem_of_lookup_2.
    + destruct dests as [|s0 dests]; [done|]. exists s0. split; [done|]. left.
  - cbn. destruct dests as [|s0 dests]; [done|]. exists s0. split; [done|]. left.
Qed.

(** The [destination] field of a day entry is the day's destination. *)
Lemma fallbackDay_destination (dests : list string) (start : option Z)
    (duration i : Z) (day : JSON) :
  fallbackDay dests start duration i = Fulfilled day ->
  field "destination" day = JStr <$> dayDestination dests duration i.
Proof.
  unfold fallbackDay. destruct (isoDate _) as [date|e]; cbn; [|done].
  intros [= <-]. destruct (dayDestination dests duration i); reflexivity.
Qed.

(** The shape of what the builder returns. *)
Lemma simple_fallback_inv (content : JSValue) (dests : list string)
    (startDate : string) (duration : Z) (v : JSON) :
  createFallbackItinerary rt content dests startDate duration = Fulfilled v ->
  exists days,
    field "days" v = Some (JArr days) /\
    hasKeys requiredKeys v = true /\
    Forall2 (fun i day => fallbackDay dests (Date_parse rt startDate) duration i
                          = Fulfilled day) (seqZ 0 duration) days.
Proof.
  unfold createFallbackItinerary.
  destruct (mapM _ _) as [days|e] eqn:Hdays; cbn; [|done].
  intros [= <-]. exists days. split; [reflexivity|]. split; [reflexivity|].
  by apply mapM_Fulfilled_inv.
Qed.

(** With a valid start date the builder returns. *)
Lemma simple_fallback_total (content : JSValue) (dests : list string)
    (startDate : string) (duration : Z) :
  validDays rt startDate duration ->
  exists v, createFallbackItinerary rt content dests startDate duration = Fulfilled v.
Proof.
  intros Hvalid. unfold createFallbackItinerary.
  destruct (mapM_Fulfilled_total
              (fallbackDay dests (Date_parse rt startDate) duration)
              (seqZ 0 duration)) as [days ->]; [|cbn; eauto].
  apply Forall_forall. intros i Hi%elem_of_seqZ.
  unfold fallbackDay.
  destruct (validDays_iso rt startDate duration i Hvalid) as [s ->]; [lia|].
  cbn. eauto.
Qed.

End GenerateItineraryFacts.

Section GenerateItineraryClaims.
Import GenerateItinerary.

(** C10.  For a non-empty list of destinations and a positive duration,
    the index computed for every day [i] in [0 .. duration - 1] is
    within the list, the destination chosen for a day is an element of
    the list and never [undefined], and so is the [destination] field
    of every day entry of the itinerary the builder returns (one entry
    per day); the builder does return when the start date is valid. *)
Theorem fallback_days_name_listed_destinations (rt : Runtime) (content : JSValue)
    (dests : list string) (startDate : string) (duration : Z) :
  dests <> [] ->
  0 < duration ->
  (forall i, 0 <= i < duration ->
     0 <= destinationIndex dests duration i < Z.of_nat (length dests)) /\
  (forall i, exists s, dayDestination dests duration i = Some s /\ s ∈ dests) /\
  (forall v,
     createFallbackItinerary rt content dests startDate duration = Fulfilled v ->
     exists days,
       field "days" v = Some (JArr days) /\
       length days = Z.to_nat duration /\
       Forall (fun day => exists s,
                 field "destination" day = Some (JStr s) /\ s ∈ dests) days) /\
  (validDays rt startDate duration ->
   exists v, createFallbackItinerary rt content dests startDate duration = Fulfilled v).
Proof.
  intros Hne Hpos.
  split. { intros i Hi. by apply destinationIndex_bounds. }
  split. { intros i. by apply dayDestination_elem. }
  split; [|apply simple_fallback_total].
  intros v Hv.
  destruct (simple_fallback_inv rt _ _ _ _ _ Hv) as (days & Hdays & _ & Hall).
  exists days. split; [done|]. split.
  - apply Forall2_length in Hall. rewrite <- Hall, length_seqZ. done.
  - apply Forall_forall. intros day Hday.
    apply list_elem_of_lookup in Hday as [j Hj].
    destruct (Forall2_lookup_r _ _ _ _ _ Hall Hj) as (i & _ & Hi).
    apply fallbackDay_destination in Hi. rewrite Hi.
    destruct (dayDestination_elem dests duration i Hne) as (s & -> & Hs).
    exists s. done.
Qed.

Lemma fallback_days_name_listed_destinations_witness :
  (forall i, 0 <= i < 3 ->
     0 <= destinationIndex ["Paris"; "Rome"] 3 i < Z.of_nat (length ["Paris"; "Rome"])) /\
  (forall i, exists s, dayDestination ["Paris"; "Rome"] 3 i = Some s
                       /\ s ∈ ["Paris"; "Rome"]) /\
  (forall v,
     createFallbackItinerary Reference.runtime None ["Paris"; "Rome"] "2024-03-15" 3
       = Fulfilled v ->
     exists days,
       field "days" v = Some (JArr days) /\
       length days = Z.to_nat 3 /\
       Forall (fun day => exists s,
                 field "destination" day = Some (JStr s)
                 /\ s ∈ ["Paris"; "Rome"]) days) /\
  (validDays Reference.runtime "2024-03-15" 3 ->
   exists v, createFallbackItinerary Reference.runtime None ["Paris"; "Rome"]
               "2024-03-15" 3 = Fulfilled v).
Proof.
  apply (fallback_days_name_listed_destinations Reference.runtime None
           ["Paris"; "Rome"] "2024-03-15" 3); [discriminate | lia].
Defined.

Example fallback_days_two_cities :
  (fun v => (fun day => field "destination" day) <$>
            match field "days" v with Some (JArr days) => days | _ => [] end)
  <$> createFallbackItinerary Reference.runtime None ["Paris"; "Rome"] "2024-03-15" 3
  = Fulfilled [Some (JStr "Paris"); Some (JStr "Paris"); Some (JStr "Rome")].
Proof. vm_compute. reflexivity. Qed.

End GenerateItineraryClaims.

(** ** The comprehensive itinerary's fallback *)

Section ComprehensiveFacts.
Import ComprehensiveItinerary.
Context (rt : Runtime).

(** A daily entry has the five parts of a day. *)
Lemma dailyEntry_parts (dest : string) (start : option Z) (i : Z) (day : JSON) :
  dailyEntry dest start i = Fulfilled day -> hasKeys dayParts day = true.
Proof.
  unfold dailyEntry. destruct (isoDate _) as [date|e]; cbn; [|done].
  intros [= <-]. reflexivity.
Qed.

(** Each part of a daily entry is a sub-entry of its shape, and the
    morning names the destination. *)
Lemma dailyEntry_sub_entries (dest : string) (start : option Z) (i : Z) (day : JSON) :
  dailyEntry dest start i = Fulfilled day ->
  hasDayParts day = true /\
  path ["morning"; "activity"] day
    = Some (JStr ("Explore " +:+ dest +:+ " highlights")).
Proof.
  unfold dailyEntry. destruct (isoDate _) as [date|e]; cbn; [|done].
  intros [= <-]. split; reflexivity.
Qed.

(** The shape of what the builder returns. *)
Lemma comprehensive_fallback_inv (request : DetailedItineraryRequest) (v : JSON) :
  createFallbackItinerary rt request = Fulfilled v ->
  exists days,
    field "dailyItinerary" v = Some (JArr days) /\
    hasKeys requiredKeys v = true /\
    path ["costBreakdown"; "total"; "min"] v
      = Some (JInt (perDayMin * duration request)) /\
    path ["costBreakdown"; "total"; "max"] v
      = Some (JInt (perDayMax * duration request)) /\
    Forall2 (fun i day => dailyEntry (destination request)
                            (Date_parse rt (startDate request)) i = Fulfilled day)
            (seqZ 0 (duration request)) days.
Proof.
  unfold createFallbackItinerary.
  destruct (arrayFrom _ _) as [days|e] eqn:Hdays; cbn; [|done].
  intros [= <-]. exists days.
  split; [reflexivity|]. split; [reflexivity|]. split; [reflexivity|].
  split; [reflexivity|]. by apply arrayFrom_Fulfilled_inv in Hdays as [_ Hall].
Qed.

(** With a valid start date the builder returns. *)
Lemma comprehensive_fallback_total (request : DetailedItineraryRequest) :
  validDays rt (startDate request) (duration request) ->
  exists v, createFallbackItinerary rt request = Fulfilled v.
Proof.
  intros Hvalid. unfold createFallbackItinerary.
  destruct (arrayFrom_Fulfilled_total (duration request)
              (dailyEntry (destination request) (Date_parse rt (startDate request))))
    as [days ->]; [by eapply validDays_length| |cbn; eauto].
  intros i Hi. unfold dailyEntry.
  destruct (validDays_iso rt (startDate request) (duration request) i Hvalid)
    as [s ->]; [lia|].
  cbn. eauto.
Qed.

(** What the two builders that use [Array.from] throw when they throw on
    their first day or on the length. *)
Lemma array_builders_throw (request : DetailedItineraryRequest) :
  0 < duration request ->
  Date_parse rt (startDate request) = None \/ maxArrayLength < duration request ->
  createFallbackItinerary rt request
    = Rejected (RangeError (if maxArrayLength <? duration request
                            then "Invalid array length" else "Invalid time value")) /\
  ComprehensiveAIService.createFallbackItinerary rt request
    = Rejected (RangeError (if maxArrayLength <? duration request
                            then "Invalid array length" else "Invalid time value")).
Proof.
  intros Hd Hwhy.
  unfold createFallbackItinerary, ComprehensiveAIService.createFallbackItinerary.
  destruct (Z.ltb_spec maxArrayLength (duration request)) as [Hlong|Hshort].
  - rewrite !arrayFrom_too_long by done. done.
  - destruct Hwhy as [Hdate|]; [|lia]. rewrite Hdate.
    rewrite !(arrayFrom_first_throw _ _ (RangeError "Invalid time value")); done.
Qed.

End ComprehensiveFacts.

(** C7 (amended).  For a request with destination "Paris", duration 3
    and budget "luxury" whose start date is a valid date (with its three
    days within the range of dates), the fallback itinerary has exactly 3
    daily entries, each with morning, lunch, afternoon, dinner and
    evening sub-entries (objects that hold a text, or a list of texts,
    under each of their properties; the morning's activity names Paris),
    and a cost breakdown whose [total.min] and [total.max] are the
    per-day bounds 165 and 670 times 3. *)
Theorem paris_luxury_three_days (rt : Runtime)
    (request : ComprehensiveItinerary.DetailedItineraryRequest) :
  ComprehensiveItinerary.destination request = "Paris" ->
  ComprehensiveItinerary.duration request = 3 ->
  ComprehensiveItinerary.budget request = ComprehensiveItinerary.luxury ->
  validDays rt (ComprehensiveItinerary.startDate request) 3 ->
  exists v days,
    ComprehensiveItinerary.createFallbackItinerary rt request = Fulfilled v /\
    field "dailyItinerary" v = Some (JArr days) /\
    length days = 3%nat /\
    Forall (fun day =>
              ComprehensiveItinerary.hasDayParts day = true /\
              path ["morning"; "activity"] day
                = Some (JStr "Explore Paris highlights")) days /\
    path ["costBreakdown"; "total"; "min"] v
      = Some (JInt (ComprehensiveItinerary.perDayMin * 3)) /\
    path ["costBreakdown"; "total"; "max"] v
      = Some (JInt (ComprehensiveItinerary.perDayMax * 3)) /\
    ComprehensiveItinerary.perDayMin = 60 + 50 + 30 + 25 /\
    ComprehensiveItinerary.perDayMax = 400 + 120 + 80 + 70.
Proof.
  intros Hdest Hdur Hbudget Hvalid.
  destruct (comprehensive_fallback_total rt request) as [v Hv];
    [by rewrite Hdur|].
  destruct (comprehensive_fallback_inv rt request v Hv)
    as (days & Hdays & _ & Hmin & Hmax & Hall).
  rewrite Hdur in Hmin, Hmax, Hall. rewrite Hdest in Hall.
  exists v, days. split; [done|]. split; [done|].
  split. { apply Forall2_length in Hall. by rewrite <- Hall. }
  split. { apply Forall_forall. intros day Hday.
           apply list_elem_of_lookup in Hday as [j Hj].
           destruct (Forall2_lookup_r _ _ _ _ _ Hall Hj) as (i & _ & Hi).
           by eapply (dailyEntry_sub_entries "Paris"). }
  done.
Qed.

Lemma paris_luxury_three_days_witness :
  exists v days,
    ComprehensiveItinerary.createFallbackItinerary Reference.runtime
      Examples.parisLuxury = Fulfilled v /\
    field "dailyItinerary" v = Some (JArr days) /\
    length days = 3%nat /\
    Forall (fun day =>
              ComprehensiveItinerary.hasDayParts day = true /\
              path ["morning"; "activity"] day
                = Some (JStr "Explore Paris highlights")) days /\
    path ["costBreakdown"; "total"; "min"] v
      = Some (JInt (ComprehensiveItinerary.perDayMin * 3)) /\
    path ["costBreakdown"; "total"; "max"] v
      = Some (JInt (ComprehensiveItinerary.perDayMax * 3)) /\
    ComprehensiveItinerary.perDayMin = 60 + 50 + 30 + 25 /\
    ComprehensiveItinerary.perDayMax = 400 + 120 + 80 + 70.
Proof.
  apply (paris_luxury_three_days Reference.runtime Examples.parisLuxury);
    [reflexivity | reflexivity | reflexivity |].
  exists 1710460800000. split; [reflexivity|]. unfold maxTime, msPerDay. lia.
Defined.

(** Paris, three days, luxury, and a start date that is not a date: the
    builder throws instead of returning an itinerary. *)
Lemma paris_luxury_throws_without_a_date :
  ComprehensiveItinerary.destination Examples.parisLuxuryUndated = "Paris" /\
  ComprehensiveItinerary.duration Examples.parisLuxuryUndated = 3 /\
  ComprehensiveItinerary.budget Examples.parisLuxuryUndated
    = ComprehensiveItinerary.luxury /\
  Date_parse Reference.runtime
    (ComprehensiveItinerary.startDate Examples.parisLuxuryUndated) = None /\
  ComprehensiveItinerary.createFallbackItinerary Reference.runtime
    Examples.parisLuxuryUndated
  = Rejected (RangeError "Invalid time value") /\
  ~ (exists v days,
       ComprehensiveItinerary.createFallbackItinerary Reference.runtime
         Examples.parisLuxuryUndated = Fulfilled v /\
       field "dailyItinerary" v = Some (JArr days) /\ length days = 3%nat).
Proof.
  split; [reflexivity|]. split; [reflexivity|]. split; [reflexivity|].
  split; [reflexivity|]. split; [vm_compute; reflexivity|].
  intros (v & days & Hv & _). vm_compute in Hv. discriminate Hv.
Qed.

Example paris_luxury_total :
  (fun v => (path ["costBreakdown"; "total"; "min"] v,
             path ["costBreakdown"; "total"; "max"] v))
  <$> ComprehensiveItinerary.createFallbackItinerary Reference.runtime
        Examples.parisLuxury
  = Fulfilled (Some (JInt 495), Some (JInt 2010)).
Proof. vm_compute. reflexivity. Qed.

(** ** What the resolver extracts and returns *)

(** C5 (amended).  The resolver extracts the text from the first opening
    brace to the last closing brace (a greedy match, not a balanced
    one).  For a raw text made of a well-formed JSON object surrounded by
    prose with no opening brace before it and no closing brace after it,
    the match is exactly the object's text and [resolve] returns exactly
    the decoded object. *)
Theorem resolve_first_open_to_last_close (rt : Runtime) (pre mid post : string)
    (v : JSON) (fallbackBuilder : Settled JSON) :
  hasChar openBrace pre = false ->
  hasChar closeBrace post = false ->
  JSON_parse rt (String openBrace (mid +:+ String closeBrace EmptyString)) = Some v ->
  jsonMatch (pre +:+ String openBrace (mid +:+ String closeBrace post))
    = Some (String openBrace (mid +:+ String closeBrace EmptyString)) /\
  resolve rt (Some (JStr (pre +:+ String openBrace (mid +:+ String closeBrace post))))
    fallbackBuilder = Fulfilled v /\
  (forall content m,
     jsonMatch content = Some m ->
     exists pre' mid' post',
       content = pre' +:+ String openBrace (mid' +:+ String closeBrace post') /\
       m = String openBrace (mid' +:+ String closeBrace EmptyString) /\
       hasChar openBrace pre' = false /\ hasChar closeBrace post' = false).
Proof.
  intros Hpre Hpost Hparse.
  pose proof (jsonMatch_greedy pre mid post Hpre Hpost) as Hmatch.
  split; [done|]. split.
  - by eapply resolve_parsed.
  - apply jsonMatch_inv.
Qed.

Lemma resolve_first_open_to_last_close_witness :
  jsonMatch ("Here is your plan: " +:+ String openBrace (EmptyString +:+ String closeBrace " Enjoy!"))
    = Some (String openBrace (EmptyString +:+ String closeBrace EmptyString)) /\
  resolve Reference.runtime
    (Some (JStr ("Here is your plan: " +:+ String openBrace (EmptyString +:+ String closeBrace " Enjoy!"))))
    (Fulfilled JNull) = Fulfilled (JObj []) /\
  (forall content m,
     jsonMatch content = Some m ->
     exists pre' mid' post',
       content = pre' +:+ String openBrace (mid' +:+ String closeBrace post') /\
       m = String openBrace (mid' +:+ String closeBrace EmptyString) /\
       hasChar openBrace pre' = false /\ hasChar closeBrace post' = false).
Proof.
  apply (resolve_first_open_to_last_close Reference.runtime
           "Here is your plan: " EmptyString " Enjoy!" (JObj []) (Fulfilled JNull));
    reflexivity.
Defined.

(** One well-formed object of the expected shape, then prose ending in
    a brace: the match is the whole text, not the object. *)
Lemma trailing_brace_defeats_extraction :
  Reference.parse Examples.recommendationsText = Some Examples.recommendationsValue /\
  hasKeys LocationRecommendations.requiredKeys Examples.recommendationsValue = true /\
  Spec.firstBalanced Examples.recommendationsThenSmiley
    = Some Examples.recommendationsText /\
  jsonMatch Examples.recommendationsThenSmiley
    = Some Examples.recommendationsThenSmiley /\
  jsonMatch Examples.recommendationsThenSmiley
    <> Spec.firstBalanced Examples.recommendationsThenSmiley /\
  resolve Reference.runtime (Some (JStr Examples.recommendationsThenSmiley))
    (Fulfilled (LocationRecommendations.createFallbackRecommendations "Paris"))
    = Fulfilled (LocationRecommendations.createFallbackRecommendations "Paris") /\
  resolve Reference.runtime (Some (JStr Examples.recommendationsThenSmiley))
    (Fulfilled (LocationRecommendations.createFallbackRecommendations "Paris"))
    <> Fulfilled Examples.recommendationsValue.
Proof.
  split; [vm_compute; reflexivity|]. split; [vm_compute; reflexivity|].
  split; [vm_compute; reflexivity|]. split; [vm_compute; reflexivity|].
  split; [vm_compute; discriminate|]. split; [vm_compute; reflexivity|].
  vm_compute. discriminate.
Qed.

(** C2 (amended).  When the raw text has no brace-delimited substring,
    or the extracted substring fails to decode, the resolver returns
    what the fallback builder gives, and every value a fallback builder
    returns has every required key of its shape (the builders return
    whenever the start date is valid).  A substring that decodes is
    returned as decoded, with no check of its keys. *)
Theorem resolve_fallback_on_decode_failure (rt : Runtime)
    (fallbackBuilder : Settled JSON) :
  (forall s, jsonMatch s = None ->
     resolve rt (Some (JStr s)) fallbackBuilder = fallbackBuilder) /\
  (forall s m, jsonMatch s = Some m -> JSON_parse rt m = None ->
     resolve rt (Some (JStr s)) fallbackBuilder = fallbackBuilder) /\
  (forall s m v, jsonMatch s = Some m -> JSON_parse rt m = Some v ->
     resolve rt (Some (JStr s)) fallbackBuilder = Fulfilled v) /\
  (forall content dests startDate duration v,
     GenerateItinerary.createFallbackItinerary rt content dests startDate duration
       = Fulfilled v ->
     hasKeys GenerateItinerary.requiredKeys v = true) /\
  (forall request v,
     ComprehensiveItinerary.createFallbackItinerary rt request = Fulfilled v ->
     hasKeys ComprehensiveItinerary.requiredKeys v = true) /\
  (forall destination,
     hasKeys LocationRecommendations.requiredKeys
       (LocationRecommendations.createFallbackRecommendations destination) = true) /\
  (forall content dests startDate duration,
     validDays rt startDate duration ->
     exists v, GenerateItinerary.createFallbackItinerary rt content dests
                 startDate duration = Fulfilled v) /\
  (forall request,
     validDays rt (ComprehensiveItinerary.startDate request)
                  (ComprehensiveItinerary.duration request) ->
     exists v, ComprehensiveItinerary.createFallbackItinerary rt request = Fulfilled v).
Proof.
  split. { intros s Hs. destruct (extractJson_no_match rt s Hs) as [e He].
           by eapply resolve_fallback. }
  split. { intros s m Hm Hp. destruct (extractJson_bad_syntax rt s m Hm Hp) as [e He].
           by eapply resolve_fallback. }
  split. { intros s m v. apply resolve_parsed. }
  split. { intros content dests startDate duration v Hv.
           by destruct (simple_fallback_inv rt _ _ _ _ _ Hv) as (? & _ & ? & _). }
  split. { intros request v Hv.
           by destruct (comprehensive_fallback_inv rt _ _ Hv) as (? & _ & ? & _). }
  split. { intros destination. reflexivity. }
  split. { intros. by apply simple_fallback_total. }
  intros. by apply comprehensive_fallback_total.
Qed.

Lemma resolve_fallback_on_decode_failure_witness :
  resolve Reference.runtime (Some (JStr "I could not find anything."))
    (GenerateItinerary.createFallbackItinerary Reference.runtime None
       ["Paris"; "Rome"] "2024-03-15" 3)
  = GenerateItinerary.createFallbackItinerary Reference.runtime None
      ["Paris"; "Rome"] "2024-03-15" 3 /\
  resolve Reference.runtime (Some (JStr "Plan: {day one, day two}"))
    (GenerateItinerary.createFallbackItinerary Reference.runtime None
       ["Paris"; "Rome"] "2024-03-15" 3)
  = GenerateItinerary.createFallbackItinerary Reference.runtime None
      ["Paris"; "Rome"] "2024-03-15" 3 /\
  exists v, GenerateItinerary.createFallbackItinerary Reference.runtime None
              ["Paris"; "Rome"] "2024-03-15" 3 = Fulfilled v /\
            hasKeys GenerateItinerary.requiredKeys v = true.
Proof.
  pose proof (resolve_fallback_on_decode_failure Reference.runtime
    (GenerateItinerary.createFallbackItinerary Reference.runtime None
       ["Paris"; "Rome"] "2024-03-15" 3))
    as (Hnone & Hbad & _ & Hkeys & _ & _ & Htotal & _).
  split; [apply Hnone; reflexivity|].
  split; [apply (Hbad _ "{day one, day two}"); reflexivity|].
  destruct (Htotal None ["Paris"; "Rome"] "2024-03-15" 3) as [v Hv].
  { exists 1710460800000. split; [reflexivity|]. unfold maxTime, msPerDay. lia. }
  exists v. split; [exact Hv|]. exact (Hkeys _ _ _ _ _ Hv).
Defined.

(** The reply [{}] decodes, so it is what the caller gets: an itinerary
    with no key at all. *)
Lemma empty_object_is_returned_as_parsed :
  jsonMatch "{}" = Some "{}" /\
  Reference.parse "{}" = Some (JObj []) /\
  hasKeys GenerateItinerary.requiredKeys (JObj []) = false /\
  resolve Reference.runtime (Some (JStr "{}"))
    (GenerateItinerary.createFallbackItinerary Reference.runtime (Some (JStr "{}"))
       ["Paris"; "Rome"] "2024-03-15" 3)
  = Fulfilled (JObj []) /\
  snd (GenerateItinerary.serve Reference.runtime "POST"
         (Fulfilled Examples.twoCities) Examples.configured (Examples.replying "{}"))
  = Fulfilled (jsonResponse 200 (JObj [])).
Proof. repeat split; vm_compute; reflexivity. Qed.

(** ** What the handlers answer *)

Section HandlerFacts.

#[local] Arguments completionContent : simpl never.
#[local] Arguments responseJson : simpl never.
#[local] Arguments resolve : simpl never.
#[local] Arguments GenerateItinerary.createFallbackItinerary : simpl never.
#[local] Arguments ComprehensiveItinerary.createFallbackItinerary : simpl never.
#[local] Arguments LocationRecommendations.createFallbackRecommendations : simpl never.
#[local] Arguments Dispatcher.fetchWithRetry : simpl never.
#[local] Arguments jsonResponse : simpl never.

(** A JSON response built with status 200 is one. *)
Lemma isJson200_jsonResponse (v : JSON) : isJson200 (jsonResponse 200 v).
Proof.
  split; [done|]. split; [by exists v|].
  cbn. unfold jsonHeaders, corsHeaders. cbn. do 2 apply list_elem_of_further. apply list_elem_of_here.
Qed.

Lemma answers200_json (method : string) (tr : list Dispatcher.Event) (v : JSON) :
  answers200 method (tr, Fulfilled (jsonResponse 200 v)).
Proof.
  exists (jsonResponse 200 v). split; [done|]. split; [done|].
  intros _. apply isJson200_jsonResponse.
Qed.

Lemma answers200_preflight (tr : list Dispatcher.Event) :
  answers200 "OPTIONS" (tr, Fulfilled preflightResponse).
Proof. exists preflightResponse. split; [done|]. split; [done|]. done. Qed.

(** Every path of the chat handler ends in a status 200. *)
Lemma chat_answers200 (rt : Runtime) (canned method : string)
    (body : Settled TravelChat.ChatRequest) (env : Env)
    (transport : Dispatcher.Transport) :
  answers200 method (TravelChat.serve rt canned method body env transport).
Proof.
  unfold TravelChat.serve.
  destruct (String.eqb_spec method "OPTIONS") as [->|Hm];
    [apply answers200_preflight|].
  unfold TravelChat.tryBlock, TravelChat.cannedResponse, tryCatch.
  destruct body as [request|e]; cbn; [|apply answers200_json].
  destruct (truthy (OPENAI_API_KEY env)); cbn; [|apply answers200_json].
  destruct (Dispatcher.fetchWithRetry transport 3) as [tr [response|e]]; cbn;
    [|apply answers200_json].
  destruct (ok response); cbn; [|apply answers200_json].
  destruct (responseJson rt response) as [data|e]; cbn; [|apply answers200_json].
  destruct (completionContent data) as [content|e]; cbn; apply answers200_json.
Qed.

(** A chain that completes has completed its first step. *)
Lemma bindS_Fulfilled_inv {A B : Type} (m : Settled A) (k : A -> Settled B) (b : B) :
  m ≫= k = Fulfilled b -> exists a, m = Fulfilled a /\ k a = Fulfilled b.
Proof. destruct m as [a|e]; cbn; [eauto|done]. Qed.

(** The [try] block only returns [{ suggestions }] responses. *)
Lemma suggestions_tryBlock_inv (env : Env) (db : DestinationSuggestions.Supabase)
    (request : DestinationSuggestions.SuggestionRequest) (r : HttpResponse) :
  DestinationSuggestions.tryBlock env db request = Fulfilled r ->
  exists l, r = DestinationSuggestions.suggestionsResponse l.
Proof.
  unfold DestinationSuggestions.tryBlock. intros H.
  apply bindS_Fulfilled_inv in H as (? & _ & H).
  apply bindS_Fulfilled_inv in H as (l & _ & H).
  injection H as <-. eauto.
Qed.

(** Every path of the suggestions handler ends in a status 200. *)
Lemma suggestions_answers200 (method : string)
    (body : Settled DestinationSuggestions.SuggestionRequest) (env : Env)
    (db : DestinationSuggestions.Supabase) :
  answers200 method ([], DestinationSuggestions.serve method body env db).
Proof.
  unfold DestinationSuggestions.serve.
  destruct (String.eqb_spec method "OPTIONS") as [->|Hm];
    [apply answers200_preflight|].
  destruct (_ ≫= _) as [r|e] eqn:Htry; [|apply answers200_json].
  apply bindS_Fulfilled_inv in Htry as (request & _ & Htry).
  apply suggestions_tryBlock_inv in Htry as [l ->]. apply answers200_json.
Qed.

(** The comprehensive handler always answers, with 200 or 500. *)
Lemma comprehensive_never_rejects (rt : Runtime) (method : string)
    (body : Settled ComprehensiveItinerary.DetailedItineraryRequest) (env : Env)
    (transport : Dispatcher.Transport) :
  exists r, snd (ComprehensiveItinerary.serve rt method body env transport)
            = Fulfilled r /\
            (respStatus r = 200 \/ respStatus r = 500) /\
            (method <> "OPTIONS" ->
             (exists v, respBody r = JsonBody v) /\
             ("Content-Type", "application/json") ∈ respHeaders r).
Proof.
  assert (Hjson : forall st v, st = 200 \/ st = 500 ->
    exists r, Fulfilled (jsonResponse st v) = Fulfilled r /\
              (respStatus r = 200 \/ respStatus r = 500) /\
              (method <> "OPTIONS" ->
               (exists v, respBody r = JsonBody v) /\
               ("Content-Type", "application/json") ∈ respHeaders r)).
  { intros st v Hst. eexists. split; [reflexivity|]. split; [done|].
    intros _. split; [by eexists|]. cbn. unfold jsonHeaders, corsHeaders. cbn. do 2 apply list_elem_of_further. apply list_elem_of_here. }
  unfold ComprehensiveItinerary.serve.
  destruct (String.eqb_spec method "OPTIONS") as [->|Hm].
  { exists preflightResponse. split; [done|]. split; [by left|done]. }
  unfold ComprehensiveItinerary.tryBlock, ComprehensiveItinerary.catchBlock, tryCatch.
  destruct body as [request|e]; cbn; [|apply Hjson; by right].
  destruct (truthy (OPENAI_API_KEY env)); cbn; [|apply Hjson; by right].
  destruct (Dispatcher.fetchWithRetry transport 3) as [tr [response|e]]; cbn;
    [|apply Hjson; by right].
  destruct (ok response); cbn; [|apply Hjson; by right].
  destruct (responseJson rt response) as [data|e]; cbn; [|apply Hjson; by right].
  destruct (completionContent data) as [content|e]; cbn; [|apply Hjson; by right].
  destruct (resolve rt content _) as [itinerary|e]; cbn; apply Hjson; auto.
Qed.

(** Without a key or without a usable provider response it answers 500. *)
Lemma comprehensive_unavailable_500 (rt : Runtime) (method : string)
    (request : ComprehensiveItinerary.DetailedItineraryRequest) (env : Env)
    (transport : Dispatcher.Transport) :
  method <> "OPTIONS" ->
  truthy (OPENAI_API_KEY env) = false \/
  (exists e, snd (Dispatcher.fetchWithRetry transport 3) = Rejected e) \/
  (exists response, snd (Dispatcher.fetchWithRetry transport 3) = Fulfilled response
                    /\ ok response = false) ->
  exists msg,
    snd (ComprehensiveItinerary.serve rt method (Fulfilled request) env transport)
    = Fulfilled (jsonResponse 500 (JObj [("error", JStr msg)])).
Proof.
  intros Hm%String.eqb_neq Hdown. unfold ComprehensiveItinerary.serve. rewrite Hm.
  unfold ComprehensiveItinerary.tryBlock, ComprehensiveItinerary.catchBlock, tryCatch.
  destruct (truthy (OPENAI_API_KEY env)) eqn:Hkey; cbn; [|eauto].
  destruct Hdown as [|[[e He]|(response & Hr & Hok)]]; [done| |].
  - destruct (Dispatcher.fetchWithRetry transport 3) as [tr res]; cbn in *.
    subst res. cbn. eauto.
  - destruct (Dispatcher.fetchWithRetry transport 3) as [tr res]; cbn in *.
    subst res. cbn. rewrite Hok. cbn. eauto.
Qed.

(** Whatever generate-itinerary returns has status 200. *)
Lemma generate_fulfilled_200 (rt : Runtime) (method : string)
    (body : Settled GenerateItinerary.ItineraryRequest) (env : Env)
    (transport : Dispatcher.Transport) (r : HttpResponse) :
  snd (GenerateItinerary.serve rt method body env transport) = Fulfilled r ->
  respStatus r = 200 /\ (method <> "OPTIONS" -> isJson200 r).
Proof.
  unfold GenerateItinerary.serve.
  destruct (String.eqb_spec method "OPTIONS") as [->|Hm].
  { cbn. intros [= <-]. done. }
  unfold GenerateItinerary.tryBlock, GenerateItinerary.catchBlock, tryCatch.
  destruct body as [request|e]; cbn; [|done].
  destruct (truthy (OPENAI_API_KEY env)); cbn; [|done].
  destruct (Dispatcher.fetchWithRetry transport 3) as [tr [response|e]]; cbn; [|done].
  destruct (ok response); cbn.
  - destruct (responseJson rt response) as [data|e]; cbn; [|done].
    destruct (completionContent data) as [content|e]; cbn; [|done].
    destruct (resolve rt content _) as [itinerary|e]; cbn; [|done].
    intros [= <-]. split; [done|]. intros _. apply isJson200_jsonResponse.
  - destruct (GenerateItinerary.createFallbackItinerary _ _ _ _ _) as [fb|e]; cbn; [|done].
    intros [= <-]. split; [done|]. intros _. apply isJson200_jsonResponse.
Qed.

(** Whatever location-recommendations returns has status 200. *)
Lemma location_fulfilled_200 (rt : Runtime) (method : string)
    (body : Settled LocationRecommendations.LocationRequest) (env : Env)
    (transport : Dispatcher.Transport) (r : HttpResponse) :
  snd (LocationRecommendations.serve rt method body env transport) = Fulfilled r ->
  respStatus r = 200 /\ (method <> "OPTIONS" -> isJson200 r).
Proof.
  unfold LocationRecommendations.serve.
  destruct (String.eqb_spec method "OPTIONS") as [->|Hm].
  { cbn. intros [= <-]. done. }
  unfold LocationRecommendations.tryBlock, LocationRecommendations.catchBlock, tryCatch.
  destruct body as [request|e]; cbn; [|done].
  destruct (truthy (OPENAI_API_KEY env)); cbn; [|done].
  destruct (Dispatcher.fetchWithRetry transport 3) as [tr [response|e]]; cbn; [|done].
  destruct (ok response); cbn.
  - destruct (responseJson rt response) as [data|e]; cbn; [|done].
    destruct (completionContent data) as [content|e]; cbn; [|done].
    destruct (resolve rt content _) as [recommendations|e]; cbn; [|done].
    intros [= <-]. split; [done|]. intros _. apply isJson200_jsonResponse.
  - intros [= <-]. split; [done|]. intros _. apply isJson200_jsonResponse.
Qed.

(** A provider response that is not ok is answered with the fallback. *)
Lemma location_bad_status_fallback (rt : Runtime) (method : string)
    (request : LocationRecommendations.LocationRequest) (env : Env)
    (transport : Dispatcher.Transport) (response : Response) :
  method <> "OPTIONS" ->
  truthy (OPENAI_API_KEY env) = true ->
  snd (Dispatcher.fetchWithRetry transport 3) = Fulfilled response ->
  ok response = false ->
  snd (LocationRecommendations.serve rt method (Fulfilled request) env transport)
  = Fulfilled (jsonResponse 200
                 (LocationRecommendations.createFallbackRecommendations
                    (LocationRecommendations.destination request))).
Proof.
  intros Hm%String.eqb_neq Hkey Hres Hok.
  unfold LocationRecommendations.serve. rewrite Hm.
  unfold LocationRecommendations.tryBlock, tryCatch. rewrite Hkey. cbn.
  destruct (Dispatcher.fetchWithRetry transport 3) as [tr res]; cbn in *.
  subst res. cbn. rewrite Hok. done.
Qed.

End HandlerFacts.

(** C1 (amended).  The two chat endpoints and destination-suggestions
    answer every request with status 200, and with a JSON document
    unless the request is a preflight, also when the provider call or
    the parsing fails.  The comprehensive-itinerary endpoint never lets
    an exception escape and always answers JSON, but with status 500 and
    an [error] message when the provider key is missing, the provider
    cannot be reached or its last response is not ok.  Every response of
    generate-itinerary and location-recommendations has status 200, and
    location-recommendations answers a provider's bad status with its
    fallback. *)
Theorem endpoints_answer (rt : Runtime) (method : string) (env : Env)
    (transport : Dispatcher.Transport) :
  (forall canned body,
     answers200 method (TravelChat.serve rt canned method body env transport)) /\
  (forall body db,
     answers200 method ([], DestinationSuggestions.serve method body env db)) /\
  (forall body,
     exists r,
       snd (ComprehensiveItinerary.serve rt method body env transport) = Fulfilled r /\
       (respStatus r = 200 \/ respStatus r = 500) /\
       (method <> "OPTIONS" ->
        (exists v, respBody r = JsonBody v) /\
        ("Content-Type", "application/json") ∈ respHeaders r)) /\
  (forall request,
     method <> "OPTIONS" ->
     truthy (OPENAI_API_KEY env) = false \/
     (exists e, snd (Dispatcher.fetchWithRetry transport 3) = Rejected e) \/
     (exists response,
        snd (Dispatcher.fetchWithRetry transport 3) = Fulfilled response /\
        ok response = false) ->
     exists msg,
       snd (ComprehensiveItinerary.serve rt method (Fulfilled request) env transport)
       = Fulfilled (jsonResponse 500 (JObj [("error", JStr msg)]))) /\
  (forall body r,
     snd (GenerateItinerary.serve rt method body env transport) = Fulfilled r ->
     respStatus r = 200 /\ (method <> "OPTIONS" -> isJson200 r)) /\
  (forall body r,
     snd (LocationRecommendations.serve rt method body env transport) = Fulfilled r ->
     respStatus r = 200 /\ (method <> "OPTIONS" -> isJson200 r)) /\
  (forall request response,
     method <> "OPTIONS" ->
     truthy (OPENAI_API_KEY env) = true ->
     snd (Dispatcher.fetchWithRetry transport 3) = Fulfilled response ->
     ok response = false ->
     snd (LocationRecommendations.serve rt method (Fulfilled request) env transport)
     = Fulfilled (jsonResponse 200
                    (LocationRecommendations.createFallbackRecommendations
                       (LocationRecommendations.destination request)))).
Proof.
  split; [intros; apply chat_answers200|].
  split; [intros; apply suggestions_answers200|].
  split; [intros; apply comprehensive_never_rejects|].
  split; [intros; by apply comprehensive_unavailable_500|].
  split; [intros body r; apply generate_fulfilled_200|].
  split; [intros body r; apply location_fulfilled_200|].
  intros request response Hm Hkey Hres Hok.
  by apply (location_bad_status_fallback rt method request env transport response).
Qed.

Lemma endpoints_answer_witness :
  answers200 "POST"
    (TravelChat.serve Reference.runtime TravelChat.unavailable "POST"
       (Fulfilled Examples.chat) Examples.configured Examples.serverDown) /\
  (exists msg,
     snd (ComprehensiveItinerary.serve Reference.runtime "POST"
            (Fulfilled Examples.parisLuxury) Examples.configured Examples.serverDown)
     = Fulfilled (jsonResponse 500 (JObj [("error", JStr msg)]))) /\
  snd (LocationRecommendations.serve Reference.runtime "POST"
         (Fulfilled (LocationRecommendations.mkLocationRequest "Paris" None))
         Examples.configured Examples.serverDown)
  = Fulfilled (jsonResponse 200
                 (LocationRecommendations.createFallbackRecommendations "Paris")).
Proof.
  pose proof (endpoints_answer Reference.runtime "POST" Examples.configured
                Examples.serverDown) as (Hchat & _ & _ & Hdown & _ & _ & Hloc).
  split; [apply Hchat|]. split.
  - apply Hdown; [discriminate|]. right. right.
    exists (mkResponse 500 "Internal Server Error" "upstream down").
    split; reflexivity.
  - apply (Hloc (LocationRecommendations.mkLocationRequest "Paris" None)
                (mkResponse 500 "Internal Server Error" "upstream down"));
      [discriminate | reflexivity | reflexivity | reflexivity].
Defined.

(** The comprehensive itinerary with the provider down, unreachable or
    not configured: status 500 each time. *)
Lemma comprehensive_answers_500_when_provider_is_down :
  snd (ComprehensiveItinerary.serve Reference.runtime "POST"
         (Fulfilled Examples.parisLuxury) Examples.configured Examples.serverDown)
  = Fulfilled (jsonResponse 500 (JObj [("error",
      JStr "OpenAI API error: 500 Internal Server Error - upstream down")])) /\
  snd (ComprehensiveItinerary.serve Reference.runtime "POST"
         (Fulfilled Examples.parisLuxury) Examples.configured Examples.networkDown)
  = Fulfilled (jsonResponse 500 (JObj [("error", JStr "connection refused #3")])) /\
  snd (ComprehensiveItinerary.serve Reference.runtime "POST"
         (Fulfilled Examples.parisLuxury) Examples.noProviderKey Examples.healthy)
  = Fulfilled (jsonResponse 500 (JObj [("error",
      JStr "OpenAI API key not configured")])) /\
  ~ answers200 "POST"
      (ComprehensiveItinerary.serve Reference.runtime "POST"
         (Fulfilled Examples.parisLuxury) Examples.configured Examples.serverDown).
Proof.
  split; [vm_compute; reflexivity|]. split; [vm_compute; reflexivity|].
  split; [vm_compute; reflexivity|].
  intros (r & Hr & Hst & _). vm_compute in Hr. injection Hr as <-. discriminate Hst.
Qed.

(** C9.  A chat request made while the provider key is absent from the
    configuration causes no network attempt and is answered with status
    200 and the canned unavailability message; nothing is thrown. *)
Theorem chat_without_key (rt : Runtime) (canned method : string)
    (body : Settled TravelChat.ChatRequest) (env : Env)
    (transport : Dispatcher.Transport) :
  truthy (OPENAI_API_KEY env) = false ->
  method <> "OPTIONS" ->
  fst (TravelChat.serve rt canned method body env transport) = [] /\
  Dispatcher.attempts (fst (TravelChat.serve rt canned method body env transport)) = 0 /\
  snd (TravelChat.serve rt canned method body env transport)
    = Fulfilled (jsonResponse 200 (JObj [("response", JStr canned)])) /\
  isJson200 (jsonResponse 200 (JObj [("response", JStr canned)])).
Proof.
  intros Hkey Hm%String.eqb_neq.
  assert (Hserve : TravelChat.serve rt canned method body env transport
                   = ([], Fulfilled (jsonResponse 200 (JObj [("response", JStr canned)])))).
  { unfold TravelChat.serve. rewrite Hm.
    unfold TravelChat.tryBlock, tryCatch. rewrite Hkey.
    destruct body; reflexivity. }
  rewrite Hserve. split; [done|]. split; [done|]. split; [done|].
  apply isJson200_jsonResponse.
Qed.

Lemma chat_without_key_witness :
  fst (TravelChat.serve Reference.runtime TravelChat.unavailable "POST"
         (Fulfilled Examples.chat) Examples.noProviderKey Examples.healthy) = [] /\
  Dispatcher.attempts
    (fst (TravelChat.serve Reference.runtime TravelChat.unavailable "POST"
            (Fulfilled Examples.chat) Examples.noProviderKey Examples.healthy)) = 0 /\
  snd (TravelChat.serve Reference.runtime TravelChat.unavailable "POST"
         (Fulfilled Examples.chat) Examples.noProviderKey Examples.healthy)
    = Fulfilled (jsonResponse 200 (JObj [("response", JStr TravelChat.unavailable)])) /\
  isJson200 (jsonResponse 200 (JObj [("response", JStr TravelChat.unavailable)])).
Proof.
  apply (chat_without_key Reference.runtime TravelChat.unavailable "POST"
           (Fulfilled Examples.chat) Examples.noProviderKey Examples.healthy);
    [reflexivity | discriminate].
Defined.

(** ** Destination suggestions *)

Section SuggestionFacts.
Import DestinationSuggestions DbContract.

(** A prefix of a descending list is descending. *)
Lemma descending_take (n : nat) (scores : list Z) :
  descending scores -> descending (take n scores).
Proof.
  unfold descending. intros Hs. revert n.
  induction Hs as [|x l Hl IH Hx]; intros [|n]; cbn; try constructor.
  - apply IH.
  - apply Forall_forall. intros y Hy.
    rewrite Forall_forall in Hx. apply Hx.
    by apply (subseteq_take n l).
Qed.

(** A suggestion carries its row's score. *)
Lemma scoreOf_toSuggestion (item : Row) :
  scoreOf (toSuggestion item) = Some (popularity_score item).
Proof. reflexivity. Qed.

Lemma scoresOf_rows (rows : list Row) :
  scoresOf (suggestionsResponse (toSuggestion <$> rows))
  = Some <$> (popularity_score <$> rows).
Proof.
  unfold scoresOf, suggestionsOf. cbn.
  induction rows as [|item rows IH]; cbn; [done|]. by rewrite <- IH.
Qed.

(** An answer to the query of the branch without a query: the top of
    the catalog by descending score, no longer than the limit. *)
Lemma answer_popular (catalog rows : list Row) (n : Z) :
  answer catalog (popularDestinations n) rows ->
  topOf catalog n rows /\
  descending (popularity_score <$> rows) /\
  (0 <= n -> Z.of_nat (length rows) <= n).
Proof.
  intros (ranked & Hperm & Hsorted & ->). cbn in Hsorted |- *.
  split; [by exists ranked|]. split.
  - rewrite fmap_take. by apply descending_take.
  - intros Hn. rewrite length_take. lia.
Qed.

(** The scores of the built-in list. *)
Lemma fallback_scores :
  scoreOf <$> (destinationJson <$> getFallbackSuggestions EmptyString)
  = Some <$> [100; 95; 90; 85; 80].
Proof. reflexivity. Qed.

Lemma fallback_descending : descending [100; 95; 90; 85; 80].
Proof. unfold descending. repeat constructor; lia. Qed.

(** The [try] block on a query that is empty or blank, by what the
    library and the database do. *)
Lemma tryBlock_no_query (env : Env) (db : Supabase) (request : SuggestionRequest) :
  nonBlank (query request) = false ->
  tryBlock env db request =
    (supabase ← createClient db (SUPABASE_URL env) (SUPABASE_SERVICE_ROLE_KEY env);
     reply ← supabase (popularDestinations (default 10 (limit request)));
     mret (suggestionsResponse
             match reply with
             | DbFailure _ => destinationJson <$> getFallbackSuggestions EmptyString
             | DbRows data => toSuggestion <$> data
             end)).
Proof.
  intros Hq. unfold tryBlock. rewrite Hq, andb_false_r.
  destruct (createClient db _ _) as [supabase|e]; [|done]. cbn.
  destruct (supabase _); done.
Qed.

(** The example client keeps the contract. *)
Lemma catalogClient_serves : serves Examples.catalogClient Examples.catalog.
Proof.
  intros q rows Htable Hfilter. unfold Examples.catalogClient.
  rewrite Htable, Hfilter. cbn [String.eqb Ascii.eqb Bool.eqb negb andb].
  intros [= <-].
  assert (Hperm : Examples.ranking ≡ₚ Examples.catalog).
  { unfold Examples.ranking, Examples.catalog.
    etrans; [|apply Permutation_swap]. constructor. apply Permutation_swap. }
  unfold answer, ordered.
  destruct (orderBy q) as [[column ascending]|].
  - destruct (String.eqb column "popularity_score").
    + destruct ascending.
      * exists (reverse Examples.ranking). split; [by rewrite reverse_Permutation|].
        split; [|done]. cbn. repeat constructor; lia.
      * exists Examples.ranking. split; [done|]. split; [|done].
        unfold descending. cbn. repeat constructor; lia.
    + by exists Examples.catalog.
  - by exists Examples.catalog.
Qed.

End SuggestionFacts.

Section SuggestionClaims.
Import DestinationSuggestions DbContract.

(** C8 (amended).  A search with an empty query string is answered with
    status 200 and suggestions in descending order of popularity score.
    The handler asks the table for all rows by descending
    [popularity_score], at most the requested limit (10 by default);
    when the database replies, the suggestions are the rows it returned,
    which for a database that answers what it is asked are the top N of
    the catalog with N at most the limit.  When the client cannot be
    created or the query fails, they are the five built-in destinations,
    whatever the limit. *)
Theorem empty_query_suggestions (method : string) (request : SuggestionRequest)
    (env : Env) (db : Supabase) (catalog : list Row) :
  method <> "OPTIONS" ->
  query request = EmptyString ->
  (forall client,
     createClient db (SUPABASE_URL env) (SUPABASE_SERVICE_ROLE_KEY env)
       = Fulfilled client ->
     serves client catalog) ->
  exists r,
    serve method (Fulfilled request) env db = Fulfilled r /\
    isJson200 r /\
    (exists scores, scoresOf r = Some <$> scores /\ descending scores) /\
    (forall client rows,
       createClient db (SUPABASE_URL env) (SUPABASE_SERVICE_ROLE_KEY env)
         = Fulfilled client ->
       client (mkSelect "destination_suggestions" "*" None
                 (Some ("popularity_score", false))
                 (Some (default 10 (limit request))))
         = Fulfilled (DbRows rows) ->
       suggestionsOf r = toSuggestion <$> rows /\
       topOf catalog (default 10 (limit request)) rows /\
       (0 <= default 10 (limit request) ->
        Z.of_nat (length (suggestionsOf r)) <= default 10 (limit request))) /\
    ((exists e, createClient db (SUPABASE_URL env) (SUPABASE_SERVICE_ROLE_KEY env)
                = Rejected e) \/
     (exists client,
        createClient db (SUPABASE_URL env) (SUPABASE_SERVICE_ROLE_KEY env)
          = Fulfilled client /\
        ((exists e, client (popularDestinations (default 10 (limit request)))
                    = Rejected e) \/
         (exists e, client (popularDestinations (default 10 (limit request)))
                    = Fulfilled (DbFailure e)))) ->
     suggestionsOf r = destinationJson <$> fallbackDestinations /\
     length (suggestionsOf r) = 5%nat).
Proof.
  intros Hm%String.eqb_neq Hq Hdb.
  unfold serve. rewrite Hm. cbn [mbind Settled_bind].
  rewrite (tryBlock_no_query env db request) by (by rewrite Hq).
  change (mkSelect "destination_suggestions" "*" None
            (Some ("popularity_score", false)) (Some (default 10 (limit request))))
    with (popularDestinations (default 10 (limit request))).
  destruct (createClient db _ _) as [supabase|e] eqn:Hclient; cbn.
  2:{ eexists. split; [reflexivity|]. split; [apply isJson200_jsonResponse|].
      split; [exists [100; 95; 90; 85; 80]; split;
                [reflexivity|apply fallback_descending]|].
      split; [intros client rows [=]|]. intros _. split; reflexivity. }
  specialize (Hdb supabase eq_refl).
  destruct (supabase (popularDestinations (default 10 (limit request))))
    as [[rows|e]|e] eqn:Hreply; cbn.
  - destruct (answer_popular catalog rows _ (Hdb (popularDestinations _) rows eq_refl eq_refl Hreply))
      as (Htop & Hdesc & Hlen).
    eexists. split; [reflexivity|]. split; [apply isJson200_jsonResponse|].
    split; [exists (popularity_score <$> rows); split;
              [apply scoresOf_rows|done]|].
    split.
    + intros client rows' [= <-]. rewrite Hreply. intros [= <-].
      split; [reflexivity|]. split; [done|].
      intros Hn. cbn. rewrite length_fmap. by apply Hlen.
    + intros [[e [=]]|(client & [= <-] & [[e He]|[e He]])];
        rewrite Hreply in He; done.
  - eexists. split; [reflexivity|]. split; [apply isJson200_jsonResponse|].
    split; [exists [100; 95; 90; 85; 80]; split;
              [reflexivity|apply fallback_descending]|].
    split; [|intros _; split; reflexivity].
    intros client rows [= <-]. by rewrite Hreply.
  - eexists. split; [reflexivity|]. split; [apply isJson200_jsonResponse|].
    split; [exists [100; 95; 90; 85; 80]; split;
              [reflexivity|apply fallback_descending]|].
    split; [|intros _; split; reflexivity].
    intros client rows [= <-]. by rewrite Hreply.
Qed.

Lemma empty_query_suggestions_witness :
  exists r,
    serve "POST" (Fulfilled Examples.topTwo) Examples.configured Examples.dbUp
      = Fulfilled r /\
    isJson200 r /\
    (exists scores, scoresOf r = Some <$> scores /\ descending scores) /\
    (forall client rows,
       createClient Examples.dbUp (SUPABASE_URL Examples.configured)
         (SUPABASE_SERVICE_ROLE_KEY Examples.configured) = Fulfilled client ->
       client (mkSelect "destination_suggestions" "*" None
                 (Some ("popularity_score", false))
                 (Some (default 10 (limit Examples.topTwo))))
         = Fulfilled (DbRows rows) ->
       suggestionsOf r = toSuggestion <$> rows /\
       topOf Examples.catalog (default 10 (limit Examples.topTwo)) rows /\
       (0 <= default 10 (limit Examples.topTwo) ->
        Z.of_nat (length (suggestionsOf r)) <= default 10 (limit Examples.topTwo))) /\
    ((exists e, createClient Examples.dbUp (SUPABASE_URL Examples.configured)
                  (SUPABASE_SERVICE_ROLE_KEY Examples.configured) = Rejected e) \/
     (exists client,
        createClient Examples.dbUp (SUPABASE_URL Examples.configured)
          (SUPABASE_SERVICE_ROLE_KEY Examples.configured) = Fulfilled client /\
        ((exists e, client (popularDestinations (default 10 (limit Examples.topTwo)))
                    = Rejected e) \/
         (exists e, client (popularDestinations (default 10 (limit Examples.topTwo)))
                    = Fulfilled (DbFailure e)))) ->
     suggestionsOf r = destinationJson <$> fallbackDestinations /\
     length (suggestionsOf r) = 5%nat).
Proof.
  apply (empty_query_suggestions "POST" Examples.topTwo Examples.configured
           Examples.dbUp Examples.catalog); [discriminate | reflexivity |].
  intros client [= <-]. exact catalogClient_serves.
Defined.

(** With a limit of 2 and the catalog down, five suggestions come
    back. *)
Lemma fallback_ignores_limit :
  limit Examples.topTwo = Some 2 /\
  (fun r => length (suggestionsOf r))
    <$> serve "POST" (Fulfilled Examples.topTwo) Examples.configured Examples.dbDown
  = Fulfilled 5%nat /\
  ~ (5 <= 2).
Proof. split; [reflexivity|]. split; [vm_compute; reflexivity|lia]. Qed.

Example top_two_of_catalog :
  (fun r => scoresOf r)
    <$> serve "POST" (Fulfilled Examples.topTwo) Examples.configured Examples.dbUp
  = Fulfilled [Some 100; Some 85].
Proof. vm_compute. reflexivity. Qed.

(** A database URL without a scheme is refused by the library: the
    built-in list is answered. *)
Example no_scheme_no_client :
  (fun r => scoresOf r)
    <$> serve "POST" (Fulfilled Examples.topTwo) Examples.noScheme Examples.dbUp
  = Fulfilled [Some 100; Some 95; Some 90; Some 85; Some 80].
Proof. vm_compute. reflexivity. Qed.

End SuggestionClaims.

(** * Further properties *)

(** ** The retry loop: how long it waits and what it reports *)

Section DispatcherMore.
Import Dispatcher Trace.
Context (transport : Transport) (maxRetries : Z).

(** The waits of a schedule add up to a difference of powers of two. *)
Lemma totalDelay_schedule (k : nat) (a : Z) :
  0 <= a ->
  foldr Z.add 0 (delays (schedule k a)) = (2 ^ (a + Z.of_nat k) - 2 ^ a) * 1000.
Proof.
  revert a. induction k as [|k IH]; intros a Ha.
  - cbn [schedule delays foldr]. rewrite Z.add_0_r. lia.
  - cbn [schedule delays foldr]. rewrite IH by lia. unfold backoff.
    replace (a + 1 + Z.of_nat k) with (a + Z.of_nat (S k)) by lia.
    rewrite (Z.pow_add_r 2 a 1) by lia. lia.
Qed.

(** A run that delivers a response: which attempt it came from. *)
Lemma retryLoop_delivered_inv (n : nat) (attempt : Z) (lastError : option Error)
    (r : Response) :
  attempt + Z.of_nat n = maxRetries + 1 ->
  snd (retryLoop transport maxRetries n attempt lastError) = Fulfilled r ->
  exists k : nat,
    attempt + Z.of_nat k <= maxRetries /\
    transport (attempt + Z.of_nat k) = Fulfilled r /\
    (forall a, attempt <= a < attempt + Z.of_nat k -> retryable (transport a) = true) /\
    attempts (fst (retryLoop transport maxRetries n attempt lastError)) = Z.of_nat k + 1 /\
    (badStatus r = false \/ attempt + Z.of_nat k = maxRetries).
Proof.
  revert attempt lastError.
  induction n as [|n IH]; intros attempt lastError Hsum; [done|].
  cbn [retryLoop].
  assert (Hstep : forall le,
    snd (retryLoop transport maxRetries n (attempt + 1) le) = Fulfilled r ->
    retryable (transport attempt) = true ->
    exists k : nat,
      attempt + Z.of_nat k <= maxRetries /\
      transport (attempt + Z.of_nat k) = Fulfilled r /\
      (forall a, attempt <= a < attempt + Z.of_nat k -> retryable (transport a) = true) /\
      1 + attempts (fst (retryLoop transport maxRetries n (attempt + 1) le))
        = Z.of_nat k + 1 /\
      (badStatus r = false \/ attempt + Z.of_nat k = maxRetries)).
  { intros le Hres Hhere.
    destruct (IH (attempt + 1) le ltac:(lia) Hres) as (k & Hk & Hfetch & Hretry & Hat & Hlast).
    exists (S k). replace (attempt + Z.of_nat (S k)) with (attempt + 1 + Z.of_nat k) by lia.
    split; [done|]. split; [done|]. split.
    - intros a Ha. destruct (Z.eq_dec a attempt) as [->|Hne]; [done|].
      apply Hretry. lia.
    - split; [lia|done]. }
  destruct (transport attempt) as [response|error] eqn:Hfetch.
  - destruct (badStatus response && (attempt <? maxRetries)) eqn:Hcond.
    + apply andb_true_iff in Hcond as [Hbad _].
      specialize (Hstep lastError).
      destruct (retryLoop _ _ n _ _) as [tr res]. cbn in *. intros Hres.
      apply Hstep; done.
    + cbn. intros [= <-]. exists 0%nat.
      replace (attempt + Z.of_nat 0) with attempt by lia.
      split; [lia|]. split; [done|]. split; [intros; lia|]. split; [done|].
      apply andb_false_iff in Hcond as [Hgood|Hlast]; [by left|right].
      apply Z.ltb_ge in Hlast. lia.
  - destruct (attempt <? maxRetries).
    + specialize (Hstep (Some error)).
      destruct (retryLoop _ _ n _ _) as [tr res]. cbn in *. intros Hres.
      apply Hstep; done.
    + specialize (Hstep (Some error)).
      destruct (retryLoop _ _ n _ _) as [tr res]. cbn in *. intros Hres.
      apply Hstep; done.
Qed.

(** A run that throws has used every attempt, and each one failed in a
    way that is retried. *)
Lemma retryLoop_exhausted_inv (n : nat) (attempt : Z) (lastError : option Error)
    (e : Error) :
  attempt + Z.of_nat n = maxRetries + 1 ->
  (0 < n)%nat ->
  snd (retryLoop transport maxRetries n attempt lastError) = Rejected e ->
  attempts (fst (retryLoop transport maxRetries n attempt lastError)) = Z.of_nat n /\
  (forall a, attempt <= a <= maxRetries -> retryable (transport a) = true).
Proof.
  revert attempt lastError.
  induction n as [|n IH]; intros attempt lastError Hsum Hpos; [lia|].
  cbn [retryLoop].
  destruct (Z.ltb_spec attempt maxRetries) as [Hlt|Hge].
  - assert (Hn : (0 < n)%nat) by lia.
    destruct (transport attempt) as [response|error] eqn:Hfetch.
    + destruct (badStatus response) eqn:Hbad; cbn [andb]; [|done].
      specialize (IH (attempt + 1) lastError ltac:(lia) Hn).
      destruct (retryLoop _ _ n _ _) as [tr res]. cbn in *. intros Hres.
      destruct (IH Hres) as [Hat Hretry]. split; [lia|].
      intros a Ha. destruct (Z.eq_dec a attempt) as [->|Hne].
      * by rewrite Hfetch.
      * apply Hretry. lia.
    + specialize (IH (attempt + 1) (Some error) ltac:(lia) Hn).
      destruct (retryLoop _ _ n _ _) as [tr res]. cbn in *. intros Hres.
      destruct (IH Hres) as [Hat Hretry]. split; [lia|].
      intros a Ha. destruct (Z.eq_dec a attempt) as [->|Hne].
      * by rewrite Hfetch.
      * apply Hretry. lia.
  - assert (n = 0%nat) by lia. subst n.
    assert (attempt = maxRetries) by lia. subst attempt.
    destruct (transport maxRetries) as [response|error] eqn:Hfetch; cbn.
    + rewrite andb_false_r. done.
    + intros _. split; [done|]. intros a Ha. replace a with maxRetries by lia.
      by rewrite Hfetch.
Qed.

(** The log of a run: one line per retry, naming its cause, the wait
    that follows and the attempt just made. *)
Lemma retryLoop_logs (n : nat) (attempt : Z) (lastError : option Error) :
  attempt + Z.of_nat n = maxRetries + 1 ->
  (0 < n)%nat ->
  exists k : nat,
    attempts (fst (retryLoop transport maxRetries n attempt lastError))
      = Z.of_nat k + 1 /\
    logs (fst (retryLoop transport maxRetries n attempt lastError))
      = (fun a => retryLine (reason (transport a)) (2 ^ a * 1000) a maxRetries)
        <$> seqZ attempt (Z.of_nat k).
Proof.
  revert attempt lastError.
  induction n as [|n IH]; intros attempt lastError Hsum Hpos; [lia|].
  cbn [retryLoop].
  destruct (Z.ltb_spec attempt maxRetries) as [Hlt|Hge].
  - assert (Hn : (0 < n)%nat) by lia.
    destruct (transport attempt) as [response|error] eqn:Hfetch.
    + destruct (badStatus response); cbn [andb].
      * destruct (IH (attempt + 1) lastError) as (k & Hat & Hlogs); [lia|done|].
        destruct (retryLoop _ _ n _ _) as [tr res]. cbn in *.
        exists (S k). split; [lia|].
        rewrite seqZ_cons by lia. cbn [fmap list_fmap]. rewrite Hfetch. cbn [reason].
        rewrite Hlogs. unfold backoff. repeat f_equal; lia.
      * exists 0%nat. done.
    + destruct (IH (attempt + 1) (Some error)) as (k & Hat & Hlogs); [lia|done|].
      destruct (retryLoop _ _ n _ _) as [tr res]. cbn in *.
      exists (S k). split; [lia|].
      rewrite seqZ_cons by lia. cbn [fmap list_fmap]. rewrite Hfetch. cbn [reason].
      rewrite Hlogs. unfold backoff. repeat f_equal; lia.
  - assert (n = 0%nat) by lia. subst n.
    exists 0%nat.
    destruct (transport attempt) as [response|error]; cbn.
    + rewrite andb_false_r. done.
    + done.
Qed.

End DispatcherMore.

Section DispatcherMoreFacts.
Import Dispatcher Trace.

(** X1.  For a non-negative number of retries the dispatcher makes at least
    one and at most maxRetries + 1 attempts; the time it spends waiting is
    (2^(attempts - 1) - 1) * 1000 milliseconds in all, hence never more
    than (2^maxRetries - 1) * 1000 (seven seconds for the three retries
    the handlers ask for). *)
Theorem fetchWithRetry_waiting_time (transport : Transport) (maxRetries : Z) :
  0 <= maxRetries ->
  1 <= attempts (fst (fetchWithRetry transport maxRetries)) <= maxRetries + 1 /\
  totalDelay (fst (fetchWithRetry transport maxRetries))
    = (2 ^ (attempts (fst (fetchWithRetry transport maxRetries)) - 1) - 1) * 1000 /\
  totalDelay (fst (fetchWithRetry transport maxRetries)) <= (2 ^ maxRetries - 1) * 1000.
Proof.
  intros Hmax. unfold fetchWithRetry, totalDelay.
  destruct (retryLoop_timing transport maxRetries
              (Z.to_nat (maxRetries + 1)) 0 None) as (k & Hk & Htm & Hat); [lia|lia|].
  rewrite Hat, <- delays_timing, Htm, totalDelay_schedule by lia.
  replace (Z.of_nat k + 1 - 1) with (Z.of_nat k) by lia.
  replace (0 + Z.of_nat k) with (Z.of_nat k) by lia.
  split; [lia|]. split; [done|].
  assert (2 ^ Z.of_nat k <= 2 ^ maxRetries) by (apply Z.pow_le_mono_r; lia).
  change (2 ^ 0) with 1. lia.
Qed.

Lemma fetchWithRetry_waiting_time_witness :
  1 <= attempts (fst (fetchWithRetry Scenarios.busyThenServed 3)) <= 3 + 1 /\
  totalDelay (fst (fetchWithRetry Scenarios.busyThenServed 3))
    = (2 ^ (attempts (fst (fetchWithRetry Scenarios.busyThenServed 3)) - 1) - 1) * 1000 /\
  totalDelay (fst (fetchWithRetry Scenarios.busyThenServed 3)) <= (2 ^ 3 - 1) * 1000.
Proof. apply (fetchWithRetry_waiting_time Scenarios.busyThenServed 3). lia. Defined.

(** X2.  A response that the dispatcher returns is the one the transport
    gave at some attempt k within the allowed retries; every earlier
    attempt ended in a failure that is retried, exactly k + 1 attempts
    were made, and the response has a good status unless it comes from
    the last allowed attempt. *)
Theorem fetchWithRetry_delivered_inv (transport : Transport) (maxRetries : Z)
    (r : Response) :
  snd (fetchWithRetry transport maxRetries) = Delivered r ->
  exists k : Z,
    0 <= k <= maxRetries /\
    transport k = Fulfilled r /\
    (forall a, 0 <= a < k -> retryable (transport a) = true) /\
    attempts (fst (fetchWithRetry transport maxRetries)) = k + 1 /\
    (badStatus r = false \/ k = maxRetries).
Proof.
  unfold fetchWithRetry. intros Hres.
  destruct (Z.to_nat (maxRetries + 1)) as [|n] eqn:Hn; [done|].
  rewrite <- Hn in Hres |- *.
  destruct (retryLoop_delivered_inv transport maxRetries
              (Z.to_nat (maxRetries + 1)) 0 None r ltac:(lia) Hres)
    as (k & Hk & Hfetch & Hretry & Hat & Hlast).
  exists (Z.of_nat k). split; [lia|]. split; [done|]. split; [done|]. split; [done|].
  destruct Hlast; [by left|right; lia].
Qed.

Lemma fetchWithRetry_delivered_inv_witness :
  exists k : Z,
    0 <= k <= 3 /\
    Scenarios.busyThenServed k = Fulfilled Examples.greeting /\
    (forall a, 0 <= a < k -> retryable (Scenarios.busyThenServed a) = true) /\
    attempts (fst (fetchWithRetry Scenarios.busyThenServed 3)) = k + 1 /\
    (badStatus Examples.greeting = false \/ k = 3).
Proof.
  apply (fetchWithRetry_delivered_inv Scenarios.busyThenServed 3 Examples.greeting).
  reflexivity.
Defined.

(** X3.  When the dispatcher throws, it has made every one of its
    maxRetries + 1 attempts, each of them failed in a way that is
    retried, and the error thrown is the network error of the last
    attempt. *)
Theorem fetchWithRetry_exhausted_after_all_attempts (transport : Transport)
    (maxRetries : Z) (e : Error) :
  0 <= maxRetries ->
  snd (fetchWithRetry transport maxRetries) = Exhausted e ->
  attempts (fst (fetchWithRetry transport maxRetries)) = maxRetries + 1 /\
  transport maxRetries = Rejected e /\
  (forall a, 0 <= a <= maxRetries -> retryable (transport a) = true).
Proof.
  intros Hmax Hres. unfold fetchWithRetry in *.
  destruct (retryLoop_exhausted_inv transport maxRetries
              (Z.to_nat (maxRetries + 1)) 0 None e) as [Hat Hretry]; [lia|lia|done|].
  split; [lia|]. split; [|done].
  eapply retryLoop_rejected_inv; [| |exact Hres]; lia.
Qed.

Lemma fetchWithRetry_exhausted_after_all_attempts_witness :
  attempts (fst (fetchWithRetry Examples.networkDown 3)) = 3 + 1 /\
  Examples.networkDown 3 = Rejected (TypeError "connection refused #3") /\
  (forall a, 0 <= a <= 3 -> retryable (Examples.networkDown a) = true).
Proof.
  apply (fetchWithRetry_exhausted_after_all_attempts Examples.networkDown 3
           (TypeError "connection refused #3")); [lia | reflexivity].
Defined.

(** X4.  The dispatcher logs exactly one line per retry and nothing for
    its last attempt: the line of attempt a names the cause (rate limit,
    server error or failed request), the wait of 2^a * 1000 ms that
    follows, and the position a + 1 of maxRetries + 1. *)
Theorem fetchWithRetry_logs_each_retry (transport : Transport) (maxRetries : Z) :
  0 <= maxRetries ->
  logs (fst (fetchWithRetry transport maxRetries))
  = (fun a => retryLine (reason (transport a)) (2 ^ a * 1000) a maxRetries)
    <$> seqZ 0 (attempts (fst (fetchWithRetry transport maxRetries)) - 1).
Proof.
  intros Hmax. unfold fetchWithRetry.
  destruct (retryLoop_logs transport maxRetries
              (Z.to_nat (maxRetries + 1)) 0 None) as (k & Hat & Hlogs); [lia|lia|].
  rewrite Hat, Hlogs. repeat f_equal. lia.
Qed.

Lemma fetchWithRetry_logs_each_retry_witness :
  logs (fst (fetchWithRetry Scenarios.busyThenServed 3))
  = (fun a => retryLine (reason (Scenarios.busyThenServed a)) (2 ^ a * 1000) a 3)
    <$> seqZ 0 (attempts (fst (fetchWithRetry Scenarios.busyThenServed 3)) - 1).
Proof. apply (fetchWithRetry_logs_each_retry Scenarios.busyThenServed 3). lia. Defined.

Example busyThenServed_log :
  logs (fst (fetchWithRetry Scenarios.busyThenServed 3))
  = ["Rate limited, retrying in 1000ms (attempt 1/4)";
     "Rate limited, retrying in 2000ms (attempt 2/4)"].
Proof. vm_compute. reflexivity. Qed.

End DispatcherMoreFacts.

(** ** The regular expression: when it matches *)

(** A closing brace in a text is found by [upToLastClose]. *)
Lemma upToLastClose_some (s : string) :
  hasChar closeBrace s = true -> exists m, upToLastClose s = Some m.
Proof.
  induction s as [|c s IH]; cbn; [done|]. intros Hs.
  destruct (upToLastClose s) as [m|] eqn:Hm; [eauto|].
  destruct (Ascii.eqb c closeBrace); [eauto|]. cbn in Hs.
  destruct (IH Hs) as [m Hm']. done.
Qed.

Lemma hasChar_app (c : ascii) (a b : string) :
  hasChar c (a +:+ b) = hasChar c a || hasChar c b.
Proof. induction a as [|x a IH]; cbn; [done|]. rewrite IH. by rewrite orb_assoc. Qed.

(** An opening brace with a closing brace somewhere after it makes the
    expression match. *)
Lemma jsonMatch_some (pre rest : string) :
  hasChar closeBrace rest = true ->
  exists m, jsonMatch (pre +:+ String openBrace rest) = Some m.
Proof.
  intros Hrest. induction pre as [|c pre IH]; cbn.
  - unfold jsonMatch. cbn. destruct (upToLastClose_some rest Hrest) as [m ->]. eauto.
  - unfold jsonMatch in *. cbn [fromFirstOpen].
    destruct (Ascii.eqb c openBrace) eqn:Hc; [|exact IH].
    destruct (upToLastClose_some (pre +:+ String openBrace rest)) as [m ->]; [|eauto].
    rewrite hasChar_app. cbn. rewrite Hrest. by rewrite !orb_true_r.
Qed.

(** X5.  The brace expression finds nothing in a text exactly when no
    opening brace of the text has a closing brace after it. *)
Theorem jsonMatch_none_iff (content : string) :
  jsonMatch content = None <->
  (forall pre rest,
     content = pre +:+ String openBrace rest -> hasChar closeBrace rest = false).
Proof.
  split.
  - intros Hnone pre rest ->.
    destruct (hasChar closeBrace rest) eqn:Hrest; [|done].
    destruct (jsonMatch_some pre rest Hrest) as [m Hm]. congruence.
  - intros Hall. unfold jsonMatch.
    destruct (fromFirstOpen content) as [t|] eqn:Hopen; [|done].
    destruct (fromFirstOpen_inv _ _ Hopen) as (pre & rest & -> & -> & _).
    by rewrite (upToLastClose_none rest (Hall pre rest eq_refl)).
Qed.

(** X6.  What the brace expression extracts from a text is matched by the
    expression in full: extracting again gives the same text. *)
Theorem jsonMatch_idempotent (content m : string) :
  jsonMatch content = Some m -> jsonMatch m = Some m.
Proof.
  intros Hm.
  destruct (jsonMatch_inv _ _ Hm) as (pre & mid & post & _ & -> & _ & _).
  exact (jsonMatch_greedy EmptyString mid EmptyString eq_refl eq_refl).
Qed.

Lemma jsonMatch_idempotent_witness :
  jsonMatch "{a} and {b}" = Some "{a} and {b}".
Proof. apply (jsonMatch_idempotent "see {a} and {b}, ok"). reflexivity. Defined.

(** ** The simple itinerary: numbering, prices, who is visited when *)

Section SimpleItineraryMore.
Import GenerateItinerary.

(** The prices of a day's activities. *)
Lemma fallbackDay_prices (dests : list string) (start : option Z)
    (duration i : Z) (day : JSON) :
  fallbackDay dests start duration i = Fulfilled day ->
  priceEstimates day = [Some 30; Some 25; Some 20; Some 40].
Proof.
  unfold fallbackDay. destruct (isoDate _) as [date|e]; cbn; [|done].
  intros [= <-]. destruct (dayDestination dests duration i); reflexivity.
Qed.

Lemma sumAll_app (a b : list (option Z)) (x y : Z) :
  sumAll a = Some x -> sumAll b = Some y -> sumAll (a ++ b) = Some (x + y).
Proof.
  revert x. induction a as [|[v|] a IH]; cbn; intros x.
  - intros [= <-]. by intros ->.
  - destruct (sumAll a) as [s|] eqn:Hs; cbn; [|done].
    intros [= <-] Hb. rewrite (IH s eq_refl Hb). cbn. f_equal. lia.
  - done.
Qed.

(** The prices of all the activities of [n] fallback days add up to
    [115 * n]. *)
Lemma days_prices (f : Z -> Settled JSON) (l : list Z) (days : list JSON) :
  (forall i day, f i = Fulfilled day ->
                 priceEstimates day = [Some 30; Some 25; Some 20; Some 40]) ->
  Forall2 (fun i day => f i = Fulfilled day) l days ->
  sumAll (concat (priceEstimates <$> days)) = Some (115 * Z.of_nat (length days)).
Proof.
  intros Hprices. induction 1 as [|i day l days Hday _ IH]; [done|].
  cbn [fmap list_fmap concat length].
  assert (Hsum : sumAll (priceEstimates day) = Some 115)
    by (by rewrite (Hprices _ _ Hday)).
  rewrite (sumAll_app _ _ _ _ Hsum IH). f_equal. lia.
Qed.

(** The fields of a day entry that do not depend on the destination. *)
Lemma fallbackDay_day_date (dests : list string) (start : option Z)
    (duration i : Z) (day : JSON) :
  fallbackDay dests start duration i = Fulfilled day ->
  field "day" day = Some (JInt (i + 1)) /\
  exists date, isoDate ((fun t => t + i * msPerDay) <$> start) = Fulfilled date /\
               field "date" day = Some (JStr date).
Proof.
  unfold fallbackDay. destruct (isoDate _) as [date|e]; cbn; [|done].
  intros [= <-]. split; [reflexivity|]. exists date. split; reflexivity.
Qed.

End SimpleItineraryMore.

Section SimpleItineraryFacts.
Import GenerateItinerary.

(** The loop of the two builders of the simple itinerary, when the
    start date is valid. *)
Lemma fallback_days_total (rt : Runtime) (dests : list string)
    (startDate : string) (duration : Z) :
  validDays rt startDate duration ->
  exists days,
    mapM (fallbackDay dests (Date_parse rt startDate) duration) (seqZ 0 duration)
      = Fulfilled days /\
    length days = Z.to_nat duration /\
    Forall2 (fun i day => fallbackDay dests (Date_parse rt startDate) duration i
                          = Fulfilled day) (seqZ 0 duration) days.
Proof.
  intros Hvalid.
  destruct (mapM_Fulfilled_total
              (fallbackDay dests (Date_parse rt startDate) duration)
              (seqZ 0 duration)) as [days Hdays].
  { apply Forall_forall. intros i Hi%elem_of_seqZ. unfold fallbackDay.
    destruct (validDays_iso rt startDate duration i Hvalid) as [s ->]; [lia|].
    cbn. eauto. }
  exists days. split; [done|].
  pose proof (mapM_Fulfilled_inv _ _ _ Hdays) as Hall.
  split; [|done]. apply Forall2_length in Hall. by rewrite <- Hall, length_seqZ.
Qed.

(** X7.  For a duration that is a whole number of days, not negative,
    and a valid start date, the fallback builder of generate-itinerary
    and the one of the browser's service return the same days, and the
    total estimated cost of both, 115 per day, is the sum of the price
    estimates of all the activities listed.  (The loop rounds a
    fractional duration up while the total does not: such durations are
    outside this statement.) *)
Theorem fallback_cost_is_sum_of_prices (rt : Runtime) (content : JSValue)
    (request : ItineraryRequest) :
  0 <= duration request ->
  validDays rt (startDate request) (duration request) ->
  exists server browser,
    createFallbackItinerary rt content (destinations request) (startDate request)
      (duration request) = Fulfilled server /\
    OpenAIService.createFallbackItinerary rt request = Fulfilled browser /\
    field "days" browser = field "days" server /\
    intOf (field "totalEstimatedCost" server) = Some (115 * duration request) /\
    intOf (field "totalEstimatedCost" browser) = Some (115 * duration request) /\
    sumAll (concat (priceEstimates <$> itemsOf (field "days" server)))
      = Some (115 * duration request).
Proof.
  intros Hpos Hvalid.
  destruct (fallback_days_total rt (destinations request) (startDate request)
              (duration request) Hvalid) as (days & Hdays & Hlen & Hall).
  unfold createFallbackItinerary, OpenAIService.createFallbackItinerary.
  rewrite Hdays. cbn [mbind Settled_bind mret Settled_ret].
  eexists. eexists. split; [reflexivity|]. split; [reflexivity|].
  split; [reflexivity|].
  split. { cbn. f_equal. lia. }
  split. { cbn. f_equal. lia. }
  change (itemsOf (field "days" (JObj (("days", JArr days) :: _)))) with days.
  rewrite (days_prices _ _ _ (fallbackDay_prices _ _ _) Hall).
  f_equal. lia.
Qed.

Lemma fallback_cost_is_sum_of_prices_witness :
  exists server browser,
    createFallbackItinerary Reference.runtime None
      (destinations Examples.twoCities) (startDate Examples.twoCities)
      (duration Examples.twoCities) = Fulfilled server /\
    OpenAIService.createFallbackItinerary Reference.runtime Examples.twoCities
      = Fulfilled browser /\
    field "days" browser = field "days" server /\
    intOf (field "totalEstimatedCost" server)
      = Some (115 * duration Examples.twoCities) /\
    intOf (field "totalEstimatedCost" browser)
      = Some (115 * duration Examples.twoCities) /\
    sumAll (concat (priceEstimates <$> itemsOf (field "days" server)))
      = Some (115 * duration Examples.twoCities).
Proof.
  apply (fallback_cost_is_sum_of_prices Reference.runtime None Examples.twoCities).
  - cbn. lia.
  - exists 1710460800000. split; [reflexivity|]. cbn. unfold maxTime, msPerDay. lia.
Defined.

(** X8.  With a valid start date the fallback itinerary holds one entry
    per day of the trip; the entry at position j is numbered j + 1 and
    dated j days after the start date. *)
Theorem fallback_days_are_numbered_and_dated (rt : Runtime) (content : JSValue)
    (dests : list string) (startDate : string) (duration : Z) :
  validDays rt startDate duration ->
  exists v days t,
    createFallbackItinerary rt content dests startDate duration = Fulfilled v /\
    field "days" v = Some (JArr days) /\
    length days = Z.to_nat duration /\
    Date_parse rt startDate = Some t /\
    forall (j : nat) day,
      days !! j = Some day ->
      field "day" day = Some (JInt (Z.of_nat j + 1)) /\
      exists date,
        isoDate (Some (t + Z.of_nat j * msPerDay)) = Fulfilled date /\
        field "date" day = Some (JStr date).
Proof.
  intros Hvalid.
  destruct (fallback_days_total rt dests startDate duration Hvalid)
    as (days & Hdays & Hlen & Hall).
  destruct Hvalid as (t & Ht & _).
  unfold createFallbackItinerary. rewrite Hdays. cbn [mbind Settled_bind mret Settled_ret].
  eexists. exists days, t. split; [reflexivity|]. split; [reflexivity|].
  split; [done|]. split; [done|].
  intros j day Hj.
  destruct (Forall2_lookup_r _ _ _ _ _ Hall Hj) as (i & Hi & Hday).
  apply lookup_seqZ in Hi as [-> _].
  destruct (fallbackDay_day_date _ _ _ _ _ Hday) as (Hnum & date & Hdate & Hfield).
  rewrite Ht in Hdate. cbn in Hdate.
  replace (0 + Z.of_nat j) with (Z.of_nat j) in * by lia.
  split; [done|]. exists date. done.
Qed.

Lemma fallback_days_are_numbered_and_dated_witness :
  exists v days t,
    createFallbackItinerary Reference.runtime None ["Paris"; "Rome"] "2024-03-15" 3
      = Fulfilled v /\
    field "days" v = Some (JArr days) /\
    length days = Z.to_nat 3 /\
    Date_parse Reference.runtime "2024-03-15" = Some t /\
    forall (j : nat) day,
      days !! j = Some day ->
      field "day" day = Some (JInt (Z.of_nat j + 1)) /\
      exists date,
        isoDate (Some (t + Z.of_nat j * msPerDay)) = Fulfilled date /\
        field "date" day = Some (JStr date).
Proof.
  apply (fallback_days_are_numbered_and_dated Reference.runtime None
           ["Paris"; "Rome"] "2024-03-15" 3).
  exists 1710460800000. split; [reflexivity|]. unfold maxTime, msPerDay. lia.
Defined.

(** X9.  For a non-empty list of destinations and a positive duration the
    days are split into consecutive blocks of ceil(duration / count)
    days: day index i falls in block j exactly when
    j * size <= i < (j + 1) * size, later days never fall in earlier
    blocks, and a destination whose block starts at or after the duration
    gets no day at all. *)
Theorem destination_blocks (dests : list string) (duration : Z) :
  dests <> [] ->
  0 < duration ->
  1 <= ceilDiv duration (Z.of_nat (length dests)) /\
  (forall i j, 0 <= i ->
     destinationIndex dests duration i = j <->
     j * ceilDiv duration (Z.of_nat (length dests)) <= i
       < (j + 1) * ceilDiv duration (Z.of_nat (length dests))) /\
  (forall i i', 0 <= i <= i' ->
     destinationIndex dests duration i <= destinationIndex dests duration i') /\
  (forall j, duration <= j * ceilDiv duration (Z.of_nat (length dests)) ->
     forall i, 0 <= i < duration -> destinationIndex dests duration i <> j).
Proof.
  intros Hne Hd.
  assert (Hlen : 0 < Z.of_nat (length dests)) by (destruct dests; [done|cbn; lia]).
  destruct (ceilDiv_bounds duration (Z.of_nat (length dests)) Hd Hlen) as [Hc _].
  set (c := ceilDiv duration (Z.of_nat (length dests))) in *.
  assert (Hidx : forall i, destinationIndex dests duration i = i / c).
  { intros i. unfold destinationIndex.
    destruct (Z.eqb_spec (Z.of_nat (length dests)) 0); [lia|done]. }
  assert (Hblock : forall i j, 0 <= i -> i / c = j <-> j * c <= i < (j + 1) * c).
  { intros i j Hi. split.
    - intros <-. pose proof (Z.mul_div_le i c ltac:(lia)).
      pose proof (Z.mul_succ_div_gt i c ltac:(lia)). lia.
    - intros Hj. symmetry. apply (Z.div_unique_pos i c j (i - j * c)); lia. }
  split; [done|]. split.
  - intros i j Hi. rewrite Hidx. by apply Hblock.
  - split.
    + intros i i' Hi. rewrite !Hidx. apply Z.div_le_mono; lia.
    + intros j Hj i Hi Heq. rewrite Hidx in Heq. apply Hblock in Heq; lia.
Qed.

Lemma destination_blocks_witness :
  1 <= ceilDiv 4 (Z.of_nat (length ["Paris"; "Rome"; "Vienna"])) /\
  (forall i j, 0 <= i ->
     destinationIndex ["Paris"; "Rome"; "Vienna"] 4 i = j <->
     j * ceilDiv 4 (Z.of_nat (length ["Paris"; "Rome"; "Vienna"])) <= i
       < (j + 1) * ceilDiv 4 (Z.of_nat (length ["Paris"; "Rome"; "Vienna"]))) /\
  (forall i i', 0 <= i <= i' ->
     destinationIndex ["Paris"; "Rome"; "Vienna"] 4 i
       <= destinationIndex ["Paris"; "Rome"; "Vienna"] 4 i') /\
  (forall j, 4 <= j * ceilDiv 4 (Z.of_nat (length ["Paris"; "Rome"; "Vienna"])) ->
     forall i, 0 <= i < 4 -> destinationIndex ["Paris"; "Rome"; "Vienna"] 4 i <> j).
Proof.
  apply (destination_blocks ["Paris"; "Rome"; "Vienna"] 4); [discriminate | lia].
Defined.

(** Four days over three cities: two days each for the first two, none
    for the third. *)
Example four_days_three_cities :
  (fun v => (fun day => field "destination" day) <$> itemsOf (field "days" v))
  <$> createFallbackItinerary Reference.runtime None
        (destinations Scenarios.fourDaysThreeCities)
        (startDate Scenarios.fourDaysThreeCities)
        (duration Scenarios.fourDaysThreeCities)
  = Fulfilled [Some (JStr "Paris"); Some (JStr "Paris");
               Some (JStr "Rome"); Some (JStr "Rome")].
Proof. vm_compute. reflexivity. Qed.

(** X10.  When the destinations are non-empty names, day index i of the
    fallback itinerary visits the destination at position
    floor(i / ceil(duration / count)); a duration that is a multiple
    q * count gives blocks of q days, and a duration of at most count
    gives each day its own destination, in order. *)
Theorem destination_of_day (dests : list string) (duration i : Z) :
  dests <> [] ->
  Forall (fun name => name <> EmptyString) dests ->
  0 <= i < duration ->
  dayDestination dests duration i
    = dests !! Z.to_nat (i / ceilDiv duration (Z.of_nat (length dests))) /\
  (forall q, 0 < q -> duration = q * Z.of_nat (length dests) ->
     ceilDiv duration (Z.of_nat (length dests)) = q) /\
  (duration <= Z.of_nat (length dests) ->
     ceilDiv duration (Z.of_nat (length dests)) = 1 /\
     dayDestination dests duration i = dests !! Z.to_nat i).
Proof.
  intros Hne Hnames Hi.
  assert (Hd : 0 < duration) by lia.
  assert (Hlen : 0 < Z.of_nat (length dests)) by (destruct dests; [done|cbn; lia]).
  pose proof (destinationIndex_bounds dests duration i Hne Hd Hi) as Hbound.
  assert (Hidx : destinationIndex dests duration i
                 = i / ceilDiv duration (Z.of_nat (length dests))).
  { unfold destinationIndex.
    destruct (Z.eqb_spec (Z.of_nat (length dests)) 0); [lia|done]. }
  assert (Hday : dayDestination dests duration i
                 = dests !! Z.to_nat (destinationIndex dests duration i)).
  { unfold dayDestination.
    destruct (dests !! Z.to_nat (destinationIndex dests duration i)) as [name|] eqn:Hname.
    - rewrite Forall_forall in Hnames.
      assert (name <> EmptyString)
        by (apply Hnames; by eapply list_elem_of_lookup_2).
      destruct name; [done|]. reflexivity.
    - apply lookup_ge_None in Hname. lia. }
  split; [by rewrite Hday, Hidx|]. split.
  - intros q Hq ->. unfold ceilDiv.
    replace (- (q * Z.of_nat (length dests))) with ((- q) * Z.of_nat (length dests)) by lia.
    rewrite Z.div_mul by lia. lia.
  - intros Hshort.
    assert (Hc : ceilDiv duration (Z.of_nat (length dests)) = 1).
    { unfold ceilDiv.
      assert (- duration / Z.of_nat (length dests) = -1); [|lia].
      symmetry. apply (Z.div_unique_pos _ _ (-1) (Z.of_nat (length dests) - duration)); lia. }
    split; [done|]. rewrite Hday, Hidx, Hc. by rewrite Z.div_1_r.
Qed.

Lemma destination_of_day_witness :
  dayDestination ["Paris"; "Rome"] 4 2
    = ["Paris"; "Rome"] !! Z.to_nat (2 / ceilDiv 4 (Z.of_nat (length ["Paris"; "Rome"]))) /\
  (forall q, 0 < q -> 4 = q * Z.of_nat (length ["Paris"; "Rome"]) ->
     ceilDiv 4 (Z.of_nat (length ["Paris"; "Rome"])) = q) /\
  (4 <= Z.of_nat (length ["Paris"; "Rome"]) ->
     ceilDiv 4 (Z.of_nat (length ["Paris"; "Rome"])) = 1 /\
     dayDestination ["Paris"; "Rome"] 4 2 = ["Paris"; "Rome"] !! Z.to_nat 2).
Proof.
  apply (destination_of_day ["Paris"; "Rome"] 4 2); [discriminate | | lia].
  repeat constructor; discriminate.
Defined.

End SimpleItineraryFacts.

(** ** The builders at their edges *)

(** X11.  With an empty list of destinations and a valid start date the
    fallback builder still returns one entry per day, but no entry has a
    destination: the first activity is titled Explore undefined, two
    activities have no location, and the two others are located in
    undefined. *)
Theorem no_destination_no_name (rt : Runtime) (content : JSValue)
    (startDate : string) (duration : Z) :
  validDays rt startDate duration ->
  exists v days,
    GenerateItinerary.createFallbackItinerary rt content [] startDate duration
      = Fulfilled v /\
    field "days" v = Some (JArr days) /\
    length days = Z.to_nat duration /\
    Forall (fun day =>
              field "destination" day = None /\
              (fun activity => field "title" activity)
                <$> itemsOf (field "activities" day)
              = [Some (JStr "Explore undefined"); Some (JStr "Local Lunch");
                 Some (JStr "Cultural Experience"); Some (JStr "Dinner")] /\
              (fun activity => field "location" activity)
                <$> itemsOf (field "activities" day)
              = [None; Some (JStr "Local restaurant in undefined");
                 None; Some (JStr "Restaurant district in undefined")]) days.
Proof.
  intros Hvalid.
  destruct (fallback_days_total rt [] startDate duration Hvalid)
    as (days & Hdays & Hlen & Hall).
  unfold GenerateItinerary.createFallbackItinerary. rewrite Hdays.
  cbn [mbind Settled_bind mret Settled_ret].
  eexists. exists days. split; [reflexivity|]. split; [reflexivity|]. split; [done|].
  apply Forall_forall. intros day Hday.
  apply list_elem_of_lookup in Hday as [j Hj].
  destruct (Forall2_lookup_r _ _ _ _ _ Hall Hj) as (i & _ & Hi).
  unfold GenerateItinerary.fallbackDay in Hi.
  destruct (isoDate _) as [date|e]; cbn in Hi; [|done].
  injection Hi as <-. split; [reflexivity|]. split; reflexivity.
Qed.

Lemma no_destination_no_name_witness :
  exists v days,
    GenerateItinerary.createFallbackItinerary Reference.runtime None []
      "2024-03-15" 2 = Fulfilled v /\
    field "days" v = Some (JArr days) /\
    length days = Z.to_nat 2 /\
    Forall (fun day =>
              field "destination" day = None /\
              (fun activity => field "title" activity)
                <$> itemsOf (field "activities" day)
              = [Some (JStr "Explore undefined"); Some (JStr "Local Lunch");
                 Some (JStr "Cultural Experience"); Some (JStr "Dinner")] /\
              (fun activity => field "location" activity)
                <$> itemsOf (field "activities" day)
              = [None; Some (JStr "Local restaurant in undefined");
                 None; Some (JStr "Restaurant district in undefined")]) days.
Proof.
  apply (no_destination_no_name Reference.runtime None "2024-03-15" 2).
  exists 1710460800000. split; [reflexivity|]. unfold maxTime, msPerDay. lia.
Defined.



(** A stay of 2^32 days from a valid date: the length is refused. *)
Example endless_stay :
  ComprehensiveItinerary.createFallbackItinerary Reference.runtime Scenarios.endless
    = Rejected (RangeError "Invalid array length") /\
  ComprehensiveAIService.createFallbackItinerary Reference.runtime Scenarios.endless
    = Rejected (RangeError "Invalid array length").
Proof. split; vm_compute; reflexivity. Qed.

(** X13.  For a duration that is a whole number, zero or less, and
    whose product by 115 is at least -2^53 (so that the double holds it
    exactly), the fallback builder of generate-itinerary returns whatever
    the start date is: the list of days is empty and the total estimated
    cost is 115 times the duration, which is negative for a negative
    duration. *)
Theorem fallback_without_days (rt : Runtime) (content : JSValue)
    (dests : list string) (startDate : string) (duration : Z) :
  duration <= 0 ->
  - 2 ^ 53 <= 115 * duration ->
  exists v,
    GenerateItinerary.createFallbackItinerary rt content dests startDate duration
      = Fulfilled v /\
    field "days" v = Some (JArr []) /\
    intOf (field "totalEstimatedCost" v) = Some (115 * duration).
Proof.
  intros Hd _. unfold GenerateItinerary.createFallbackItinerary.
  rewrite seqZ_nil by lia. cbn. eexists. split; [reflexivity|].
  split; [reflexivity|]. cbn. f_equal. lia.
Qed.

Lemma fallback_without_days_witness :
  exists v,
    GenerateItinerary.createFallbackItinerary Reference.runtime None ["Paris"]
      "soon" (-2) = Fulfilled v /\
    field "days" v = Some (JArr []) /\
    intOf (field "totalEstimatedCost" v) = Some (115 * -2).
Proof.
  apply (fallback_without_days Reference.runtime None ["Paris"] "soon" (-2)); lia.
Defined.

(** ** The comprehensive itinerary: every day, and the cost table *)

Section ComprehensiveMore.
Import ComprehensiveItinerary.

(** What a daily entry of either builder holds besides its date. *)
Lemma dailyEntry_fields (dest : string) (start : option Z) (i : Z) (day : JSON) :
  dailyEntry dest start i = Fulfilled day ->
  field "day" day = Some (JInt (i + 1)) /\
  field "theme" day = Some (JStr (if i =? 0 then "Arrival & Orientation"
                                  else "Day " +:+ pretty (i + 1) +:+ " Exploration")) /\
  hasKeys dayParts day = true.
Proof.
  unfold dailyEntry. destruct (isoDate _) as [date|e]; cbn; [|done].
  intros [= <-]. split; [reflexivity|]. split; reflexivity.
Qed.

(** X14.  Whenever the fallback builder of comprehensive-itinerary
    returns, its daily itinerary holds one entry per day of the request;
    the entry at position j is numbered j + 1, its theme is Arrival &
    Orientation for the first day and Day n Exploration after, and it has
    the five parts morning, lunch, afternoon, dinner and evening. *)
Theorem comprehensive_fallback_days (rt : Runtime) (request : DetailedItineraryRequest)
    (v : JSON) :
  createFallbackItinerary rt request = Fulfilled v ->
  exists days,
    field "dailyItinerary" v = Some (JArr days) /\
    length days = Z.to_nat (duration request) /\
    forall (j : nat) day,
      days !! j = Some day ->
      field "day" day = Some (JInt (Z.of_nat j + 1)) /\
      field "theme" day
        = Some (JStr (if (j =? 0)%nat then "Arrival & Orientation"
                      else "Day " +:+ pretty (Z.of_nat j + 1) +:+ " Exploration")) /\
      hasKeys dayParts day = true.
Proof.
  intros Hv.
  destruct (comprehensive_fallback_inv rt request v Hv)
    as (days & Hdays & _ & _ & _ & Hall).
  exists days. split; [done|]. split.
  { apply Forall2_length in Hall. by rewrite <- Hall, length_seqZ. }
  intros j day Hj.
  destruct (Forall2_lookup_r _ _ _ _ _ Hall Hj) as (i & Hi & Hday).
  apply lookup_seqZ in Hi as [-> _].
  destruct (dailyEntry_fields _ _ _ _ Hday) as (Hnum & Htheme & Hparts).
  replace (0 + Z.of_nat j) with (Z.of_nat j) in * by lia.
  split; [done|]. split; [|done].
  rewrite Htheme. destruct j as [|j]; [done|].
  replace (Z.of_nat (S j) =? 0) with false by (symmetry; apply Z.eqb_neq; lia).
  done.
Qed.

Lemma comprehensive_fallback_days_witness :
  exists days,
    field "dailyItinerary" Scenarios.parisLuxuryFallback = Some (JArr days) /\
    length days = Z.to_nat (duration Examples.parisLuxury) /\
    forall (j : nat) day,
      days !! j = Some day ->
      field "day" day = Some (JInt (Z.of_nat j + 1)) /\
      field "theme" day
        = Some (JStr (if (j =? 0)%nat then "Arrival & Orientation"
                      else "Day " +:+ pretty (Z.of_nat j + 1) +:+ " Exploration")) /\
      hasKeys dayParts day = true.
Proof.
  apply (comprehensive_fallback_days Reference.runtime Examples.parisLuxury
           Scenarios.parisLuxuryFallback).
  vm_compute. reflexivity.
Defined.

End ComprehensiveMore.

(** X15.  In the cost table of a comprehensive fallback itinerary, built
    by the function or by the browser's service for a duration that is a
    whole number with 670 times it at most 2^53 in absolute value (so
    that every entry of the table is held exactly), the minimum and the
    maximum of the total row are the sums of the minima and of the maxima
    of the accommodation, food, activities and transport rows; for a
    non-negative duration no row has its minimum above its maximum. *)
Theorem cost_table_adds_up (rt : Runtime)
    (request : ComprehensiveItinerary.DetailedItineraryRequest) (v : JSON) :
  - 2 ^ 53 <= 670 * ComprehensiveItinerary.duration request <= 2 ^ 53 ->
  ComprehensiveItinerary.createFallbackItinerary rt request = Fulfilled v \/
  ComprehensiveAIService.createFallbackItinerary rt request = Fulfilled v ->
  (exists lo hi,
     costOf v "total" "min" = Some lo /\ costOf v "total" "max" = Some hi /\
     sumAll ((fun category => costOf v category "min") <$> costCategories) = Some lo /\
     sumAll ((fun category => costOf v category "max") <$> costCategories) = Some hi) /\
  (0 <= ComprehensiveItinerary.duration request ->
   Forall (fun category =>
             exists lo hi, costOf v category "min" = Some lo /\
                           costOf v category "max" = Some hi /\ lo <= hi)
          ("total" :: costCategories)).
Proof.
  unfold ComprehensiveItinerary.createFallbackItinerary,
    ComprehensiveAIService.createFallbackItinerary.
  intros _ [Hv|Hv].
  - destruct (arrayFrom _ _) as [days|e]; cbn in Hv; [|done]. injection Hv as <-.
    split.
    + eexists. eexists. split; [reflexivity|]. split; [reflexivity|].
      split; cbn; f_equal; unfold ComprehensiveItinerary.perDayMin,
        ComprehensiveItinerary.perDayMax; lia.
    + intros Hd. unfold costCategories.
      repeat (apply List.Forall_cons; [|]); try apply List.Forall_nil;
        (eexists; eexists; split; [reflexivity|]; split; [reflexivity|];
         unfold ComprehensiveItinerary.perDayMin, ComprehensiveItinerary.perDayMax;
         cbn; lia).
  - destruct (arrayFrom _ _) as [days|e]; cbn in Hv; [|done]. injection Hv as <-.
    split.
    + eexists. eexists. split; [reflexivity|]. split; [reflexivity|].
      split; cbn; f_equal; lia.
    + intros Hd. unfold costCategories.
      repeat (apply List.Forall_cons; [|]); try apply List.Forall_nil;
        (eexists; eexists; split; [reflexivity|]; split; [reflexivity|]; cbn; lia).
Qed.

Lemma cost_table_adds_up_witness :
  (exists lo hi,
     costOf Scenarios.parisLuxuryFallback "total" "min" = Some lo /\
     costOf Scenarios.parisLuxuryFallback "total" "max" = Some hi /\
     sumAll ((fun category => costOf Scenarios.parisLuxuryFallback category "min")
               <$> costCategories) = Some lo /\
     sumAll ((fun category => costOf Scenarios.parisLuxuryFallback category "max")
               <$> costCategories) = Some hi) /\
  (0 <= ComprehensiveItinerary.duration Examples.parisLuxury ->
   Forall (fun category =>
             exists lo hi, costOf Scenarios.parisLuxuryFallback category "min" = Some lo /\
                           costOf Scenarios.parisLuxuryFallback category "max" = Some hi /\
                           lo <= hi)
          ("total" :: costCategories)).
Proof.
  apply (cost_table_adds_up Reference.runtime Examples.parisLuxury
           Scenarios.parisLuxuryFallback).
  - cbn. lia.
  - left. vm_compute. reflexivity.
Defined.

(** ** The handlers on a reply they cannot use *)

Section HandlerMore.

#[local] Arguments completionContent : simpl never.
#[local] Arguments responseJson : simpl never.
#[local] Arguments resolve : simpl never.
#[local] Arguments extractJson : simpl never.
#[local] Arguments GenerateItinerary.createFallbackItinerary : simpl never.
#[local] Arguments ComprehensiveItinerary.createFallbackItinerary : simpl never.
#[local] Arguments LocationRecommendations.createFallbackRecommendations : simpl never.
#[local] Arguments Dispatcher.fetchWithRetry : simpl never.
#[local] Arguments jsonResponse : simpl never.

(** The [try] block of generate-itinerary when the provider's response
    is not ok or is unusable: it answers what the builder gives. *)
Lemma generate_fallback_paths (rt : Runtime) (method : string)
    (request : GenerateItinerary.ItineraryRequest) (env : Env)
    (transport : Dispatcher.Transport) (response : Response) (v : JSON) :
  method <> "OPTIONS" ->
  truthy (OPENAI_API_KEY env) = true ->
  snd (Dispatcher.fetchWithRetry transport 3) = Fulfilled response ->
  ok response = false \/ unusableReply rt response ->
  (forall content,
     GenerateItinerary.createFallbackItinerary rt content
       (GenerateItinerary.destinations request) (GenerateItinerary.startDate request)
       (GenerateItinerary.duration request) = Fulfilled v) ->
  snd (GenerateItinerary.serve rt method (Fulfilled request) env transport)
  = Fulfilled (jsonResponse 200 v).
Proof.
  intros Hm%String.eqb_neq Hkey Hres Hbad Hv.
  unfold GenerateItinerary.serve. rewrite Hm.
  unfold GenerateItinerary.tryBlock, tryCatch. rewrite Hkey. cbn.
  destruct (Dispatcher.fetchWithRetry transport 3) as [tr res]; cbn in *.
  subst res. cbn.
  destruct Hbad as [Hok|(content & e & (Hok & data & Hdata & Hcontent) & Hextract)];
    rewrite Hok; cbn.
  - rewrite Hv. done.
  - unfold responseJson. rewrite Hdata. cbn. rewrite Hcontent. cbn.
    unfold resolve. rewrite Hextract, Hv. done.
Qed.

(** The [try] block of comprehensive-itinerary on an unusable reply:
    what the builder gives, value or throw, decides the answer. *)
Lemma comprehensive_unusable_reply (rt : Runtime) (method : string)
    (request : ComprehensiveItinerary.DetailedItineraryRequest) (env : Env)
    (transport : Dispatcher.Transport) (response : Response) :
  method <> "OPTIONS" ->
  truthy (OPENAI_API_KEY env) = true ->
  snd (Dispatcher.fetchWithRetry transport 3) = Fulfilled response ->
  unusableReply rt response ->
  snd (ComprehensiveItinerary.serve rt method (Fulfilled request) env transport)
  = match ComprehensiveItinerary.createFallbackItinerary rt request with
    | Fulfilled v => Fulfilled (jsonResponse 200 v)
    | Rejected error =>
        Fulfilled (jsonResponse 500 (JObj [("error", JStr (errMessage error))]))
    end.
Proof.
  intros Hm%String.eqb_neq Hkey Hres
    (content & e & (Hok & data & Hdata & Hcontent) & Hextract).
  unfold ComprehensiveItinerary.serve. rewrite Hm.
  unfold ComprehensiveItinerary.tryBlock, ComprehensiveItinerary.catchBlock, tryCatch.
  rewrite Hkey. cbn.
  destruct (Dispatcher.fetchWithRetry transport 3) as [tr res]; cbn in *.
  subst res. cbn. rewrite Hok. cbn.
  unfold responseJson. rewrite Hdata. cbn. rewrite Hcontent. cbn.
  unfold resolve. rewrite Hextract.
  destruct (ComprehensiveItinerary.createFallbackItinerary rt request); done.
Qed.

(** X18.  When the provider key is missing or the dispatcher throws, the
    catch blocks of generate-itinerary and of location-recommendations do
    not answer with a fallback: they read a constant declared inside the
    try block, so the handler itself throws a ReferenceError. *)
Theorem catch_blocks_throw_themselves (rt : Runtime) (method : string) (env : Env)
    (transport : Dispatcher.Transport)
    (simple : Settled GenerateItinerary.ItineraryRequest)
    (location : Settled LocationRecommendations.LocationRequest) :
  method <> "OPTIONS" ->
  truthy (OPENAI_API_KEY env) = false \/
  (exists e, snd (Dispatcher.fetchWithRetry transport 3) = Rejected e) ->
  snd (GenerateItinerary.serve rt method simple env transport)
    = Rejected (ReferenceError "destinations is not defined") /\
  snd (LocationRecommendations.serve rt method location env transport)
    = Rejected (ReferenceError "destination is not defined").
Proof.
  intros Hm%String.eqb_neq Hdown.
  unfold GenerateItinerary.serve, LocationRecommendations.serve. rewrite Hm.
  unfold GenerateItinerary.tryBlock, GenerateItinerary.catchBlock,
    LocationRecommendations.tryBlock, LocationRecommendations.catchBlock, tryCatch.
  destruct (truthy (OPENAI_API_KEY env)) eqn:Hkey; cbn.
  - destruct Hdown as [|[e He]]; [done|].
    destruct (Dispatcher.fetchWithRetry transport 3) as [tr res]; cbn in *.
    subst res. destruct simple, location; done.
  - destruct simple, location; done.
Qed.

End HandlerMore.

(** X16.  When the key is configured, the start date is valid and the
    dispatcher delivers a response that is not ok, or a completion whose
    content holds no JSON text that decodes, generate-itinerary answers
    status 200 with the itinerary of its fallback builder, which has all
    the top-level keys of an itinerary. *)
Theorem generate_itinerary_falls_back (rt : Runtime) (method : string)
    (request : GenerateItinerary.ItineraryRequest) (env : Env)
    (transport : Dispatcher.Transport) (response : Response) :
  method <> "OPTIONS" ->
  truthy (OPENAI_API_KEY env) = true ->
  validDays rt (GenerateItinerary.startDate request)
               (GenerateItinerary.duration request) ->
  snd (Dispatcher.fetchWithRetry transport 3) = Fulfilled response ->
  ok response = false \/ unusableReply rt response ->
  exists v,
    snd (GenerateItinerary.serve rt method (Fulfilled request) env transport)
      = Fulfilled (jsonResponse 200 v) /\
    GenerateItinerary.createFallbackItinerary rt None
      (GenerateItinerary.destinations request) (GenerateItinerary.startDate request)
      (GenerateItinerary.duration request) = Fulfilled v /\
    hasKeys GenerateItinerary.requiredKeys v = true.
Proof.
  intros Hm Hkey Hvalid Hres Hbad.
  destruct (simple_fallback_total rt None (GenerateItinerary.destinations request)
              (GenerateItinerary.startDate request)
              (GenerateItinerary.duration request) Hvalid) as [v Hv].
  exists v. split; [|split; [done|]].
  - by apply (generate_fallback_paths rt method request env transport response v).
  - by destruct (simple_fallback_inv rt _ _ _ _ _ Hv) as (? & _ & ? & _).
Qed.

Lemma generate_itinerary_falls_back_witness :
  exists v,
    snd (GenerateItinerary.serve Reference.runtime "POST"
           (Fulfilled Examples.twoCities) Examples.configured
           (Examples.replying "I could not plan this trip."))
      = Fulfilled (jsonResponse 200 v) /\
    GenerateItinerary.createFallbackItinerary Reference.runtime None
      (GenerateItinerary.destinations Examples.twoCities)
      (GenerateItinerary.startDate Examples.twoCities)
      (GenerateItinerary.duration Examples.twoCities) = Fulfilled v /\
    hasKeys GenerateItinerary.requiredKeys v = true.
Proof.
  apply (generate_itinerary_falls_back Reference.runtime "POST" Examples.twoCities
           Examples.configured (Examples.replying "I could not plan this trip.")
           (Reference.completion "I could not plan this trip."));
    [discriminate | reflexivity | | reflexivity |].
  - exists 1710460800000. split; [reflexivity|]. cbn. unfold maxTime, msPerDay. lia.
  - right. exists (Some (JStr "I could not plan this trip.")),
      (newError "No JSON found in response").
    split; [|reflexivity]. split; [reflexivity|].
    exists (Scenarios.completionOf (JStr "I could not plan this trip.")).
    split; reflexivity.
Defined.

(** X17.  When the provider's completion holds no JSON text that
    decodes, comprehensive-itinerary answers a request whose start date
    is valid with status 200 and its fallback itinerary.  A request with
    a positive whole-number duration whose start date is not a date, or
    whose duration is above 2^32 - 1, makes the builder throw: the throw
    reaches the outer catch and the answer is status 500 with the error
    Invalid time value, or Invalid array length for such a duration. *)
Theorem comprehensive_itinerary_on_unusable_reply (rt : Runtime) (method : string)
    (dated undated : ComprehensiveItinerary.DetailedItineraryRequest) (env : Env)
    (transport : Dispatcher.Transport) (response : Response) :
  method <> "OPTIONS" ->
  truthy (OPENAI_API_KEY env) = true ->
  snd (Dispatcher.fetchWithRetry transport 3) = Fulfilled response ->
  unusableReply rt response ->
  validDays rt (ComprehensiveItinerary.startDate dated)
               (ComprehensiveItinerary.duration dated) ->
  0 < ComprehensiveItinerary.duration undated ->
  Date_parse rt (ComprehensiveItinerary.startDate undated) = None \/
  maxArrayLength < ComprehensiveItinerary.duration undated ->
  (exists v,
     snd (ComprehensiveItinerary.serve rt method (Fulfilled dated) env transport)
       = Fulfilled (jsonResponse 200 v) /\
     ComprehensiveItinerary.createFallbackItinerary rt dated = Fulfilled v /\
     hasKeys ComprehensiveItinerary.requiredKeys v = true) /\
  snd (ComprehensiveItinerary.serve rt method (Fulfilled undated) env transport)
    = Fulfilled (jsonResponse 500 (JObj [("error", JStr
        (if maxArrayLength <? ComprehensiveItinerary.duration undated
         then "Invalid array length" else "Invalid time value"))])).
Proof.
  intros Hm Hkey Hres Hreply Hvalid Hd Hwhy.
  rewrite !(comprehensive_unusable_reply rt method _ env transport response)
    by done.
  split.
  - destruct (comprehensive_fallback_total rt dated Hvalid) as [v Hv].
    exists v. rewrite Hv. split; [done|]. split; [done|].
    by destruct (comprehensive_fallback_inv rt _ _ Hv) as (? & _ & ? & _).
  - by rewrite (proj1 (array_builders_throw rt undated Hd Hwhy)).
Qed.

Lemma comprehensive_itinerary_on_unusable_reply_witness :
  (exists v,
     snd (ComprehensiveItinerary.serve Reference.runtime "POST"
            (Fulfilled Examples.parisLuxury) Examples.configured
            (Examples.replying "No plan today."))
       = Fulfilled (jsonResponse 200 v) /\
     ComprehensiveItinerary.createFallbackItinerary Reference.runtime
       Examples.parisLuxury = Fulfilled v /\
     hasKeys ComprehensiveItinerary.requiredKeys v = true) /\
  snd (ComprehensiveItinerary.serve Reference.runtime "POST"
         (Fulfilled Scenarios.undated) Examples.configured
         (Examples.replying "No plan today."))
    = Fulfilled (jsonResponse 500 (JObj [("error", JStr
        (if maxArrayLength <? ComprehensiveItinerary.duration Scenarios.undated
         then "Invalid array length" else "Invalid time value"))])).
Proof.
  apply (comprehensive_itinerary_on_unusable_reply Reference.runtime "POST"
           Examples.parisLuxury Scenarios.undated Examples.configured
           (Examples.replying "No plan today.")
           (Reference.completion "No plan today."));
    [discriminate | reflexivity | reflexivity | | | cbn; lia | left; reflexivity].
  - exists (Some (JStr "No plan today.")), (newError "No JSON found in response").
    split; [|reflexivity]. split; [reflexivity|].
    exists (Scenarios.completionOf (JStr "No plan today.")). split; reflexivity.
  - exists 1710460800000. split; [reflexivity|]. cbn. unfold maxTime, msPerDay. lia.
Defined.

Lemma catch_blocks_throw_themselves_witness :
  snd (GenerateItinerary.serve Reference.runtime "POST"
         (Fulfilled Examples.twoCities) Examples.noProviderKey Examples.healthy)
    = Rejected (ReferenceError "destinations is not defined") /\
  snd (LocationRecommendations.serve Reference.runtime "POST"
         (Fulfilled (LocationRecommendations.mkLocationRequest "Paris" None))
         Examples.noProviderKey Examples.healthy)
    = Rejected (ReferenceError "destination is not defined").
Proof.
  apply (catch_blocks_throw_themselves Reference.runtime "POST"
           Examples.noProviderKey Examples.healthy);
    [discriminate | left; reflexivity].
Defined.

(** ** A service call against its function *)

(** [data.choices[0].message.content] on a completion of the usual
    shape. *)
Lemma completionContent_shape (data first : JSON) (others : list JSON)
    (fields : list (string * JSON)) :
  field "choices" data = Some (JArr (first :: others)) ->
  field "message" first = Some (JObj fields) ->
  completionContent data = Fulfilled (assoc "content" fields).
Proof.
  intros Hchoices Hmessage.
  destruct data; try done. destruct first; try done.
  cbn in Hchoices, Hmessage. unfold completionContent. cbn.
  rewrite Hchoices. cbn. rewrite Hmessage. done.
Qed.

(** Without a first choice the chain throws. *)
Lemma completionContent_no_choice (data : JSON) :
  field "choices" data = None \/ field "choices" data = Some (JArr []) ->
  exists e, completionContent data = Rejected e.
Proof.
  intros Hchoices. unfold completionContent.
  destruct data; cbn in *; eauto.
  destruct Hchoices as [-> | ->]; cbn; eauto.
Qed.

Section ChatCalls.

#[local] Arguments completionContent : simpl never.
#[local] Arguments Dispatcher.fetchWithRetry : simpl never.

(** What the chat handler answers, by what the provider gave. *)
Lemma chat_serve_cases (rt : Runtime) (canned : string)
    (request : TravelChat.ChatRequest) (env : Env)
    (transport : Dispatcher.Transport) :
  snd (TravelChat.serve rt canned "POST" (Fulfilled request) env transport)
  = Fulfilled (jsonResponse 200 (JObj (definedFields [("response",
      if truthy (OPENAI_API_KEY env) then
        match snd (Dispatcher.fetchWithRetry transport 3) with
        | Fulfilled response =>
            if ok response then
              match JSON_parse rt (bodyText response) with
              | Some data =>
                  match completionContent data with
                  | Fulfilled content => content
                  | Rejected _ => Some (JStr canned)
                  end
              | None => Some (JStr canned)
              end
            else Some (JStr canned)
        | Rejected _ => Some (JStr canned)
        end
      else Some (JStr canned))]))).
Proof.
  unfold TravelChat.serve. cbn [String.eqb Ascii.eqb Bool.eqb].
  unfold TravelChat.tryBlock, TravelChat.cannedResponse, tryCatch.
  destruct (truthy (OPENAI_API_KEY env)); cbn; [|done].
  destruct (Dispatcher.fetchWithRetry transport 3) as [tr [response|e]]; cbn; [|done].
  destruct (ok response); cbn; [|done].
  unfold responseJson. destruct (JSON_parse rt (bodyText response)); cbn; [|done].
  destruct (completionContent j) as [content|e]; cbn; done.
Qed.

(** The browser reads back the [response] property it was sent. *)
Lemma browser_reads_response (rt : Runtime) (reply : JSValue) :
  OpenAIService.chatWithAssistant rt
    (Fulfilled (jsonResponse 200 (JObj (definedFields [("response", reply)]))))
  = reply /\
  ComprehensiveAIService.chatWithTravelExpert rt
    (Fulfilled (jsonResponse 200 (JObj (definedFields [("response", reply)]))))
  = reply.
Proof. destruct reply; split; reflexivity. Qed.

End ChatCalls.

(** X19.  When the key is configured and the provider's response is ok
    and is a completion with a first choice that has a message, both chat
    services of the browser return exactly the content of that message,
    through travel-chat and through travel-expert-chat. *)
Theorem chat_shows_the_providers_reply (rt : Runtime) (env : Env)
    (transport : Dispatcher.Transport) (messages : list TravelChat.ChatMessage)
    (response : Response) (data first : JSON) (others : list JSON)
    (fields : list (string * JSON)) :
  truthy (OPENAI_API_KEY env) = true ->
  snd (Dispatcher.fetchWithRetry transport 3) = Fulfilled response ->
  ok response = true ->
  JSON_parse rt (bodyText response) = Some data ->
  field "choices" data = Some (JArr (first :: others)) ->
  field "message" first = Some (JObj fields) ->
  EndToEnd.chat rt env transport messages = assoc "content" fields /\
  EndToEnd.expertChat rt env transport messages = assoc "content" fields.
Proof.
  intros Hkey Hres Hok Hdata Hchoices Hmessage.
  unfold EndToEnd.chat, EndToEnd.expertChat. rewrite !chat_serve_cases.
  rewrite Hkey, Hres, Hok, Hdata,
    (completionContent_shape data first others fields Hchoices Hmessage).
  apply browser_reads_response.
Qed.

Lemma chat_shows_the_providers_reply_witness :
  EndToEnd.chat Reference.runtime Examples.configured
    (Examples.replying "Try Lisbon in May.") [] = Some (JStr "Try Lisbon in May.") /\
  EndToEnd.expertChat Reference.runtime Examples.configured
    (Examples.replying "Try Lisbon in May.") [] = Some (JStr "Try Lisbon in May.").
Proof.
  apply (chat_shows_the_providers_reply Reference.runtime Examples.configured
           (Examples.replying "Try Lisbon in May.") []
           (Reference.completion "Try Lisbon in May.")
           (Scenarios.completionOf (JStr "Try Lisbon in May."))
           (JObj [("message", JObj [("content", JStr "Try Lisbon in May.")])]) []
           [("content", JStr "Try Lisbon in May.")]); reflexivity.
Defined.

(** X20.  When the provider is unavailable (no key, no response after the
    retries, or a response that is not ok), or its body is not JSON or has
    no first choice, the browser's chat services return the canned
    message of the function they call, travel-chat's or
    travel-expert-chat's. *)
Theorem chat_shows_the_functions_apology (rt : Runtime) (env : Env)
    (transport : Dispatcher.Transport) (messages : list TravelChat.ChatMessage) :
  providerUnavailable env transport \/
  (exists response,
     truthy (OPENAI_API_KEY env) = true /\
     snd (Dispatcher.fetchWithRetry transport 3) = Fulfilled response /\
     ok response = true /\
     (JSON_parse rt (bodyText response) = None \/
      exists data,
        JSON_parse rt (bodyText response) = Some data /\
        (field "choices" data = None \/ field "choices" data = Some (JArr [])))) ->
  EndToEnd.chat rt env transport messages = Some (JStr TravelChat.unavailable) /\
  EndToEnd.expertChat rt env transport messages
    = Some (JStr TravelChat.unavailableExpert).
Proof.
  intros Hdown.
  unfold EndToEnd.chat, EndToEnd.expertChat. rewrite !chat_serve_cases.
  assert (Hcanned : forall canned : string,
    (if truthy (OPENAI_API_KEY env) then
       match snd (Dispatcher.fetchWithRetry transport 3) with
       | Fulfilled response =>
           if ok response then
             match JSON_parse rt (bodyText response) with
             | Some data =>
                 match completionContent data with
                 | Fulfilled content => content
                 | Rejected _ => Some (JStr canned)
                 end
             | None => Some (JStr canned)
             end
           else Some (JStr canned)
       | Rejected _ => Some (JStr canned)
       end
     else Some (JStr canned)) = Some (JStr canned)).
  { intros canned.
    destruct Hdown as [[Hkey|[[e He]|(response & Hres & Hok)]]
                      |(response & Hkey & Hres & Hok & Hbody)].
    - by rewrite Hkey.
    - rewrite He. by destruct (truthy _).
    - rewrite Hres, Hok. by destruct (truthy _).
    - rewrite Hkey, Hres, Hok.
      destruct Hbody as [->|(data & -> & Hchoices)]; [done|].
      by destruct (completionContent_no_choice data Hchoices) as [e ->]. }
  rewrite !Hcanned.
  split; [apply (proj1 (browser_reads_response rt _))
         |apply (proj2 (browser_reads_response rt _))].
Qed.

Lemma chat_shows_the_functions_apology_witness :
  EndToEnd.chat Reference.runtime Examples.noProviderKey Examples.healthy []
    = Some (JStr TravelChat.unavailable) /\
  EndToEnd.expertChat Reference.runtime Examples.noProviderKey Examples.healthy []
    = Some (JStr TravelChat.unavailableExpert).
Proof.
  apply (chat_shows_the_functions_apology Reference.runtime Examples.noProviderKey
           Examples.healthy []).
  left. left. reflexivity.
Defined.

(** ** The detailed itinerary, from the browser *)

Section DetailedCalls.
Import ComprehensiveItinerary.

(** With a valid start date the browser's builder returns, one entry
    per day. *)
Lemma browser_fallback_total (rt : Runtime) (request : DetailedItineraryRequest) :
  validDays rt (startDate request) (duration request) ->
  exists v days,
    ComprehensiveAIService.createFallbackItinerary rt request = Fulfilled v /\
    field "dailyItinerary" v = Some (JArr days) /\
    length days = Z.to_nat (duration request) /\
    Forall (fun day => hasKeys dayParts day = true) days.
Proof.
  intros Hvalid. unfold ComprehensiveAIService.createFallbackItinerary.
  destruct (arrayFrom_Fulfilled_total (duration request)
              (ComprehensiveAIService.dailyEntry (destination request)
                 (Date_parse rt (startDate request)))) as [days Hdays].
  { by eapply validDays_length. }
  { intros i Hi. unfold ComprehensiveAIService.dailyEntry.
    destruct (validDays_iso rt (startDate request) (duration request) i Hvalid)
      as [s ->]; [lia|].
    cbn. eauto. }
  rewrite Hdays. cbn [mbind Settled_bind mret Settled_ret].
  eexists. exists days. split; [reflexivity|]. split; [reflexivity|].
  destruct (arrayFrom_Fulfilled_inv _ _ _ Hdays) as [_ Hall]. split.
  - apply Forall2_length in Hall. by rewrite <- Hall, length_seqZ.
  - apply Forall_forall. intros day Hday.
    apply list_elem_of_lookup in Hday as [j Hj].
    destruct (Forall2_lookup_r _ _ _ _ _ Hall Hj) as (i & _ & Hi).
    unfold ComprehensiveAIService.dailyEntry in Hi.
    destruct (isoDate _) as [date|e]; cbn in Hi; [|done].
    by injection Hi as <-.
Qed.

(** The browser on the function's status 500: its own builder. *)
Lemma browser_on_500 (rt : Runtime) (request : DetailedItineraryRequest)
    (msg : string) :
  ComprehensiveAIService.generateDetailedItinerary rt
    (Fulfilled (jsonResponse 500 (JObj [("error", JStr msg)]))) request
  = ComprehensiveAIService.createFallbackItinerary rt request.
Proof. reflexivity. Qed.

(** The browser on the function's status 200: the document it sent. *)
Lemma browser_on_200 (rt : Runtime) (request : DetailedItineraryRequest) (v : JSON) :
  ComprehensiveAIService.generateDetailedItinerary rt
    (Fulfilled (jsonResponse 200 v)) request = Fulfilled v.
Proof. reflexivity. Qed.

End DetailedCalls.

(** X21.  With a valid start date the browser's detailed-itinerary call
    always returns a document; when the provider is unavailable the
    document is the one built by the browser's own fallback builder, with
    one entry per day, each with the five day parts. *)
Theorem detailed_itinerary_from_the_browser (rt : Runtime) (env : Env)
    (transport : Dispatcher.Transport)
    (request : ComprehensiveItinerary.DetailedItineraryRequest) :
  validDays rt (ComprehensiveItinerary.startDate request)
               (ComprehensiveItinerary.duration request) ->
  (exists v, EndToEnd.detailedItinerary rt env transport request = Fulfilled v) /\
  (providerUnavailable env transport ->
   exists v days,
     EndToEnd.detailedItinerary rt env transport request = Fulfilled v /\
     ComprehensiveAIService.createFallbackItinerary rt request = Fulfilled v /\
     field "dailyItinerary" v = Some (JArr days) /\
     length days = Z.to_nat (ComprehensiveItinerary.duration request) /\
     Forall (fun day => hasKeys ComprehensiveItinerary.dayParts day = true) days).
Proof.
  intros Hvalid.
  destruct (browser_fallback_total rt request Hvalid)
    as (fb & days & Hfb & Hdays & Hlen & Hparts).
  unfold EndToEnd.detailedItinerary. split.
  - destruct (comprehensive_never_rejects rt "POST" (Fulfilled request) env transport)
      as (r & Hr & Hst & Hjson).
    rewrite Hr. destruct (Hjson ltac:(discriminate)) as [[v Hv] _].
    destruct r as [st headers body]. cbn in Hv, Hst. subst body.
    unfold ComprehensiveAIService.generateDetailedItinerary, fetchedJsonOrError.
    cbn [mbind Settled_bind]. unfold httpOk. cbn [respStatus].
    destruct Hst as [-> | ->]; cbn.
    + eauto.
    + destruct v; cbn; rewrite Hfb; eauto.
  - intros Hdown.
    destruct (comprehensive_unavailable_500 rt "POST" request env transport
                ltac:(discriminate) Hdown) as [msg Hmsg].
    rewrite Hmsg, browser_on_500.
    exists fb, days. done.
Qed.

Lemma detailed_itinerary_from_the_browser_witness :
  (exists v, EndToEnd.detailedItinerary Reference.runtime Examples.configured
               Examples.serverDown Examples.parisLuxury = Fulfilled v) /\
  (providerUnavailable Examples.configured Examples.serverDown ->
   exists v days,
     EndToEnd.detailedItinerary Reference.runtime Examples.configured
       Examples.serverDown Examples.parisLuxury = Fulfilled v /\
     ComprehensiveAIService.createFallbackItinerary Reference.runtime
       Examples.parisLuxury = Fulfilled v /\
     field "dailyItinerary" v = Some (JArr days) /\
     length days = Z.to_nat (ComprehensiveItinerary.duration Examples.parisLuxury) /\
     Forall (fun day => hasKeys ComprehensiveItinerary.dayParts day = true) days).
Proof.
  apply (detailed_itinerary_from_the_browser Reference.runtime Examples.configured
           Examples.serverDown Examples.parisLuxury).
  exists 1710460800000. split; [reflexivity|]. cbn. unfold maxTime, msPerDay. lia.
Defined.



(** ** Searching the built-in destinations *)

Section SearchFacts.
Import DestinationSuggestions.











(** A filter keeps the order of the list. *)
Lemma filter_sublist_of {A : Type} (f : A -> bool) (l : list A) :
  List.filter f l `sublist_of` l.
Proof.
  induction l as [|x l IH]; cbn; [constructor|].
  destruct (f x); by constructor.
Qed.

Lemma sublist_elem_of {A : Type} (l1 l2 : list A) (x : A) :
  l1 `sublist_of` l2 -> x ∈ l1 -> x ∈ l2.
Proof.
  induction 1 as [|y l1 l2 _ IH|y l1 l2 _ IH]; [done| |].
  - intros [->|Hx]%elem_of_cons; [left|right; auto].
  - intros Hx. right. auto.
Qed.

Lemma descending_sublist (l1 l2 : list Z) :
  l1 `sublist_of` l2 -> DbContract.descending l2 -> DbContract.descending l1.
Proof.
  unfold DbContract.descending.
  induction 1 as [|y l1 l2 Hsub IH|y l1 l2 Hsub IH]; intros Hsorted; [done| |].
  - apply StronglySorted_inv in Hsorted as [Hrest Hy]. constructor; [auto|].
    apply Forall_forall. intros x Hx. rewrite Forall_forall in Hy.
    apply Hy. by eapply sublist_elem_of.
  - apply StronglySorted_inv in Hsorted as [Hrest _]. auto.
Qed.

Lemma sublist_fmap_of {A B : Type} (f : A -> B) (l1 l2 : list A) :
  l1 `sublist_of` l2 -> (f <$> l1) `sublist_of` (f <$> l2).
Proof. induction 1; cbn; by constructor. Qed.



(** X25.  For every query the built-in suggestions are a sublist of the
    built-in list in its order, hence by descending popularity score: at
    most five from the function, at most three from the browser's
    service. *)
Theorem fallback_search_keeps_the_ranking (query : string) :
  getFallbackSuggestions query `sublist_of` fallbackDestinations /\
  DbContract.descending (dPopularityScore <$> getFallbackSuggestions query) /\
  (length (getFallbackSuggestions query) <= 5)%nat /\
  ComprehensiveAIService.getFallbackSuggestions query
    `sublist_of` ComprehensiveAIService.fallbackDestinations /\
  DbContract.descending
    (dPopularityScore <$> ComprehensiveAIService.getFallbackSuggestions query) /\
  (length (ComprehensiveAIService.getFallbackSuggestions query) <= 3)%nat.
Proof.
  assert (Hserver : getFallbackSuggestions query `sublist_of` fallbackDestinations).
  { unfold getFallbackSuggestions.
    destruct (_ || _); [done|apply filter_sublist_of]. }
  assert (Hbrowser : ComprehensiveAIService.getFallbackSuggestions query
                     `sublist_of` ComprehensiveAIService.fallbackDestinations)
    by apply filter_sublist_of.
  split; [done|]. split.
  { eapply descending_sublist; [by apply sublist_fmap_of|].
    unfold DbContract.descending. cbn. repeat constructor; lia. }
  split; [by apply sublist_length in Hserver|]. split; [done|]. split.
  { eapply descending_sublist; [by apply sublist_fmap_of|].
    unfold DbContract.descending. cbn. repeat constructor; lia. }
  by apply sublist_length in Hbrowser.
Qed.

(** What the handler answers is a [suggestions] document. *)
Lemma serve_suggestions_document (body : Settled SuggestionRequest) (env : Env)
    (db : Supabase) :
  exists l rest,
    serve "POST" body env db
    = Fulfilled (jsonResponse 200 (JObj (("suggestions", JArr l) :: rest))).
Proof.
  unfold serve. cbn [String.eqb Ascii.eqb Bool.eqb].
  destruct (_ ≫= _) as [r|e] eqn:Htry.
  - apply bindS_Fulfilled_inv in Htry as (request & _ & Htry).
    apply suggestions_tryBlock_inv in Htry as [l ->].
    exists l, []. done.
  - eexists. eexists. reflexivity.
Qed.

(** X26.  A query made of white space only (the white space that [trim]
    strips, Unicode spaces included) is handled by
    destination-suggestions exactly as an empty query, whatever the
    method, the limit, the configuration, the library and the
    database. *)
Theorem blank_query_is_no_query (method query : string) (limit : option Z)
    (env : Env) (db : Supabase) :
  nonBlank query = false ->
  serve method (Fulfilled (mkSuggestionRequest query limit)) env db
  = serve method (Fulfilled (mkSuggestionRequest EmptyString limit)) env db.
Proof.
  intros Hblank. unfold serve. destruct (String.eqb method "OPTIONS"); [done|].
  cbn [mbind Settled_bind].
  by rewrite !tryBlock_no_query.
Qed.

Lemma blank_query_is_no_query_witness :
  serve "POST" (Fulfilled (mkSuggestionRequest Scenarios.wideSpaces (Some 2)))
    Examples.configured Examples.dbUp
  = serve "POST" (Fulfilled (mkSuggestionRequest EmptyString (Some 2)))
      Examples.configured Examples.dbUp.
Proof.
  apply (blank_query_is_no_query "POST" Scenarios.wideSpaces (Some 2)
           Examples.configured Examples.dbUp).
  reflexivity.
Defined.

(** Two wide spaces get the two most popular rows of the catalog, as no
    query does. *)
Example wide_spaces_top_two :
  (fun r => DbContract.scoresOf r)
    <$> serve "POST" (Fulfilled (mkSuggestionRequest Scenarios.wideSpaces (Some 2)))
          Examples.configured Examples.dbUp
  = Fulfilled [Some 100; Some 85].
Proof. vm_compute. reflexivity. Qed.

End SearchFacts.

(** X23.  The browser's suggestion call always returns a list.  The
    body it posts has no limit, so when the library returns a client and
    the database replies, the list is the rows it returned for the limit
    10: for the query with its filter, or for the query of the most
    popular rows when the text is blank.  When the library refuses to
    create the client (a missing or refused URL or key), the list is the
    function's five built-in destinations. *)
Theorem suggestions_from_the_browser (rt : Runtime) (env : Env)
    (db : DestinationSuggestions.Supabase) (query : string) :
  exists l,
    EndToEnd.suggestions rt env db query = Some (JArr l) /\
    (forall client rows,
       DestinationSuggestions.createClient db (SUPABASE_URL env)
         (SUPABASE_SERVICE_ROLE_KEY env) = Fulfilled client ->
       client (if DestinationSuggestions.nonBlank query
               then DestinationSuggestions.matchingDestinations query 10
               else DestinationSuggestions.popularDestinations 10)
         = Fulfilled (DestinationSuggestions.DbRows rows) ->
       l = DestinationSuggestions.toSuggestion <$> rows) /\
    ((exists e, DestinationSuggestions.createClient db (SUPABASE_URL env)
                  (SUPABASE_SERVICE_ROLE_KEY env) = Rejected e) ->
     l = DestinationSuggestions.destinationJson
           <$> DestinationSuggestions.fallbackDestinations).
Proof.
  unfold EndToEnd.suggestions.
  destruct (serve_suggestions_document
              (Fulfilled (DestinationSuggestions.mkSuggestionRequest query None))
              env db) as (l & rest & Hserve).
  exists l. split; [by rewrite Hserve|].
  revert Hserve. unfold DestinationSuggestions.serve.
  cbn [String.eqb Ascii.eqb Bool.eqb mbind Settled_bind].
  unfold DestinationSuggestions.tryBlock.
  cbn [DestinationSuggestions.query DestinationSuggestions.limit default].
  assert (Hcond : truthy (Some query) && DestinationSuggestions.nonBlank query
                  = DestinationSuggestions.nonBlank query) by (by destruct query).
  rewrite Hcond.
  destruct (DestinationSuggestions.createClient db _ _) as [supabase|e] eqn:Hclient.
  - cbn [mbind Settled_bind]. intros Hserve. split; [|by intros [e [=]]].
    intros client rows [= <-] Hrows. revert Hserve.
    destruct (DestinationSuggestions.nonBlank query); rewrite Hrows; cbn;
      by intros [= <-].
  - cbn. intros [= <-]. split; [by intros client rows [=]|]. done.
Qed.

Lemma suggestions_from_the_browser_witness :
  exists l,
    EndToEnd.suggestions Reference.runtime Examples.configured Examples.dbUp
      Scenarios.wideSpaces = Some (JArr l) /\
    (forall client rows,
       DestinationSuggestions.createClient Examples.dbUp
         (SUPABASE_URL Examples.configured)
         (SUPABASE_SERVICE_ROLE_KEY Examples.configured) = Fulfilled client ->
       client (if DestinationSuggestions.nonBlank Scenarios.wideSpaces
               then DestinationSuggestions.matchingDestinations Scenarios.wideSpaces 10
               else DestinationSuggestions.popularDestinations 10)
         = Fulfilled (DestinationSuggestions.DbRows rows) ->
       l = DestinationSuggestions.toSuggestion <$> rows) /\
    ((exists e, DestinationSuggestions.createClient Examples.dbUp
                  (SUPABASE_URL Examples.configured)
                  (SUPABASE_SERVICE_ROLE_KEY Examples.configured) = Rejected e) ->
     l = DestinationSuggestions.destinationJson
           <$> DestinationSuggestions.fallbackDestinations).
Proof.
  apply (suggestions_from_the_browser Reference.runtime Examples.configured
           Examples.dbUp Scenarios.wideSpaces).
Defined.

(** With a database URL that has no scheme the browser is sent the five
    built-in destinations. *)
Example suggestions_without_a_scheme :
  (fun l => length (itemsOf l))
    (EndToEnd.suggestions Reference.runtime Examples.noScheme Examples.dbUp "rome")
  = 5%nat.
Proof. vm_compute. reflexivity. Qed.

(** ** The structured services, from the browser *)

Section StructuredCalls.

#[local] Arguments completionContent : simpl never.
#[local] Arguments responseJson : simpl never.
#[local] Arguments resolve : simpl never.
#[local] Arguments extractJson : simpl never.
#[local] Arguments GenerateItinerary.createFallbackItinerary : simpl never.
#[local] Arguments LocationRecommendations.createFallbackRecommendations : simpl never.
#[local] Arguments Dispatcher.fetchWithRetry : simpl never.
#[local] Arguments jsonResponse : simpl never.

(** location-recommendations on a response that is not ok or that it
    cannot use: the built-in recommendations. *)
Lemma location_fallback_paths (rt : Runtime)
    (request : LocationRecommendations.LocationRequest) (env : Env)
    (transport : Dispatcher.Transport) (response : Response) :
  truthy (OPENAI_API_KEY env) = true ->
  snd (Dispatcher.fetchWithRetry transport 3) = Fulfilled response ->
  ok response = false \/ unusableReply rt response ->
  snd (LocationRecommendations.serve rt "POST" (Fulfilled request) env transport)
  = Fulfilled (jsonResponse 200
                 (LocationRecommendations.createFallbackRecommendations
                    (LocationRecommendations.destination request))).
Proof.
  intros Hkey Hres Hbad. unfold LocationRecommendations.serve.
  cbn [String.eqb Ascii.eqb Bool.eqb].
  unfold LocationRecommendations.tryBlock, tryCatch. rewrite Hkey. cbn.
  destruct (Dispatcher.fetchWithRetry transport 3) as [tr res]; cbn in *.
  subst res. cbn.
  destruct Hbad as [Hok|(content & e & (Hok & data & Hdata & Hcontent) & Hextract)];
    rewrite Hok; cbn; [done|].
  unfold responseJson. rewrite Hdata. cbn. rewrite Hcontent. cbn.
  unfold resolve. rewrite Hextract. done.
Qed.

(** The two structured handlers on a completion whose text holds an
    object that decodes: the decoded object. *)
Lemma structured_parsed (rt : Runtime)
    (simple : GenerateItinerary.ItineraryRequest)
    (location : LocationRecommendations.LocationRequest) (env : Env)
    (transport : Dispatcher.Transport) (response : Response)
    (s m : string) (v : JSON) :
  truthy (OPENAI_API_KEY env) = true ->
  snd (Dispatcher.fetchWithRetry transport 3) = Fulfilled response ->
  completes rt response (Some (JStr s)) ->
  jsonMatch s = Some m ->
  JSON_parse rt m = Some v ->
  snd (GenerateItinerary.serve rt "POST" (Fulfilled simple) env transport)
    = Fulfilled (jsonResponse 200 v) /\
  snd (LocationRecommendations.serve rt "POST" (Fulfilled location) env transport)
    = Fulfilled (jsonResponse 200 v).
Proof.
  intros Hkey Hres (Hok & data & Hdata & Hcontent) Hm Hv.
  unfold GenerateItinerary.serve, LocationRecommendations.serve.
  cbn [String.eqb Ascii.eqb Bool.eqb].
  unfold GenerateItinerary.tryBlock, LocationRecommendations.tryBlock, tryCatch.
  rewrite Hkey. cbn.
  destruct (Dispatcher.fetchWithRetry transport 3) as [tr res]; cbn in *.
  subst res. cbn. rewrite Hok. cbn.
  unfold responseJson. rewrite Hdata. cbn. rewrite Hcontent. cbn.
  rewrite !(resolve_parsed rt s m v _ Hm Hv). done.
Qed.

(** The browser on a status 200: the document it was sent. *)
Lemma browser_reads_document (rt : Runtime) (v : JSON) (destination : string)
    (request : GenerateItinerary.ItineraryRequest) :
  OpenAIService.getLocationRecommendations rt (Fulfilled (jsonResponse 200 v))
    destination = v /\
  OpenAIService.generateItinerary rt (Fulfilled (jsonResponse 200 v)) request
    = Fulfilled v.
Proof. split; reflexivity. Qed.

End StructuredCalls.

(** X27.  When the key is configured and the dispatcher delivers a
    response, the browser's location service returns the built-in
    recommendations naming the destination if the response is not ok or
    its completion holds no JSON text that decodes, and returns the
    decoded object if the completion's text holds one. *)
Theorem location_recommendations_from_the_browser (rt : Runtime) (env : Env)
    (transport : Dispatcher.Transport) (destination : string)
    (previousDestination : option string) (response : Response) :
  truthy (OPENAI_API_KEY env) = true ->
  snd (Dispatcher.fetchWithRetry transport 3) = Fulfilled response ->
  (ok response = false \/ unusableReply rt response ->
   EndToEnd.locationRecommendations rt env transport destination previousDestination
   = LocationRecommendations.createFallbackRecommendations destination) /\
  (forall s m v,
     completes rt response (Some (JStr s)) ->
     jsonMatch s = Some m ->
     JSON_parse rt m = Some v ->
     EndToEnd.locationRecommendations rt env transport destination
       previousDestination = v).
Proof.
  intros Hkey Hres. unfold EndToEnd.locationRecommendations. split.
  - intros Hbad.
    rewrite (location_fallback_paths rt _ env transport response Hkey Hres Hbad).
    apply (proj1 (browser_reads_document rt _ destination
                    Scenarios.undatedTrip)).
  - intros s m v Hreply Hm Hv.
    rewrite (proj2 (structured_parsed rt Scenarios.undatedTrip _ env transport
                      response s m v Hkey Hres Hreply Hm Hv)).
    apply (proj1 (browser_reads_document rt v destination Scenarios.undatedTrip)).
Qed.

Lemma location_recommendations_from_the_browser_witness :
  (ok (Reference.completion "Nothing to recommend.") = false \/
   unusableReply Reference.runtime (Reference.completion "Nothing to recommend.") ->
   EndToEnd.locationRecommendations Reference.runtime Examples.configured
     (Examples.replying "Nothing to recommend.") "Lisbon" (Some "Porto")
   = LocationRecommendations.createFallbackRecommendations "Lisbon") /\
  (forall s m v,
     completes Reference.runtime (Reference.completion "Nothing to recommend.")
       (Some (JStr s)) ->
     jsonMatch s = Some m ->
     JSON_parse Reference.runtime m = Some v ->
     EndToEnd.locationRecommendations Reference.runtime Examples.configured
       (Examples.replying "Nothing to recommend.") "Lisbon" (Some "Porto") = v).
Proof.
  apply (location_recommendations_from_the_browser Reference.runtime
           Examples.configured (Examples.replying "Nothing to recommend.")
           "Lisbon" (Some "Porto") (Reference.completion "Nothing to recommend."));
    reflexivity.
Defined.

(** X28.  When the key is configured and the dispatcher delivers a
    response, the browser's itinerary service returns the decoded object
    if the completion's text holds one; if the response is not ok or
    cannot be used and the start date is valid, it returns the fallback
    itinerary of the function, whose list of travel tips has four
    entries. *)
Theorem itinerary_from_the_browser (rt : Runtime) (env : Env)
    (transport : Dispatcher.Transport)
    (request : GenerateItinerary.ItineraryRequest) (response : Response) :
  truthy (OPENAI_API_KEY env) = true ->
  snd (Dispatcher.fetchWithRetry transport 3) = Fulfilled response ->
  (ok response = false \/ unusableReply rt response ->
   validDays rt (GenerateItinerary.startDate request)
                (GenerateItinerary.duration request) ->
   exists v tips,
     EndToEnd.itinerary rt env transport request = Fulfilled v /\
     GenerateItinerary.createFallbackItinerary rt None
       (GenerateItinerary.destinations request)
       (GenerateItinerary.startDate request)
       (GenerateItinerary.duration request) = Fulfilled v /\
     field "travelTips" v = Some (JArr tips) /\ length tips = 4%nat) /\
  (forall s m v,
     completes rt response (Some (JStr s)) ->
     jsonMatch s = Some m ->
     JSON_parse rt m = Some v ->
     EndToEnd.itinerary rt env transport request = Fulfilled v).
Proof.
  intros Hkey Hres. unfold EndToEnd.itinerary. split.
  - intros Hbad Hvalid.
    destruct (fallback_days_total rt (GenerateItinerary.destinations request)
                (GenerateItinerary.startDate request)
                (GenerateItinerary.duration request) Hvalid)
      as (days & Hdays & _ & _).
    assert (Hv : forall content,
      GenerateItinerary.createFallbackItinerary rt content
        (GenerateItinerary.destinations request)
        (GenerateItinerary.startDate request)
        (GenerateItinerary.duration request)
      = Fulfilled (JObj [
          ("days", JArr days);
          ("totalEstimatedCost", JInt (GenerateItinerary.duration request * 115));
          ("travelTips", JStrs [
             "Pack light and bring comfortable walking shoes";
             "Keep copies of important documents";
             "Learn basic phrases in the local language";
             "Research local customs and etiquette" ]);
          ("packingRecommendations", JStrs [
             "Comfortable walking shoes";
             "Weather-appropriate clothing";
             "Portable charger";
             "Travel adapter";
             "First aid kit" ]) ])).
    { intros content. unfold GenerateItinerary.createFallbackItinerary.
      rewrite Hdays. reflexivity. }
    eexists. eexists.
    rewrite (generate_fallback_paths rt "POST" request env transport response _
               ltac:(discriminate) Hkey Hres Hbad Hv).
    split; [apply (proj2 (browser_reads_document rt _ EmptyString request))|].
    split; [apply Hv|]. split; reflexivity.
  - intros s m v Hreply Hm Hv.
    rewrite (proj1 (structured_parsed rt request
                      (LocationRecommendations.mkLocationRequest EmptyString None)
                      env transport response s m v Hkey Hres Hreply Hm Hv)).
    apply (proj2 (browser_reads_document rt v EmptyString request)).
Qed.

Lemma itinerary_from_the_browser_witness :
  (ok (Reference.completion "I could not plan this trip.") = false \/
   unusableReply Reference.runtime
     (Reference.completion "I could not plan this trip.") ->
   validDays Reference.runtime (GenerateItinerary.startDate Examples.twoCities)
             (GenerateItinerary.duration Examples.twoCities) ->
   exists v tips,
     EndToEnd.itinerary Reference.runtime Examples.configured
       (Examples.replying "I could not plan this trip.") Examples.twoCities
       = Fulfilled v /\
     GenerateItinerary.createFallbackItinerary Reference.runtime None
       (GenerateItinerary.destinations Examples.twoCities)
       (GenerateItinerary.startDate Examples.twoCities)
       (GenerateItinerary.duration Examples.twoCities) = Fulfilled v /\
     field "travelTips" v = Some (JArr tips) /\ length tips = 4%nat) /\
  (forall s m v,
     completes Reference.runtime
       (Reference.completion "I could not plan this trip.") (Some (JStr s)) ->
     jsonMatch s = Some m ->
     JSON_parse Reference.runtime m = Some v ->
     EndToEnd.itinerary Reference.runtime Examples.configured
       (Examples.replying "I could not plan this trip.") Examples.twoCities
       = Fulfilled v).
Proof.
  apply (itinerary_from_the_browser Reference.runtime Examples.configured
           (Examples.replying "I could not plan this trip.") Examples.twoCities
           (Reference.completion "I could not plan this trip."));
    reflexivity.
Defined.
